(** * Investment screening: the criteria evaluation engine

    A shallow embedding of the rule engine of the repository
    ([backend/evaluator.py], [backend/utils/helpers.py],
    [config/settings.py] and the criteria pass of
    [backend/workflows/investment_screening.py]) together with the
    properties its specification states about it.

    Modelling conventions.
    - A Python [str] is a [string]. The model follows the interpreter
      on ASCII texts ([PyStr.ascii_text]): there [str.lower] only moves
      [A-Z] to [a-z], [\d] is [0-9] and [\s] is the ASCII white space.
      Outside ASCII the interpreter knows more digits, more white space
      and more cased letters than the model; a property that depends on
      them is stated for ASCII texts.
    - A Python [int] is a [Z]; [int] of a text raises beyond
      [PyNum.int_max_str_digits] digits, as the interpreter does.
    - A Python [float] is a binary64 value of the Standard Library's
      [spec_float]; a decimal numeral is rounded to the nearest value,
      ties to even, as [float] does.
    - A call that may raise ([float], [int]) returns an [option], [None]
      being the exception; the [float] extractors are proved never to
      raise, the [int] one not to raise within the digit limit.
    - [str] of a float, which only shows in explanation texts, is a
      parameter [repr_float]. *)

From Stdlib Require Import Bool List ZArith Lia Ascii String.
From Stdlib Require Import Floats.SpecFloat Numbers.DecimalString.
Import ListNotations.

Local Open Scope string_scope.
Local Open Scope Z_scope.

(** ** Python strings *)

Module PyStr.

Definition code (c : ascii) : N := N_of_ascii c.

Definition between (lo hi : N) (c : ascii) : bool :=
  (N.leb lo (code c) && N.leb (code c) hi)%bool.

Definition is_upper : ascii -> bool := between 65 90.
Definition is_lower : ascii -> bool := between 97 122.
Definition is_alpha (c : ascii) : bool := (is_upper c || is_lower c)%bool.

(** A character of the ASCII alphabet. *)
Definition is_ascii (c : ascii) : bool := N.ltb (code c) 128.

(** [\d] on ASCII text. *)
Definition is_digit : ascii -> bool := between 48 57.

(** [\s] on ASCII text: tab, line feed, vertical tab, form feed,
    carriage return, the four separators 28-31 and the blank. *)
Definition is_space (c : ascii) : bool :=
  (between 9 13 c || between 28 31 c || N.eqb (code c) 32)%bool.

(** [.] without DOTALL: anything but a line feed. *)
Definition not_newline (c : ascii) : bool := negb (N.eqb (code c) 10).

Definition lower_char (c : ascii) : ascii :=
  if is_upper c then ascii_of_N (code c + 32) else c.

Definition upper_char (c : ascii) : ascii :=
  if is_lower c then ascii_of_N (code c - 32) else c.

(** [str.lower] on ASCII text. *)
Fixpoint lower (s : string) : string :=
  match s with
  | EmptyString => EmptyString
  | String c s' => String (lower_char c) (lower s')
  end.

(** [str.title]: a cased character is upper-cased when it follows an
    uncased one and lower-cased otherwise. *)
Fixpoint title_from (prev_cased : bool) (s : string) : string :=
  match s with
  | EmptyString => EmptyString
  | String c s' =>
      String (if prev_cased then lower_char c else upper_char c)
             (title_from (is_alpha c) s')
  end.

Definition title (s : string) : string := title_from false s.

(** [s.startswith(p)] *)
Fixpoint startswith (p s : string) : bool :=
  match p, s with
  | EmptyString, _ => true
  | String a p', String b s' => (Ascii.eqb a b && startswith p' s')%bool
  | String _ _, EmptyString => false
  end.

(** [sub in s] *)
Fixpoint contains (sub s : string) : bool :=
  (startswith sub s ||
   match s with
   | EmptyString => false
   | String _ s' => contains sub s'
   end)%bool.

(** Truth value of a string: non-empty. *)
Definition truthy (s : string) : bool :=
  match s with EmptyString => false | String _ _ => true end.

Fixpoint all_chars (p : ascii -> bool) (s : string) : bool :=
  match s with
  | EmptyString => true
  | String c s' => (p c && all_chars p s')%bool
  end.

(** A text over the ASCII alphabet, where [lower], [is_digit] and
    [is_space] are the interpreter's [str.lower], [\d] and [\s]. *)
Definition ascii_text (s : string) : bool := all_chars is_ascii s.

(** The first [n] characters of [s]. *)
Fixpoint take (n : nat) (s : string) : string :=
  match n, s with
  | S k, String c s' => String c (take k s')
  | _, _ => EmptyString
  end.

(** [c * n] *)
Fixpoint repeat_char (c : ascii) (n : nat) : string :=
  match n with
  | O => EmptyString
  | S k => String c (repeat_char c k)
  end.

(** [str(n)] for an [int]. *)
Definition str_of_int (n : Z) : string :=
  NilZero.string_of_int (Z.to_int n).

End PyStr.

(** ** The fragment of [re] the extractors use

    A backtracking matcher in the list-of-successes style: [run r s g]
    lists, in the order the engine of [re] tries them, the ways [r] can
    match a prefix of [s]; each is the text left over and the content of
    the capturing group. *)

Module Re.
Import PyStr.

Inductive regex : Type :=
| Lit (l : string)                (* literal text *)
| Plus (p : ascii -> bool)        (* [c+], greedy *)
| Star (p : ascii -> bool)        (* [c*], greedy *)
| LazyStar (p : ascii -> bool)    (* [c*?] *)
| Opt (r : regex)                 (* [(?:r)?], greedy *)
| Seq (r1 r2 : regex)
| Group (r : regex).              (* [(r)], the capturing group *)

(** Suffixes left by [c*], longest match first. *)
Fixpoint greedy (p : ascii -> bool) (s : string) : list string :=
  match s with
  | EmptyString => [s]
  | String c s' => if p c then greedy p s' ++ [s] else [s]
  end.

(** Suffixes left by [c*?], shortest match first. *)
Fixpoint reluctant (p : ascii -> bool) (s : string) : list string :=
  s :: match s with
       | EmptyString => []
       | String c s' => if p c then reluctant p s' else []
       end.

Fixpoint drop_lit (l s : string) : option string :=
  match l, s with
  | EmptyString, _ => Some s
  | String a l', String b s' => if Ascii.eqb a b then drop_lit l' s' else None
  | String _ _, EmptyString => None
  end.

(** What was consumed between the text [s] and its suffix [s']. *)
Definition consumed (s s' : string) : string :=
  take (String.length s - String.length s') s.

Definition state : Type := string * option string.

Fixpoint run (r : regex) (s : string) (g : option string) : list state :=
  match r with
  | Lit l => match drop_lit l s with Some s' => [(s', g)] | None => [] end
  | Plus p =>
      match s with
      | String c s' => if p c then map (fun t => (t, g)) (greedy p s') else []
      | EmptyString => []
      end
  | Star p => map (fun t => (t, g)) (greedy p s)
  | LazyStar p => map (fun t => (t, g)) (reluctant p s)
  | Opt r1 => run r1 s g ++ [(s, g)]
  | Seq r1 r2 => flat_map (fun st => run r2 (fst st) (snd st)) (run r1 s g)
  | Group r1 => map (fun st => (fst st, Some (consumed s (fst st)))) (run r1 s g)
  end.

(** [pattern.match] at the start of [s]: the first success. *)
Definition match_at (r : regex) (s : string) : option (string * string) :=
  match run r s None with
  | (rest, g) :: _ => Some (rest, match g with Some w => w | None => "" end)
  | [] => None
  end.

(** [re.findall]: the group of every match, left to right, a match
    starting where the previous one ended. [skip] counts the characters
    of the current match still to pass. The patterns of this program
    consume at least one character. *)
Fixpoint findall_from (r : regex) (s : string) (skip : nat) : list string :=
  match s with
  | EmptyString =>
      match skip, match_at r s with
      | O, Some (_, w) => [w]
      | _, _ => []
      end
  | String _ s' =>
      match skip with
      | S k => findall_from r s' k
      | O =>
          match match_at r s with
          | Some (rest, w) =>
              w :: findall_from r s' (String.length s - String.length rest - 1)
          | None => findall_from r s' 0
          end
      end
  end.

Definition findall (r : regex) (s : string) : list string :=
  findall_from r s 0.

(** [\d+(?:\.\d+)?] *)
Definition number : regex :=
  Seq (Plus is_digit) (Opt (Seq (Lit ".") (Plus is_digit))).

End Re.

(** ** Python numbers *)

Module PyNum.
Import PyStr.

Definition float : Type := spec_float.

Definition prec : Z := 53.
Definition emax : Z := 1024.

Definition digit_value (c : ascii) : N := code c - 48.

(** Value of a run of decimal digits, most significant first. *)
Fixpoint digits_from (acc : N) (s : string) : N :=
  match s with
  | EmptyString => acc
  | String c s' => digits_from (10 * acc + digit_value c) s'
  end.

Definition digits_value (s : string) : N := digits_from 0 s.

Fixpoint pow10 (k : nat) : positive :=
  match k with
  | O => 1
  | S k' => 10 * pow10 k'
  end.

(** The binary64 nearest to [n / 10^k], ties to even. *)
Definition round_decimal (n : N) (k : nat) : float :=
  match n with
  | N0 => S754_zero false
  | Npos m =>
      SFdiv prec emax (S754_finite false m 0)
                      (S754_finite false (pow10 k) 0)
  end.

(** The longest prefix of [s] made of digits, and the rest. *)
Fixpoint span_digits (s : string) : string * string :=
  match s with
  | EmptyString => (EmptyString, EmptyString)
  | String c s' =>
      if is_digit c
      then let (d, rest) := span_digits s' in (String c d, rest)
      else (EmptyString, s)
  end.

(** [float(w)] for [w] a numeral [digits] or [digits.digits], the only
    arguments the extractors pass; [None], the [ValueError], on anything
    else (the other forms [float] accepts are left out). *)
Definition float_of_str (w : string) : option float :=
  match span_digits w with
  | (EmptyString, _) => None
  | (ip, EmptyString) => Some (round_decimal (digits_value ip) 0)
  | (ip, String c fp) =>
      if (Ascii.eqb c "." && truthy fp && all_chars is_digit fp)%bool
      then Some (round_decimal (digits_value (ip ++ fp)) (String.length fp))
      else None
  end.

(** [sys.int_info.default_max_str_digits]: the most digits [int]
    converts; leading zeros count. *)
Definition int_max_str_digits : nat := 4300.

(** [int(w)] for [w] a run of digits, the only arguments the extractors
    pass; [None], the [ValueError], on anything else and on a run of
    more than [int_max_str_digits] digits. *)
Definition int_of_str (w : string) : option Z :=
  if (truthy w && all_chars is_digit w &&
      Nat.leb (String.length w) int_max_str_digits)%bool
  then Some (Z.of_N (digits_value w))
  else None.

(** A float literal of the source text. *)
Definition literal (w : string) : float :=
  match float_of_str w with Some f => f | None => S754_nan end.

(** [float(n)] for the small integers the source compares floats with. *)
Definition of_int (n : Z) : float := binary_normalize prec emax n 0 false.

(** [a >= b], [a > b], [a < b] and [a == b] on floats. *)
Definition fge (a b : float) : bool := SFleb b a.
Definition fgt (a b : float) : bool := SFltb b a.
Definition flt (a b : float) : bool := SFltb a b.
Definition feq (a b : float) : bool := SFeqb a b.

(** Zero, a positive finite value or plus infinity: what [float]
    gives on a numeral. *)
Definition nonneg (a : float) : bool :=
  match a with
  | S754_zero false | S754_infinity false | S754_finite false _ _ => true
  | _ => false
  end.

(** [a * b] *)
Definition mul (a b : float) : float := SFmul prec emax a b.

End PyNum.

(** A call that may raise: [None] is the exception, which propagates. *)
Notation "x <- e ;; k" :=
  (match e with Some x => k | None => None end)
  (at level 61, e at next level, right associativity).

(** ** [config/settings.py] *)

Module settings.
Import PyNum.

(** Investment criteria thresholds *)
Definition MIN_INVESTMENT_SIZE : float := literal "5.0".
Definition PREFERRED_INVESTMENT_SIZE : float := literal "7.9".
Definition MIN_IRR_THRESHOLD : float := literal "15.0".
Definition MIN_DIVIDEND_YIELD : float := literal "4.0".
Definition MIN_TIMELINE_WEEKS : Z := 8.
Definition MIN_KGI_TIMELINE_WEEKS : Z := 3.

Definition TARGET_SECTORS : list string :=
  [ "healthcare"; "education"; "data economy"; "energy transition";
    "industrials" ].

Definition EXCLUDED_SECTORS : list string :=
  [ "consumer"; "traditional infrastructure" ].

Definition FUND_TYPES : list string :=
  [ "venture fund"; "pe fund"; "hedge fund"; "fund investment";
    "pooled investment" ].

(** [class EvaluationStatus]: the two status constants. *)
Inductive EvaluationStatus : Type := MET | NOT_MET.

Definition status_text (st : EvaluationStatus) : string :=
  match st with MET => "MET" | NOT_MET => "NOT MET" end.

Definition status_eqb (a b : EvaluationStatus) : bool :=
  match a, b with
  | MET, MET | NOT_MET, NOT_MET => true
  | _, _ => false
  end.

(** The two display glyphs, as their UTF-8 text. *)
Definition STATUS_COLORS (st : EvaluationStatus) : string :=
  match st with MET => "🟢" | NOT_MET => "🔴" end.

End settings.

(** ** [utils/helpers.py] *)

Module helpers.
Import PyStr PyNum Re settings.

(** The dictionary every evaluator returns. *)
Record Verdict : Type := mkVerdict {
  status : EvaluationStatus;
  explanation : string;
  color : string
}.

Definition create_evaluation_result
    (st : EvaluationStatus) (expl : string) : Verdict :=
  {| status := st; explanation := expl; color := STATUS_COLORS st |}.

(** [\$(\d+(?:\.\d+)?)\s*m] *)
Definition amount_pattern : regex :=
  Seq (Lit "$") (Seq (Group number) (Seq (Star is_space) (Lit "m"))).

(** [(\d+)\s*week] *)
Definition week_pattern : regex :=
  Seq (Group (Plus is_digit)) (Seq (Star is_space) (Lit "week")).

(** [irr.*?(\d+(?:\.\d+)?)\s*%] *)
Definition irr_pattern : regex :=
  Seq (Lit "irr")
      (Seq (LazyStar not_newline)
           (Seq (Group number) (Seq (Star is_space) (Lit "%")))).

(** [(\d+(?:\.\d+)?)\s*%] *)
Definition yield_pattern : regex :=
  Seq (Group number) (Seq (Star is_space) (Lit "%")).

Definition extract_investment_amount (analysis_text : string) : option float :=
  match findall amount_pattern (lower analysis_text) with
  | m :: _ => float_of_str m
  | [] => Some (literal "0.0")
  end.

Definition extract_timeline_weeks (analysis_text : string) : option Z :=
  match findall week_pattern (lower analysis_text) with
  | m :: _ => int_of_str m
  | [] => Some 0
  end.

Definition extract_irr_percentage (analysis_text : string) : option float :=
  match findall irr_pattern (lower analysis_text) with
  | m :: _ => float_of_str m
  | [] => Some (literal "0.0")
  end.

(** The [for] loop of [extract_yield_percentage]. *)
Fixpoint first_yield (yield_matches : list string) : option float :=
  match yield_matches with
  | [] => Some (literal "0.0")
  | m :: rest =>
      yield_val <- float_of_str m ;;
      if fgt yield_val (of_int 1) then Some yield_val else first_yield rest
  end.

Definition extract_yield_percentage (analysis_text : string) : option float :=
  first_yield (findall yield_pattern analysis_text).

Definition check_keywords_present
    (analysis_text : string) (keywords : list string) : bool :=
  let text_lower := lower analysis_text in
  existsb (fun keyword => contains (lower keyword) text_lower) keywords.

Definition check_all_keywords_present
    (analysis_text : string) (keywords : list string) : bool :=
  let text_lower := lower analysis_text in
  forallb (fun keyword => contains (lower keyword) text_lower) keywords.

(** A [dict] with string keys, in insertion order. *)
Definition dict (A : Type) : Type := list (string * A).

Fixpoint dict_set {A : Type} (d : dict A) (k : string) (v : A) : dict A :=
  match d with
  | [] => [(k, v)]
  | (k', v') :: d' =>
      if String.eqb k' k then (k', v) :: d' else (k', v') :: dict_set d' k v
  end.

Definition dict_values {A : Type} (d : dict A) : list A := map snd d.

Definition count_met_criteria (criteria_evaluations : dict Verdict) : Z :=
  fold_right
    (fun criteria acc =>
       if status_eqb (status criteria) MET then 1 + acc else acc)
    0 (dict_values criteria_evaluations).

Definition generate_overall_recommendation (met_count total_count : Z) : string :=
  if met_count >=? 7 then "RECOMMEND for further due diligence"
  else if met_count >=? 5 then "CONDITIONAL RECOMMEND - address key gaps"
  else "DO NOT RECOMMEND - insufficient criteria met".

Section Formatting.
(** [str] of a float, the text an f-string puts for it. *)
Variable repr_float : float -> string.

Definition format_currency (amount : float) : string :=
  if fge amount (of_int 1) then "$" ++ repr_float amount ++ "m"
  else if fgt amount (of_int 0)
       then "$" ++ repr_float (mul amount (of_int 1000)) ++ "k"
       else "Not specified".

Definition format_percentage (percentage : float) : string :=
  if fgt percentage (of_int 0) then repr_float percentage ++ "%"
  else "Not specified".
End Formatting.

(** A stand-in for [str] on floats, to run the evaluators on sample
    texts; no status depends on it. *)
Definition repr_opaque (f : float) : string := "<float>".

End helpers.

(** ** [evaluator.py]: the nine criteria *)

Module evaluator.
Import PyStr PyNum Re settings helpers.

Section Evaluators.
(** [str] of a float, the text an f-string puts for it. *)
Variable repr_float : float -> string.

(** *** Criterion 1: Geography/Structure *)

Definition _check_gcc_jv_opportunity (analysis_text : string) : bool :=
  let gcc_present := check_keywords_present analysis_text ["gcc"] in
  let jv_present := check_keywords_present analysis_text ["joint venture"; "jv"] in
  let expansion_indicators :=
    check_keywords_present analysis_text
      ["expansion"; "partner"; "business model"; "proven"] in
  (gcc_present && jv_present && expansion_indicators)%bool.

Definition _check_dividend_opportunity (analysis_text : string) : option bool :=
  let dividend_present := check_keywords_present analysis_text ["dividend"] in
  if negb dividend_present then Some false
  else
    yield_percentage <- extract_yield_percentage analysis_text ;;
    Some (fgt yield_percentage MIN_DIVIDEND_YIELD).

Definition _check_kgi_opportunity (analysis_text : string) : bool :=
  let kgi_present := check_keywords_present analysis_text ["kgi"] in
  let coinvestment_present :=
    check_keywords_present analysis_text ["co-investment"; "participation"] in
  (kgi_present && coinvestment_present)%bool.

Definition evaluate_geography_structure (analysis_text : string) : option Verdict :=
  let gcc_jv_found := _check_gcc_jv_opportunity analysis_text in
  dividend_found <- _check_dividend_opportunity analysis_text ;;
  let kgi_found := _check_kgi_opportunity analysis_text in
  Some
    (if gcc_jv_found then
       create_evaluation_result MET
         "GCC JV opportunity identified with expansion plans and partner structure"
     else if dividend_found then
       create_evaluation_result MET
         ("Dividend-paying investment with yield greater than "
            ++ repr_float MIN_DIVIDEND_YIELD ++ "%")
     else if kgi_found then
       create_evaluation_result MET "KGI co-investment opportunity identified"
     else
       create_evaluation_result NOT_MET
         ("Does not meet any of the three required categories: GCC JV, dividend-paying (>"
            ++ repr_float MIN_DIVIDEND_YIELD ++ "%), or KGI co-investment")).

(** *** Criterion 2: Financial Milestones *)

Definition _check_new_jv (analysis_text : string) : bool :=
  let new_present := check_keywords_present analysis_text ["new"] in
  let jv_present := check_keywords_present analysis_text ["joint venture"; "jv"] in
  (new_present && jv_present)%bool.

Definition _check_ebitda_positive (analysis_text : string) : bool :=
  check_keywords_present analysis_text ["ebitda positive"; "positive ebitda"].

Definition _check_timeline_within_year (analysis_text : string) : bool :=
  check_keywords_present analysis_text
    ["within one year"; "12 months"; "less than a year"].

Definition _check_additional_funding_needed (analysis_text : string) : bool :=
  check_keywords_present analysis_text
    ["additional funding"; "more funding"; "next round"; "series"].

Definition evaluate_financial_milestones (analysis_text : string) : Verdict :=
  let is_new_jv := _check_new_jv analysis_text in
  if is_new_jv then create_evaluation_result MET "Not applicable - New JV"
  else
    let ebitda_positive := _check_ebitda_positive analysis_text in
    if ebitda_positive then
      create_evaluation_result MET "Company is already EBITDA positive"
    else
      let timeline_within_year := _check_timeline_within_year analysis_text in
      let additional_funding_needed :=
        _check_additional_funding_needed analysis_text in
      if (timeline_within_year && negb additional_funding_needed)%bool then
        create_evaluation_result MET
          "Timeline to positive EBITDA is within one year with current funding"
      else
        create_evaluation_result NOT_MET
          "Timeline exceeds one year or additional funding rounds needed before profitability".

(** *** Criterion 3: Asset Class Exclusion *)

Definition _check_fund_investment (analysis_text : string) : bool :=
  check_keywords_present analysis_text FUND_TYPES.

Definition _check_direct_investment (analysis_text : string) : bool :=
  check_keywords_present analysis_text
    ["company"; "business"; "startup"; "direct investment"].

Definition evaluate_asset_class_exclusion (analysis_text : string) : Verdict :=
  let is_fund := _check_fund_investment analysis_text in
  if is_fund then
    create_evaluation_result NOT_MET
      "Fund investment identified - excluded due to team bandwidth and 2025 objectives"
  else
    let is_direct := _check_direct_investment analysis_text in
    if is_direct then
      create_evaluation_result MET "Direct company investment identified"
    else
      create_evaluation_result NOT_MET "Asset class information unclear or absent".

(** *** Criterion 4: Investor Syndication *)

Definition _check_lead_investor (analysis_text : string) : bool :=
  check_keywords_present analysis_text ["lead investor"].

Definition evaluate_investor_syndication (analysis_text : string) : Verdict :=
  let lead_investor_mentioned := _check_lead_investor analysis_text in
  if lead_investor_mentioned then
    create_evaluation_result MET "Lead investor identified in syndicate"
  else
    create_evaluation_result MET
      "No lead investor identified - not a rejection criterion per Kanoo Ventures policy".

(** *** Criterion 5: Fee Terms *)

Definition _check_no_management_fees (analysis_text : string) : bool :=
  check_keywords_present analysis_text
    ["no management fee"; "no direct management fee"].

Definition _check_management_fees_present (analysis_text : string) : bool :=
  let management_fee_present :=
    check_keywords_present analysis_text ["management fee"] in
  let no_management_fee := _check_no_management_fees analysis_text in
  (management_fee_present && negb no_management_fee)%bool.

Definition evaluate_fee_terms (analysis_text : string) : Verdict :=
  let no_management_fees := _check_no_management_fees analysis_text in
  let management_fees_present := _check_management_fees_present analysis_text in
  if no_management_fees then
    create_evaluation_result MET
      "No direct management fees that would impact KV P&L"
  else if management_fees_present then
    create_evaluation_result NOT_MET
      "Management fees present that would hit KV P&L"
  else
    create_evaluation_result NOT_MET
      "Fee information not mentioned - missing information counts as red".

(** *** Criterion 6: Investment Size *)

Definition evaluate_investment_size (analysis_text : string) : option Verdict :=
  investment_amount <- extract_investment_amount analysis_text ;;
  Some
    (if fge investment_amount PREFERRED_INVESTMENT_SIZE then
       create_evaluation_result MET
         ("Investment size " ++ format_currency repr_float investment_amount
            ++ " meets preferred threshold with strong preference noted")
     else if fge investment_amount MIN_INVESTMENT_SIZE then
       create_evaluation_result MET
         ("Investment size " ++ format_currency repr_float investment_amount
            ++ " meets minimum threshold with note about preference for larger tickets")
     else if (fgt investment_amount (of_int 0)
              && flt investment_amount MIN_INVESTMENT_SIZE)%bool then
       create_evaluation_result NOT_MET
         ("Investment size " ++ format_currency repr_float investment_amount
            ++ " below $" ++ repr_float MIN_INVESTMENT_SIZE
            ++ "m minimum - portfolio management concerns about too many small deals")
     else
       create_evaluation_result NOT_MET "Investment size not specified").

(** *** Criterion 7: Process Timeline *)

Definition _check_kgi_coinvestment (analysis_text : string) : bool :=
  let kgi_present := check_keywords_present analysis_text ["kgi"] in
  let coinvestment_present :=
    check_keywords_present analysis_text ["co-investment"; "participation"] in
  (kgi_present && coinvestment_present)%bool.

Definition evaluate_process_timeline (analysis_text : string) : option Verdict :=
  timeline_weeks <- extract_timeline_weeks analysis_text ;;
  let is_kgi_coinvestment := _check_kgi_coinvestment analysis_text in
  Some
    (if (is_kgi_coinvestment && (timeline_weeks >=? MIN_KGI_TIMELINE_WEEKS))%bool then
       create_evaluation_result MET
         ("KGI co-investment with " ++ str_of_int timeline_weeks
            ++ " week timeline meets lighter diligence requirements")
     else if timeline_weeks >=? MIN_TIMELINE_WEEKS then
       create_evaluation_result MET
         ("Timeline of " ++ str_of_int timeline_weeks
            ++ " weeks meets standard deal requirements")
     else if timeline_weeks >? 0 then
       create_evaluation_result NOT_MET
         ("Timeline of " ++ str_of_int timeline_weeks
            ++ " weeks too short - risk of reduced diligence quality")
     else
       create_evaluation_result NOT_MET "Timeline information absent").

(** *** Criterion 8: Return Threshold *)

Definition _check_low_risk (analysis_text : string) : bool :=
  check_keywords_present analysis_text ["low risk"; "low-risk"].

Definition evaluate_return_threshold (analysis_text : string) : option Verdict :=
  irr_percentage <- extract_irr_percentage analysis_text ;;
  let low_risk_mentioned := _check_low_risk analysis_text in
  Some
    (if fge irr_percentage MIN_IRR_THRESHOLD then
       create_evaluation_result MET
         ("IRR of " ++ format_percentage repr_float irr_percentage
            ++ " meets " ++ repr_float MIN_IRR_THRESHOLD ++ "% threshold")
     else if (fgt irr_percentage (of_int 0)
              && flt irr_percentage MIN_IRR_THRESHOLD
              && low_risk_mentioned)%bool then
       create_evaluation_result MET
         ("IRR of " ++ format_percentage repr_float irr_percentage
            ++ " below " ++ repr_float MIN_IRR_THRESHOLD
            ++ "% but justified as low-risk opportunity")
     else if (fgt irr_percentage (of_int 0)
              && flt irr_percentage MIN_IRR_THRESHOLD)%bool then
       create_evaluation_result NOT_MET
         ("IRR of " ++ format_percentage repr_float irr_percentage
            ++ " below " ++ repr_float MIN_IRR_THRESHOLD
            ++ "% without low-risk justification")
     else
       create_evaluation_result NOT_MET "Return projections not provided").

(** *** Criterion 9: Sector Focus *)

(** The [for] loop of [_find_target_sector]. *)
Fixpoint first_sector (sectors : list string) (analysis_text : string) : string :=
  match sectors with
  | [] => ""
  | sector :: rest =>
      if contains sector (lower analysis_text) then sector
      else first_sector rest analysis_text
  end.

Definition _find_target_sector (analysis_text : string) : string :=
  first_sector TARGET_SECTORS analysis_text.

Definition evaluate_sector_focus
    (analysis_text : string) (met_criteria_count : Z) : Verdict :=
  let sector_found := _find_target_sector analysis_text in
  let consumer_found := check_keywords_present analysis_text EXCLUDED_SECTORS in
  if truthy sector_found then
    create_evaluation_result MET
      ("Company operates in " ++ title sector_found ++ " - target sector")
  else if consumer_found then
    create_evaluation_result NOT_MET
      "Company in consumer or traditional infrastructure sectors"
  else if met_criteria_count >=? 6 then
    create_evaluation_result MET
      "Opportunistic - meets other criteria and not in excluded sectors"
  else
    create_evaluation_result NOT_MET "Sector information not clear".

End Evaluators.

End evaluator.

(** ** [workflows/investment_screening.py]: the criteria pass *)

Module workflow.
Import PyStr PyNum settings helpers evaluator.

Section Workflow.
Variable repr_float : float -> string.

(** The eight context-free criteria, in the order they are stored. *)
Definition evaluate_first_eight (detailed_analysis : string)
    : option (dict Verdict) :=
  let criteria_evaluations : dict Verdict := [] in
  v1 <- evaluate_geography_structure repr_float detailed_analysis ;;
  let criteria_evaluations :=
    dict_set criteria_evaluations "Geography/Structure" v1 in
  let criteria_evaluations :=
    dict_set criteria_evaluations "Financial Milestones"
      (evaluate_financial_milestones detailed_analysis) in
  let criteria_evaluations :=
    dict_set criteria_evaluations "Asset Class Exclusion"
      (evaluate_asset_class_exclusion detailed_analysis) in
  let criteria_evaluations :=
    dict_set criteria_evaluations "Investor Syndication"
      (evaluate_investor_syndication detailed_analysis) in
  let criteria_evaluations :=
    dict_set criteria_evaluations "Fee Terms"
      (evaluate_fee_terms detailed_analysis) in
  v6 <- evaluate_investment_size repr_float detailed_analysis ;;
  let criteria_evaluations :=
    dict_set criteria_evaluations "Investment Size" v6 in
  v7 <- evaluate_process_timeline detailed_analysis ;;
  let criteria_evaluations :=
    dict_set criteria_evaluations "Process Timeline" v7 in
  v8 <- evaluate_return_threshold repr_float detailed_analysis ;;
  Some (dict_set criteria_evaluations "Return Threshold" v8).

Definition _evaluate_all_criteria (detailed_analysis : string)
    : option (dict Verdict) :=
  criteria_evaluations <- evaluate_first_eight detailed_analysis ;;
  let met_count := count_met_criteria criteria_evaluations in
  Some (dict_set criteria_evaluations "Sector Focus"
          (evaluate_sector_focus detailed_analysis met_count)).

(** The count and the recommendation [_generate_final_report] puts in
    the report. *)
Definition report_recommendation (criteria_evaluations : dict Verdict) : string :=
  let met_count := count_met_criteria criteria_evaluations in
  let total_count := Z.of_nat (List.length criteria_evaluations) in
  generate_overall_recommendation met_count total_count.

End Workflow.

End workflow.

(** ** What a pattern matches

    The words a pattern can consume, and two syntactic facts about its
    capturing group, used to show that the extractors only hand well
    formed numerals to [float] and [int]. *)

Module ReSpec.
Import PyStr Re.

Fixpoint lang (r : regex) (w : string) : Prop :=
  match r with
  | Lit l => w = l
  | Plus p => w <> "" /\ all_chars p w = true
  | Star p => all_chars p w = true
  | LazyStar p => all_chars p w = true
  | Opt r1 => w = "" \/ lang r1 w
  | Seq r1 r2 => exists w1 w2, w = w1 ++ w2 /\ lang r1 w1 /\ lang r2 w2
  | Group r1 => lang r1 w
  end.

(** Every group of [r] only encloses words of [Q]. *)
Fixpoint groups_in (Q : string -> Prop) (r : regex) : Prop :=
  match r with
  | Opt r1 => groups_in Q r1
  | Seq r1 r2 => groups_in Q r1 /\ groups_in Q r2
  | Group r1 => (forall w, lang r1 w -> Q w) /\ groups_in Q r1
  | _ => True
  end.

(** Every match of [r] goes through a group. *)
Fixpoint sets_group (r : regex) : bool :=
  match r with
  | Seq r1 r2 => (sets_group r1 || sets_group r2)%bool
  | Group _ => true
  | _ => false
  end.

Definition holds (Q : string -> Prop) (g : option string) : Prop :=
  match g with Some w => Q w | None => True end.

(** The numerals: [digits] and [digits.digits]. *)
Definition numeral (w : string) : Prop :=
  exists ip fp,
    ip <> "" /\ all_chars is_digit ip = true /\ all_chars is_digit fp = true /\
    (w = ip \/ (fp <> "" /\ w = ip ++ "." ++ fp)).

Definition digits (w : string) : Prop :=
  w <> "" /\ all_chars is_digit w = true.

End ReSpec.

From Stdlib Require Import Permutation.

(** ** Reading a [dict] *)

Module PyDict.
Import helpers.

(** [d[k]]; [None] is the [KeyError]. *)
Fixpoint dict_get {A : Type} (d : dict A) (k : string) : option A :=
  match d with
  | [] => None
  | (k', v) :: d' => if String.eqb k' k then Some v else dict_get d' k
  end.

End PyDict.

(** ** A verdict as [create_evaluation_result] builds it *)

Module VerdictSpec.
Import settings helpers.

(** The glyph is the one of the status and the explanation says
    something. *)
Definition well_formed (v : Verdict) : Prop :=
  color v = STATUS_COLORS (status v) /\ explanation v <> "".

End VerdictSpec.

(** ** [re.search] under [re.IGNORECASE] *)

Module ReSearch.
Import PyStr Re.

(** A literal is compared up to case. *)
Fixpoint drop_lit_ic (l s : string) : option string :=
  match l, s with
  | EmptyString, _ => Some s
  | String a l', String b s' =>
      if Ascii.eqb (lower_char a) (lower_char b) then drop_lit_ic l' s' else None
  | String _ _, EmptyString => None
  end.

(** [run] with the flag set; the classes of this program ([\s], [:],
    [\n], [\r], [.]) hold no letter, so only literals change. *)
Fixpoint run_ic (r : regex) (s : string) (g : option string) : list state :=
  match r with
  | Lit l => match drop_lit_ic l s with Some s' => [(s', g)] | None => [] end
  | Plus p =>
      match s with
      | String c s' => if p c then map (fun t => (t, g)) (greedy p s') else []
      | EmptyString => []
      end
  | Star p => map (fun t => (t, g)) (greedy p s)
  | LazyStar p => map (fun t => (t, g)) (reluctant p s)
  | Opt r1 => run_ic r1 s g ++ [(s, g)]
  | Seq r1 r2 => flat_map (fun st => run_ic r2 (fst st) (snd st)) (run_ic r1 s g)
  | Group r1 => map (fun st => (fst st, Some (consumed s (fst st)))) (run_ic r1 s g)
  end.

Definition match_at_ic (r : regex) (s : string) : option (string * string) :=
  match run_ic r s None with
  | (rest, g) :: _ => Some (rest, match g with Some w => w | None => "" end)
  | [] => None
  end.

(** [re.search(r, s, re.IGNORECASE)]: the group of the leftmost match,
    [None] without a match. *)
Fixpoint search_ic (r : regex) (s : string) : option string :=
  match match_at_ic r s with
  | Some (_, w) => Some w
  | None =>
      match s with
      | EmptyString => None
      | String _ s' => search_ic r s'
      end
  end.

End ReSearch.

(** ** What a pattern matches under [re.IGNORECASE] *)

Module ReSearchSpec.
Import PyStr Re.

Fixpoint lang_ic (r : regex) (w : string) : Prop :=
  match r with
  | Lit l => lower w = lower l
  | Plus p => w <> "" /\ all_chars p w = true
  | Star p => all_chars p w = true
  | LazyStar p => all_chars p w = true
  | Opt r1 => w = "" \/ lang_ic r1 w
  | Seq r1 r2 => exists w1 w2, w = w1 ++ w2 /\ lang_ic r1 w1 /\ lang_ic r2 w2
  | Group r1 => lang_ic r1 w
  end.

Fixpoint groups_in_ic (Q : string -> Prop) (r : regex) : Prop :=
  match r with
  | Opt r1 => groups_in_ic Q r1
  | Seq r1 r2 => groups_in_ic Q r1 /\ groups_in_ic Q r2
  | Group r1 => (forall w, lang_ic r1 w -> Q w) /\ groups_in_ic Q r1
  | _ => True
  end.

End ReSearchSpec.

(** ** Where a greedy run ends *)

Module ReFirst.

(** [rest] does not go on with a character of [p]. *)
Definition stops (p : ascii -> bool) (rest : string) : Prop :=
  match rest with
  | EmptyString => True
  | String c _ => p c = false
  end.

End ReFirst.

(** ** [utils/helpers.py]: the company name *)

Module helpers_company.
Import PyStr Re ReSearch.

(** [str.lstrip], [str.rstrip] and [str.strip] without argument. *)
Fixpoint lstrip (s : string) : string :=
  match s with
  | EmptyString => EmptyString
  | String c s' => if is_space c then lstrip s' else s
  end.

Fixpoint rstrip (s : string) : string :=
  match s with
  | EmptyString => EmptyString
  | String c s' =>
      match rstrip s' with
      | EmptyString => if is_space c then EmptyString else String c EmptyString
      | t => String c t
      end
  end.

Definition strip (s : string) : string := rstrip (lstrip s).

(** [[:\s]] *)
Definition colon_or_space (c : ascii) : bool :=
  (N.eqb (code c) 58 || is_space c)%bool.

(** [[^\n\r\.]] *)
Definition name_char (c : ascii) : bool :=
  negb (N.eqb (code c) 10 || N.eqb (code c) 13 || N.eqb (code c) 46).

(** [company name[:\s]+([^\n\r\.]+)] *)
Definition company_pattern : regex :=
  Seq (Lit "company name") (Seq (Plus colon_or_space) (Group (Plus name_char))).

Definition extract_company_name (analysis_text : string) : string :=
  match search_ic company_pattern analysis_text with
  | Some group1 => strip group1
  | None => "Unknown Company"
  end.

End helpers_company.

(** ** Where the first label is *)

Module helpers_company_spec.
Import PyStr.

(** ["company name"] starts at no position of [pre] in the lower-cased
    [pre ++ after]. *)
Fixpoint no_label_before (pre after : string) : bool :=
  match pre with
  | EmptyString => true
  | String _ t =>
      (negb (startswith "company name" (lower (pre ++ after)))
       && no_label_before t after)%bool
  end.

End helpers_company_spec.

(** ** [config/settings.py]: the workflow configuration *)

Module settings_workflow.

Definition MAX_WAIT_TIME : Z := 300.
Definition POLL_INTERVAL : Z := 5.
Definition MAX_DOCUMENTS_PER_BATCH : nat := 5.

End settings_workflow.

(** ** [workflows/investment_screening.py]: the analysis in batches *)

Module workflow_analysis.
Import settings_workflow.

(** The values [i] takes in [for i in range(0, stop, step)], for a
    positive [step]; [fuel] bounds the number of rounds. *)
Fixpoint range_from (fuel i stop step : nat) : list nat :=
  match fuel with
  | O => []
  | S fuel' =>
      if (i <? stop)%nat then i :: range_from fuel' (i + step) stop step else []
  end.

Definition range_step (stop step : nat) : list nat :=
  range_from stop 0 stop step.

(** [l[i:j]] for [0 <= i <= j]. *)
Definition slice {A : Type} (l : list A) (i j : nat) : list A :=
  firstn (j - i) (skipn i l).

(** [sep.join(l)] *)
Fixpoint join (sep : string) (l : list string) : string :=
  match l with
  | [] => ""
  | [x] => x
  | x :: rest => x ++ sep ++ join sep rest
  end.

Definition blank_line : string := String "010" (String "010" "").

Section Analysis.
(** The fixed prompt, and the client's analysis call ([None] when it
    raises). *)
Variable analysis_query : string.
Variable analyze_documents_with_polling : string -> list string -> option string.

(** The [for] loop over the batches. *)
Fixpoint analyze_batches (starts : list nat) (document_ids : list string)
    (analysis_results : list string) : option (list string) :=
  match starts with
  | [] => Some analysis_results
  | i :: rest =>
      let batch := slice document_ids i (i + MAX_DOCUMENTS_PER_BATCH) in
      result <- analyze_documents_with_polling analysis_query batch ;;
      analyze_batches rest document_ids (analysis_results ++ [result])%list
  end.

Definition _analyze_documents (document_ids : list string) : option string :=
  if (MAX_DOCUMENTS_PER_BATCH <? List.length document_ids)%nat then
    analysis_results <-
      analyze_batches (range_step (List.length document_ids) MAX_DOCUMENTS_PER_BATCH)
                      document_ids [] ;;
    Some (join blank_line analysis_results)
  else
    analyze_documents_with_polling analysis_query document_ids.

End Analysis.

End workflow_analysis.

(** ** [clients/paradigm_client.py]: polling for the analysis

    The service is a sequence of answers: [get n] is the answer to the
    [n]-th poll. An answer is its HTTP status, its text and the fields
    of its JSON body the client reads, taken to be strings when they
    are present. *)

Module paradigm_client.
Import PyStr settings_workflow.

Record answer : Type := mkAnswer {
  http_status : Z;
  text : string;                          (* [response.text()] *)
  field_status : option string;           (* ["status"] *)
  field_result : option string;           (* ["result"] *)
  field_detailed_analysis : option string (* ["detailed_analysis"] *)
}.

(** What a call ends with: a value, or an exception and its message. *)
Inductive outcome : Type :=
| Returned (value : string)
| Raised (message : string).

(** [x in l] for strings. *)
Definition str_in (x : string) (l : list string) : bool :=
  existsb (String.eqb x) l.

(** [d.get(key, default)] *)
Definition get_default (field : option string) (default : string) : string :=
  match field with Some v => v | None => default end.

(** [a or b] where [a] is an optional string: [b] when [a] is missing
    or empty. *)
Definition or_else (a : option string) (b : string) : string :=
  match a with
  | Some v => if truthy v then v else b
  | None => b
  end.

(** One round of the [while] loop on the answer [r]: [None] when the
    loop goes on. *)
Definition poll_round (r : answer) : option outcome :=
  if http_status r =? 200 then
    let status := get_default (field_status r) "" in
    if str_in (lower status) ["completed"; "complete"; "finished"; "success"] then
      Some (Returned
              (or_else (field_result r)
                 (or_else (field_detailed_analysis r) "Analysis completed")))
    else if str_in (lower status) ["failed"; "error"] then
      Some (Raised ("Analysis failed: " ++ status))
    else None
  else if http_status r =? 404 then None
  else
    Some (Raised ("Polling API error " ++ str_of_int (http_status r)
                    ++ ": " ++ text r)).

(** The [while elapsed < MAX_WAIT_TIME] loop; [None] when [fuel] rounds
    were not enough. *)
Fixpoint poll_loop (fuel : nat) (get : nat -> answer) (n : nat) (elapsed : Z)
    : option outcome :=
  match fuel with
  | O => None
  | S fuel' =>
      if elapsed <? MAX_WAIT_TIME then
        match poll_round (get n) with
        | Some o => Some o
        | None => poll_loop fuel' get (S n) (elapsed + POLL_INTERVAL)
        end
      else Some (Raised "Analysis timed out")
  end.

(** [analyze_documents_with_polling], [start] being the answer to the
    request that starts the analysis. *)
Definition analyze_documents_with_polling
    (fuel : nat) (start : answer) (get : nat -> answer) : option outcome :=
  if http_status start =? 200 then poll_loop fuel get 0 0
  else
    Some (Raised ("Analysis API error " ++ str_of_int (http_status start)
                    ++ ": " ++ text start)).

End paradigm_client.

(** * Properties *)

(** ** Strings *)

Module PyStrFacts.
Import PyStr.

Lemma app_nil_r (s : string) : s ++ "" = s.
Proof. induction s as [|c s IH]; simpl; [reflexivity | now rewrite IH]. Qed.

Lemma app_assoc (a b c : string) : (a ++ b) ++ c = a ++ (b ++ c).
Proof. induction a as [|x a IH]; simpl; [reflexivity | now rewrite IH]. Qed.

Lemma length_app (a b : string) :
  String.length (a ++ b) = (String.length a + String.length b)%nat.
Proof. induction a as [|x a IH]; simpl; [reflexivity | now rewrite IH]. Qed.

Lemma take_app (a b : string) : take (String.length a) (a ++ b) = a.
Proof. induction a as [|x a IH]; simpl; [now destruct b | now rewrite IH]. Qed.

Lemma startswith_app (p s : string) :
  startswith p s = true <-> exists b, s = p ++ b.
Proof.
  revert s; induction p as [|a p IH]; intros s; simpl.
  - split; [intros _; now exists s | reflexivity].
  - destruct s as [|b s]; simpl.
    + split; [discriminate | intros [t Ht]; discriminate].
    + rewrite andb_true_iff, Ascii.eqb_eq, IH. split.
      * intros [-> [t ->]]. now exists t.
      * intros [t Ht]. injection Ht as -> ->. split; [reflexivity | now exists t].
Qed.

(** [contains] is the substring test. *)
Lemma contains_spec (sub s : string) :
  contains sub s = true <-> exists a b, s = a ++ sub ++ b.
Proof.
  induction s as [|c s IH].
  - simpl. rewrite orb_false_r, startswith_app. split.
    + intros [b Hb]. now exists "", b.
    + intros [a [b Hab]]. destruct a; [now exists b | discriminate].
  - cbn [contains]. rewrite orb_true_iff, startswith_app, IH. split.
    + intros [[b Hb] | [a [b Hab]]].
      * now exists "", b.
      * exists (String c a), b. simpl. now rewrite Hab.
    + intros [a [b Hab]]. destruct a as [|x a]; simpl in Hab.
      * left. now exists b.
      * right. injection Hab as _ ->. now exists a, b.
Qed.

Lemma all_chars_app (p : ascii -> bool) (a b : string) :
  all_chars p (a ++ b) = (all_chars p a && all_chars p b)%bool.
Proof.
  induction a as [|x a IH]; simpl; [reflexivity |].
  now rewrite IH, andb_assoc.
Qed.

Lemma length_lower (s : string) : String.length (lower s) = String.length s.
Proof. induction s as [|c s IH]; simpl; [reflexivity | now rewrite IH]. Qed.

Lemma ascii_text_app (a b : string) :
  ascii_text (a ++ b) = (ascii_text a && ascii_text b)%bool.
Proof. apply all_chars_app. Qed.

End PyStrFacts.

(** ** The matcher is sound, and a group only holds what it enclosed *)

Module ReFacts.
Import PyStr Re ReSpec PyStrFacts.

Lemma greedy_sound (p : ascii -> bool) (s t : string) :
  In t (greedy p s) -> exists w, s = w ++ t /\ all_chars p w = true.
Proof.
  induction s as [|c s IH]; simpl.
  - intros [<- | []]. now exists "".
  - destruct (p c) eqn:Hc.
    + rewrite in_app_iff. intros [H | [<- | []]].
      * destruct (IH H) as [w [-> Hw]]. exists (String c w). simpl.
        now rewrite Hc, Hw.
      * now exists "".
    + intros [<- | []]. now exists "".
Qed.

Lemma reluctant_sound (p : ascii -> bool) (s t : string) :
  In t (reluctant p s) -> exists w, s = w ++ t /\ all_chars p w = true.
Proof.
  induction s as [|c s IH]; simpl.
  - intros [<- | []]. now exists "".
  - intros [<- | H]; [now exists "" |].
    destruct (p c) eqn:Hc; [| destruct H].
    destruct (IH H) as [w [-> Hw]]. exists (String c w). simpl.
    now rewrite Hc, Hw.
Qed.

Lemma drop_lit_sound (l s s' : string) :
  drop_lit l s = Some s' -> s = l ++ s'.
Proof.
  revert s; induction l as [|a l IH]; intros s; simpl.
  - now intros [= ->].
  - destruct s as [|b s]; [discriminate |].
    destruct (Ascii.eqb a b) eqn:E; [| discriminate].
    apply Ascii.eqb_eq in E as ->. intros H. now rewrite (IH _ H).
Qed.

Lemma consumed_app (w s' : string) : consumed (w ++ s') s' = w.
Proof.
  unfold consumed. rewrite length_app.
  replace (String.length w + String.length s' - String.length s')%nat
    with (String.length w) by lia.
  apply take_app.
Qed.

Section Invariant.
Variable Q : string -> Prop.

(** A success of [run] consumed a word of the pattern, and a group
    that holds a word of [Q] before still does after. *)
Lemma run_sound (r : regex) :
  forall s g s' g',
    In (s', g') (run r s g) ->
    (exists w, s = w ++ s' /\ lang r w) /\
    (groups_in Q r -> holds Q g -> holds Q g').
Proof.
  induction r as [l | p | p | p | r1 IH1 | r1 IH1 r2 IH2 | r1 IH1];
    intros s g s' g'; simpl.
  - destruct (drop_lit l s) as [t|] eqn:E; [| intros []].
    intros [[= <- <-] | []]. split; [| auto].
    exists l. split; [now apply drop_lit_sound | reflexivity].
  - destruct s as [|c s]; [intros [] |].
    destruct (p c) eqn:Hc; [| intros []].
    rewrite in_map_iff. intros [t [[= <- <-] Ht]]. split; [| auto].
    destruct (greedy_sound _ _ _ Ht) as [w [-> Hw]].
    exists (String c w). simpl. rewrite Hc, Hw. repeat split. discriminate.
  - rewrite in_map_iff. intros [t [[= <- <-] Ht]]. split; [| auto].
    destruct (greedy_sound _ _ _ Ht) as [w [-> Hw]]. now exists w.
  - rewrite in_map_iff. intros [t [[= <- <-] Ht]]. split; [| auto].
    destruct (reluctant_sound _ _ _ Ht) as [w [-> Hw]]. now exists w.
  - rewrite in_app_iff. intros [H | [[= <- <-] | []]].
    + destruct (IH1 _ _ _ _ H) as [[w [-> Hw]] Hg]. split; [| exact Hg].
      exists w. split; [reflexivity | now right].
    + split; [| auto]. exists "". split; [reflexivity | now left].
  - rewrite in_flat_map. intros [[t gt] [H1 H2]]. simpl in H2.
    destruct (IH1 _ _ _ _ H1) as [[w1 [-> Hw1]] Hg1].
    destruct (IH2 _ _ _ _ H2) as [[w2 [-> Hw2]] Hg2]. split.
    + exists (w1 ++ w2). split; [now rewrite app_assoc |].
      now exists w1, w2.
    + intros [G1 G2] Hg. auto.
  - rewrite in_map_iff. intros [[t gt] [[= <- <-] H]]. simpl.
    destruct (IH1 _ _ _ _ H) as [[w [-> Hw]] _]. split.
    + now exists w.
    + intros [G _] _. rewrite consumed_app. now apply G.
Qed.

(** Once set, the group stays set. *)
Lemma run_keeps_group (r : regex) :
  forall s w s' g', In (s', g') (run r s (Some w)) -> exists w', g' = Some w'.
Proof.
  induction r as [l | p | p | p | r1 IH1 | r1 IH1 r2 IH2 | r1 IH1];
    intros s w s' g'; simpl.
  - destruct (drop_lit l s); [intros [[= <- <-] | []]; eauto | intros []].
  - destruct s as [|c s]; [intros [] |].
    destruct (p c); [| intros []].
    rewrite in_map_iff. intros [u [[= <- <-] _]]. eauto.
  - rewrite in_map_iff. intros [u [[= <- <-] _]]. eauto.
  - rewrite in_map_iff. intros [u [[= <- <-] _]]. eauto.
  - rewrite in_app_iff. intros [H | [[= <- <-] | []]]; eauto.
  - rewrite in_flat_map. intros [[u gu] [Ha Hb]]. simpl in Hb.
    destruct (IH1 _ _ _ _ Ha) as [wu ->]. eauto.
  - rewrite in_map_iff. intros [[u gu] [[= <- <-] _]]. eauto.
Qed.

Lemma run_sets_group (r : regex) :
  sets_group r = true ->
  forall s g s' g', In (s', g') (run r s g) -> exists w, g' = Some w.
Proof.
  induction r as [l | p | p | p | r1 IH1 | r1 IH1 r2 IH2 | r1 IH1];
    simpl; try discriminate; intros Hs s g s' g'.
  - rewrite in_flat_map. intros [[t gt] [H1 H2]]. simpl in H2.
    destruct (sets_group r2) eqn:E2.
    + now apply (IH2 eq_refl _ _ _ _ H2).
    + rewrite orb_false_r in Hs.
      destruct (IH1 Hs _ _ _ _ H1) as [w ->].
      now apply (run_keeps_group _ _ _ _ _ H2).
  - rewrite in_map_iff. intros [[t gt] [[= <- <-] _]]. eauto.
Qed.

(** What [match_at] captures is a word of [Q]. *)
Lemma match_at_group (r : regex) (s rest w : string) :
  groups_in Q r -> sets_group r = true ->
  match_at r s = Some (rest, w) -> Q w.
Proof.
  intros G S. unfold match_at.
  destruct (run r s None) as [|[t g] l] eqn:E; [discriminate |].
  assert (Hin : In (t, g) (run r s None)) by (rewrite E; now left).
  destruct (run_sets_group r S _ _ _ _ Hin) as [w' ->].
  intros [= <- <-].
  now apply (proj2 (run_sound r _ _ _ _ Hin) G).
Qed.

(** So is every element [findall] returns. *)
Lemma findall_from_group (r : regex) :
  groups_in Q r -> sets_group r = true ->
  forall s skip, Forall Q (findall_from r s skip).
Proof.
  intros G S. induction s as [|c s IH]; intros skip; simpl.
  - destruct skip; [| constructor].
    destruct (match_at r "") as [[rest w]|] eqn:E; constructor.
    + now apply (match_at_group r _ _ _ G S E).
    + constructor.
  - destruct skip; [| apply IH].
    destruct (match_at r (String c s)) as [[rest w]|] eqn:E; [| apply IH].
    constructor; [| apply IH].
    now apply (match_at_group r _ _ _ G S E).
Qed.

Lemma findall_group (r : regex) (s : string) :
  groups_in Q r -> sets_group r = true -> Forall Q (findall r s).
Proof. intros G S. now apply findall_from_group. Qed.

End Invariant.

(** A group is a piece of the text: it is no longer than the text. *)
Lemma run_group_length (n : nat) (r : regex) :
  forall s g s' g',
    In (s', g') (run r s g) ->
    (String.length s <= n)%nat ->
    holds (fun w => (String.length w <= n)%nat) g ->
    holds (fun w => (String.length w <= n)%nat) g'.
Proof.
  induction r as [l | p | p | p | r1 IH1 | r1 IH1 r2 IH2 | r1 IH1];
    intros s g s' g'; simpl.
  - destruct (drop_lit l s) as [t|]; [| intros []].
    intros [[= <- <-] | []]. auto.
  - destruct s as [|c s]; [intros [] |].
    destruct (p c); [| intros []].
    rewrite in_map_iff. intros [t [[= <- <-] _]]. auto.
  - rewrite in_map_iff. intros [t [[= <- <-] _]]. auto.
  - rewrite in_map_iff. intros [t [[= <- <-] _]]. auto.
  - rewrite in_app_iff. intros [H | [[= <- <-] | []]]; eauto.
  - rewrite in_flat_map. intros [[t gt] [H1 H2]] Hs Hg. simpl in H2.
    destruct (proj1 (run_sound (fun _ => True) r1 _ _ _ _ H1)) as [w [E _]].
    apply (IH2 _ _ _ _ H2).
    + rewrite E, length_app in Hs. lia.
    + now apply (IH1 _ _ _ _ H1).
  - rewrite in_map_iff. intros [[t gt] [[= <- <-] H]] Hs _. simpl.
    destruct (proj1 (run_sound (fun _ => True) r1 _ _ _ _ H)) as [w [E _]].
    rewrite E, consumed_app. rewrite E, length_app in Hs. lia.
Qed.

Lemma match_at_length (r : regex) (s rest w : string) :
  match_at r s = Some (rest, w) -> (String.length w <= String.length s)%nat.
Proof.
  unfold match_at.
  destruct (run r s None) as [|[t g] l] eqn:E; [discriminate |].
  assert (Hin : In (t, g) (run r s None)) by (rewrite E; now left).
  pose proof (run_group_length (String.length s) r _ _ _ _ Hin (le_n _) I) as H.
  intros [= <- <-]. destruct g as [w'|]; simpl in *; lia.
Qed.

Lemma findall_from_length (r : regex) :
  forall s skip,
    Forall (fun w => (String.length w <= String.length s)%nat)
           (findall_from r s skip).
Proof.
  induction s as [|c s IH]; intros skip; simpl.
  - destruct skip; [| constructor].
    destruct (match_at r "") as [[rest w]|] eqn:E; constructor.
    + apply (match_at_length _ _ _ _ E).
    + constructor.
  - assert (W : forall k,
               Forall (fun w => (String.length w <= S (String.length s))%nat)
                      (findall_from r s k)).
    { intros k. eapply Forall_impl; [| apply (IH k)]. simpl. intros; lia. }
    destruct skip; [| apply W].
    destruct (match_at r (String c s)) as [[rest w]|] eqn:E; [| apply W].
    constructor; [| apply W].
    apply (match_at_length _ _ _ _ E).
Qed.

(** What [findall] returns is no longer than the text. *)
Lemma findall_length (r : regex) (s : string) :
  Forall (fun w => (String.length w <= String.length s)%nat) (findall r s).
Proof. apply findall_from_length. Qed.

(** The matcher on a few texts: a numeral is taken whole, a dot needs
    digits after it, and the search resumes after each match. *)
Example findall_number_percent :
  findall (Seq (Group number) (Seq (Star is_space) (Lit "%")))
          "12.5 % then 1.5.7% then 3.% and 4%"
  = ["12.5"; "5.7"; "4"].
Proof. vm_compute. reflexivity. Qed.

Example findall_reluctant :
  findall (Seq (Lit "irr")
               (Seq (LazyStar not_newline)
                    (Seq (Group number) (Seq (Star is_space) (Lit "%")))))
          "irr of 20 in year 3, 14% later; irr 7%"
  = ["14"; "7"].
Proof. vm_compute. reflexivity. Qed.

End ReFacts.

(** ** Numbers: the numerals parse, and the order on floats *)

Module PyNumFacts.
Import PyStr PyNum Re ReSpec PyStrFacts.

Lemma span_digits_all (ip : string) :
  all_chars is_digit ip = true -> span_digits ip = (ip, "").
Proof.
  induction ip as [|c ip IH]; simpl; [reflexivity |].
  intros H. apply andb_true_iff in H as [Hc Hip].
  now rewrite Hc, (IH Hip).
Qed.

Lemma span_digits_dot (ip rest : string) :
  all_chars is_digit ip = true ->
  span_digits (ip ++ String "." rest) = (ip, String "." rest).
Proof.
  induction ip as [|c ip IH]; simpl; [reflexivity |].
  intros H. apply andb_true_iff in H as [Hc Hip].
  now rewrite Hc, (IH Hip).
Qed.

(** [float] does not raise on a numeral. *)
Lemma float_of_str_numeral (w : string) :
  numeral w -> exists f, float_of_str w = Some f.
Proof.
  intros [ip [fp [Hne [Hip [Hfp [-> | [Hfne ->]]]]]]]; unfold float_of_str.
  - rewrite (span_digits_all _ Hip).
    destruct ip; [contradiction | eauto].
  - simpl. rewrite (span_digits_dot _ _ Hip).
    destruct ip; [contradiction |]. simpl. rewrite Hfp.
    destruct fp; [contradiction | simpl; eauto].
Qed.

(** [int] does not raise on a run of digits within the limit. *)
Lemma int_of_str_digits (w : string) :
  digits w -> (String.length w <= int_max_str_digits)%nat ->
  int_of_str w = Some (Z.of_N (digits_value w)).
Proof.
  intros [Hne Hw] Hlen. unfold int_of_str. rewrite Hw.
  apply Nat.leb_le in Hlen. rewrite Hlen.
  destruct w; [contradiction | reflexivity].
Qed.



(** The words of [\d+(?:\.\d+)?] are the numerals. *)
Lemma lang_number (w : string) : lang number w -> numeral w.
Proof.
  simpl. intros [ip [w2 [-> [[Hne Hip] [-> | H]]]]].
  - exists ip, "". rewrite app_nil_r. repeat split; auto.
  - destruct H as [d [fp [-> [-> [Hfne Hfp]]]]].
    exists ip, fp. repeat split; auto.
Qed.

Lemma lang_digits (w : string) : lang (Plus is_digit) w -> digits w.
Proof. intros H; exact H. Qed.

(** *** The order *)

Lemma compare_cont_eq (p q : positive) : Pos.compare_cont Eq p q = (p ?= q)%positive.
Proof. reflexivity. Qed.

Lemma SFcompare_antisym (x y : float) (c : comparison) :
  SFcompare x y = Some c -> SFcompare y x = Some (CompOpp c).
Proof.
  destruct x as [sx | sx | | sx mx ex], y as [sy | sy | | sy my ey];
    simpl; try discriminate;
    try (destruct sx); try (destruct sy); intros [= <-]; try reflexivity;
    rewrite (Z.compare_antisym ex ey), !compare_cont_eq,
            (Pos.compare_antisym mx my);
    destruct (ex ?= ey); simpl; try reflexivity;
    destruct (mx ?= my)%positive; reflexivity.
Qed.

Lemma lt_not_ge (a b : float) : flt a b = true -> fge a b = false.
Proof.
  unfold flt, fge, SFltb, SFleb.
  destruct (SFcompare a b) as [[| |]|] eqn:E; try discriminate.
  now rewrite (SFcompare_antisym _ _ _ E).
Qed.

Lemma gt_ge (a b : float) : fgt a b = true -> fge a b = true.
Proof.
  unfold fgt, fge, SFltb, SFleb.
  now destruct (SFcompare b a) as [[| |]|].
Qed.

Lemma eq_ge (a b : float) : feq a b = true -> fge a b = true.
Proof.
  unfold feq, fge, SFeqb, SFleb.
  destruct (SFcompare a b) as [[| |]|] eqn:E; try discriminate.
  now rewrite (SFcompare_antisym _ _ _ E).
Qed.

(** [a == b] gives [b >= a]. *)
Lemma eq_le (a b : float) : feq a b = true -> fge b a = true.
Proof.
  unfold feq, fge, SFeqb, SFleb.
  now destruct (SFcompare a b) as [[| |]|].
Qed.

Lemma eq_not_gt (a b : float) : feq a b = true -> fgt a b = false.
Proof.
  unfold feq, fgt, SFeqb, SFltb.
  destruct (SFcompare a b) as [[| |]|] eqn:E; try discriminate.
  now rewrite (SFcompare_antisym _ _ _ E).
Qed.

Ltac order_cases :=
  repeat match goal with
         | |- context [(?a ?= ?b)%Z] => destruct (Z.compare_spec a b)
         | H : context [(?a ?= ?b)%Z] |- _ => destruct (Z.compare_spec a b)
         | |- context [Pos.compare_cont Eq ?a ?b] =>
             change (Pos.compare_cont Eq a b) with (a ?= b)%positive in *;
             destruct (Pos.compare_spec a b)
         | H : context [Pos.compare_cont Eq ?a ?b] |- _ =>
             change (Pos.compare_cont Eq a b) with (a ?= b)%positive in *;
             destruct (Pos.compare_spec a b)
         end;
  cbn [CompOpp] in *; try reflexivity; try discriminate; try lia.

Lemma SFleb_trans (x y z : float) :
  SFleb x y = true -> SFleb y z = true -> SFleb x z = true.
Proof.
  unfold SFleb.
  destruct x as [sx | sx | | sx mx ex], y as [sy | sy | | sy my ey],
           z as [sz | sz | | sz mz ez];
    simpl; try discriminate; try reflexivity;
    try (destruct sx); try (destruct sy); try (destruct sz);
    simpl; try discriminate; try reflexivity;
    intros H1 H2; order_cases.
Qed.

(** *** [float] of a numeral is zero, positive or plus infinity *)

Lemma shr_1_nonneg (r : shr_record) : 0 <= shr_m r -> 0 <= shr_m (shr_1 r).
Proof.
  destruct r as [m r s]. destruct m as [|[p|p|]|p]; simpl; lia.
Qed.

Lemma iter_shr_1_nonneg (p : positive) :
  forall r, 0 <= shr_m r -> 0 <= shr_m (iter_pos shr_1 p r).
Proof.
  induction p as [p IH | p IH |]; intros r Hr; simpl.
  - apply IH, IH, shr_1_nonneg, Hr.
  - apply IH, IH, Hr.
  - apply shr_1_nonneg, Hr.
Qed.

Lemma shr_fexp_nonneg (m e : Z) (l : location) :
  0 <= m -> 0 <= shr_m (fst (shr_fexp prec emax m e l)).
Proof.
  intros Hm. unfold shr_fexp, shr.
  assert (H0 : 0 <= shr_m (shr_record_of_loc m l))
    by (destruct l as [|[| |]]; exact Hm).
  destruct (fexp prec emax (Zdigits2 m + e) - e); simpl; auto.
  now apply iter_shr_1_nonneg.
Qed.

Lemma round_nearest_even_nonneg (m : Z) (l : location) :
  0 <= m -> 0 <= round_nearest_even m l.
Proof.
  intros Hm. destruct l as [|[| |]]; simpl; try lia.
  destruct (Z.even m); lia.
Qed.

Lemma binary_round_aux_nonneg (m e : Z) (l : location) :
  0 <= m -> nonneg (binary_round_aux prec emax false m e l) = true.
Proof.
  intros Hm. unfold binary_round_aux.
  pose proof (shr_fexp_nonneg m e l Hm) as H1.
  destruct (shr_fexp prec emax m e l) as [r1 e1]. simpl in H1.
  pose proof (shr_fexp_nonneg _ e1 loc_Exact
                (round_nearest_even_nonneg _ (loc_of_shr_record r1) H1)) as H2.
  destruct (shr_fexp prec emax
              (round_nearest_even (shr_m r1) (loc_of_shr_record r1)) e1 loc_Exact)
    as [r2 e2].
  simpl in H2. destruct (shr_m r2); [reflexivity | | lia].
  now destruct (e2 <=? emax - prec).
Qed.

Lemma round_decimal_nonneg (n : N) (k : nat) : nonneg (round_decimal n k) = true.
Proof.
  destruct n as [|m]; [reflexivity |]. unfold round_decimal, SFdiv.
  unfold SFdiv_core_binary.
  set (e' := Z.min _ _). set (m' := match 0 - 0 - e' with 0 => _ | _ => _ end).
  assert (Hm' : 0 <= m').
  { unfold m'. destruct (0 - 0 - e'); try lia. apply Z.shiftl_nonneg. lia. }
  pose proof (Z.div_pos m' (Z.pos (pow10 k)) Hm' (Pos2Z.is_pos _)) as Hq.
  unfold Z.div in Hq. destruct (Z.div_eucl m' (Z.pos (pow10 k))) as [q r].
  now apply binary_round_aux_nonneg.
Qed.

Lemma float_of_str_nonneg (w : string) (f : float) :
  float_of_str w = Some f -> nonneg f = true.
Proof.
  unfold float_of_str. destruct (span_digits w) as [[|c ip] [|d fp]];
    try discriminate.
  - intros [= <-]. apply round_decimal_nonneg.
  - destruct (Ascii.eqb d "." && truthy fp && all_chars is_digit fp)%bool;
      [| discriminate].
    intros [= <-]. apply round_decimal_nonneg.
Qed.

(** Such a float is [== 0] or [> 0], and is on one side of any
    positive finite threshold. *)
Lemma nonneg_zero_or_positive (a : float) :
  nonneg a = true -> feq a (of_int 0) = true \/ fgt a (of_int 0) = true.
Proof.
  destruct a as [[|] | [|] | | [|] m e]; try discriminate; intros _;
    [left | right | right]; reflexivity.
Qed.

Lemma nonneg_ge_or_lt (a : float) (m : positive) (e : Z) :
  nonneg a = true ->
  fge a (S754_finite false m e) = true \/ flt a (S754_finite false m e) = true.
Proof.
  destruct a as [[|] | [|] | | [|] ma ea]; try discriminate; intros _.
  - right; reflexivity.
  - left; reflexivity.
  - unfold fge, flt, SFleb, SFltb.
    destruct (SFcompare (S754_finite false ma ea) (S754_finite false m e))
      as [c|] eqn:E; [| discriminate E].
    rewrite (SFcompare_antisym _ _ _ E). destruct c; simpl; auto.
Qed.

(** [a >= b] and [b >= c] give [a >= c]. *)
Lemma ge_trans (a b c : float) :
  fge a b = true -> fge b c = true -> fge a c = true.
Proof. unfold fge. intros H1 H2. exact (SFleb_trans _ _ _ H2 H1). Qed.

End PyNumFacts.

(** ** The extraction helpers and the aggregator *)

Module helpersFacts.
Import PyStr PyNum Re ReSpec PyStrFacts ReFacts PyNumFacts settings helpers.

Lemma amount_pattern_groups :
  groups_in numeral amount_pattern /\ sets_group amount_pattern = true.
Proof.
  unfold amount_pattern. cbn [groups_in sets_group]. unfold number at 2.
  cbn [groups_in]. split; [| reflexivity]. intuition auto using lang_number.
Qed.

Lemma irr_pattern_groups :
  groups_in numeral irr_pattern /\ sets_group irr_pattern = true.
Proof.
  unfold irr_pattern. cbn [groups_in sets_group]. unfold number at 2.
  cbn [groups_in]. split; [| reflexivity]. intuition auto using lang_number.
Qed.

Lemma yield_pattern_groups :
  groups_in numeral yield_pattern /\ sets_group yield_pattern = true.
Proof.
  unfold yield_pattern. cbn [groups_in sets_group]. unfold number at 2.
  cbn [groups_in]. split; [| reflexivity]. intuition auto using lang_number.
Qed.

Lemma week_pattern_groups :
  groups_in digits week_pattern /\ sets_group week_pattern = true.
Proof.
  unfold week_pattern. cbn [groups_in sets_group].
  split; [| reflexivity]. split; [split |]; auto using lang_digits.
Qed.

(** The thresholds, as binary64 values. *)
Lemma MIN_INVESTMENT_SIZE_value :
  MIN_INVESTMENT_SIZE = S754_finite false 5629499534213120 (-50).
Proof. vm_compute. reflexivity. Qed.

Lemma PREFERRED_INVESTMENT_SIZE_value :
  PREFERRED_INVESTMENT_SIZE = S754_finite false 8894609264056730 (-50).
Proof. vm_compute. reflexivity. Qed.

Lemma MIN_IRR_THRESHOLD_value :
  MIN_IRR_THRESHOLD = S754_finite false 8444249301319680 (-49).
Proof. vm_compute. reflexivity. Qed.

Lemma MIN_DIVIDEND_YIELD_value :
  MIN_DIVIDEND_YIELD = S754_finite false 4503599627370496 (-50).
Proof. vm_compute. reflexivity. Qed.

(** None of the extractors raises, and a float they return is zero,
    positive or plus infinity. *)

Lemma extract_investment_amount_total (analysis_text : string) :
  exists amount,
    extract_investment_amount analysis_text = Some amount /\ nonneg amount = true.
Proof.
  unfold extract_investment_amount.
  destruct amount_pattern_groups as [G S].
  pose proof (findall_group numeral amount_pattern (lower analysis_text) G S) as H.
  destruct (findall amount_pattern (lower analysis_text)) as [|m l]; [eauto |].
  inversion H; subst. destruct (float_of_str_numeral m) as [f Hf]; [assumption |].
  exists f. split; [exact Hf | exact (float_of_str_nonneg _ _ Hf)].
Qed.

Lemma extract_irr_percentage_total (analysis_text : string) :
  exists irr, extract_irr_percentage analysis_text = Some irr /\ nonneg irr = true.
Proof.
  unfold extract_irr_percentage.
  destruct irr_pattern_groups as [G S].
  pose proof (findall_group numeral irr_pattern (lower analysis_text) G S) as H.
  destruct (findall irr_pattern (lower analysis_text)) as [|m l]; [eauto |].
  inversion H; subst. destruct (float_of_str_numeral m) as [f Hf]; [assumption |].
  exists f. split; [exact Hf | exact (float_of_str_nonneg _ _ Hf)].
Qed.


(** [int] can only raise on a text longer than its limit. *)
Lemma extract_timeline_weeks_total (analysis_text : string) :
  (String.length analysis_text <= int_max_str_digits)%nat ->
  exists weeks, extract_timeline_weeks analysis_text = Some weeks /\ 0 <= weeks.
Proof.
  intros Hlen. unfold extract_timeline_weeks.
  destruct week_pattern_groups as [G S].
  pose proof (findall_group digits week_pattern (lower analysis_text) G S) as H.
  pose proof (findall_length week_pattern (lower analysis_text)) as L.
  destruct (findall week_pattern (lower analysis_text)) as [|m l].
  - exists 0. split; [reflexivity | lia].
  - inversion H; subst. inversion L; subst.
    rewrite length_lower in *.
    eexists. split.
    + apply int_of_str_digits; [assumption | lia].
    + apply N2Z.is_nonneg.
Qed.

(** The numerals [yield_matches] holds all convert, to [vals]. *)
Lemma numerals_convert (yield_matches : list string) :
  Forall numeral yield_matches ->
  exists vals, Forall2 (fun m v => float_of_str m = Some v) yield_matches vals.
Proof.
  induction 1 as [|m l Hm _ [vals IH]].
  - exists []. constructor.
  - destruct (float_of_str_numeral m Hm) as [v Hv].
    exists (v :: vals). now constructor.
Qed.

(** The loop returns the first converted value above 1, else [0.0]. *)
Lemma first_yield_find (yield_matches : list string) (vals : list float) :
  Forall2 (fun m v => float_of_str m = Some v) yield_matches vals ->
  first_yield yield_matches =
    Some (match find (fun v => fgt v (of_int 1)) vals with
          | Some v => v
          | None => literal "0.0"
          end).
Proof.
  induction 1 as [|m v l vals Hm _ IH]; cbn [first_yield find]; [reflexivity |].
  rewrite Hm. destruct (fgt v (of_int 1)); [reflexivity | exact IH].
Qed.

Lemma extract_yield_percentage_total (analysis_text : string) :
  exists y, extract_yield_percentage analysis_text = Some y.
Proof.
  destruct yield_pattern_groups as [G S].
  destruct (numerals_convert _ (findall_group numeral yield_pattern analysis_text G S))
    as [vals Hv].
  unfold extract_yield_percentage. rewrite (first_yield_find _ _ Hv). eauto.
Qed.



(** C1, as the code has it: the recommendation is a three-tier function
    of [met_count] alone, with the wording below (the separator in the
    second and third texts is a hyphen between two blanks);
    [total_count] never matters. *)
Theorem generate_overall_recommendation_tiers :
  forall met_count total_count : Z,
    (7 <= met_count ->
     generate_overall_recommendation met_count total_count
     = "RECOMMEND for further due diligence") /\
    (5 <= met_count <= 6 ->
     generate_overall_recommendation met_count total_count
     = "CONDITIONAL RECOMMEND - address key gaps") /\
    (met_count <= 4 ->
     generate_overall_recommendation met_count total_count
     = "DO NOT RECOMMEND - insufficient criteria met") /\
    (forall other_total : Z,
        generate_overall_recommendation met_count other_total
        = generate_overall_recommendation met_count total_count).
Proof.
  intros met_count total_count. unfold generate_overall_recommendation.
  repeat split; intros.
  - destruct (Z.geb_spec met_count 7); [reflexivity | lia].
  - destruct (Z.geb_spec met_count 7); [lia |].
    destruct (Z.geb_spec met_count 5); [reflexivity | lia].
  - destruct (Z.geb_spec met_count 7); [lia |].
    destruct (Z.geb_spec met_count 5); [lia | reflexivity].
Qed.

(** C1, as the specification words it: with five criteria met the code
    does not return the text with the long dash, nor with four. *)
Lemma generate_overall_recommendation_long_dash :
  generate_overall_recommendation 5 9
    <> "CONDITIONAL RECOMMEND — address key gaps" /\
  generate_overall_recommendation 4 9
    <> "DO NOT RECOMMEND — insufficient criteria met".
Proof. split; vm_compute; discriminate. Qed.

End helpersFacts.

(** ** The criteria *)

Module evaluatorFacts.
Import PyStr PyNum Re ReSpec PyStrFacts ReFacts PyNumFacts.
Import settings helpers helpersFacts evaluator.

(** A keyword list is present when one of its phrases, lower-cased, is
    a substring of the lower-cased text. *)
Lemma check_keywords_present_iff (analysis_text : string) (keywords : list string) :
  check_keywords_present analysis_text keywords = true <->
  exists keyword,
    In keyword keywords /\ contains (lower keyword) (lower analysis_text) = true.
Proof. unfold check_keywords_present. apply existsb_exists. Qed.

Ltac float_absurd :=
  match goal with
  | H1 : fge ?a ?b = true, H2 : fge ?c ?a = true |- _ =>
      let K := fresh in
      pose proof (ge_trans _ _ _ H2 H1) as K; vm_compute in K; discriminate K
  end.

(** C3: the investment size never raises; it is MET exactly when the
    extracted amount (on an ASCII text the first [$<number>m] match of
    the lower-cased text, [0.0] without one) is at least [5.0]; at [7.9]
    and above it is
    MET at the preferred tier, at [5.0] exactly at the minimum tier;
    strictly between [0] and [5.0] it is NOT MET as below the minimum,
    and at [0] NOT MET as not specified. So a ticket of [$5.0m] is MET
    and one of [$4.99m] is not. *)
Theorem evaluate_investment_size_thresholds :
  forall repr_float : float -> string,
    (forall analysis_text : string,
        exists amount v,
          extract_investment_amount analysis_text = Some amount /\
          (ascii_text analysis_text = true ->
           match findall amount_pattern (lower analysis_text) with
           | m :: _ => float_of_str m = Some amount
           | [] => amount = literal "0.0"
           end) /\
          evaluate_investment_size repr_float analysis_text = Some v /\
          (fge amount MIN_INVESTMENT_SIZE = true \/
           (fgt amount (of_int 0) = true /\ flt amount MIN_INVESTMENT_SIZE = true) \/
           feq amount (of_int 0) = true) /\
          (status v = MET <-> fge amount MIN_INVESTMENT_SIZE = true) /\
          (fge amount PREFERRED_INVESTMENT_SIZE = true ->
           v = create_evaluation_result MET
                 ("Investment size " ++ format_currency repr_float amount
                    ++ " meets preferred threshold with strong preference noted")) /\
          (feq amount MIN_INVESTMENT_SIZE = true ->
           v = create_evaluation_result MET
                 ("Investment size " ++ format_currency repr_float amount
                    ++ " meets minimum threshold with note about preference for larger tickets")) /\
          (fgt amount (of_int 0) = true -> flt amount MIN_INVESTMENT_SIZE = true ->
           v = create_evaluation_result NOT_MET
                 ("Investment size " ++ format_currency repr_float amount
                    ++ " below $" ++ repr_float MIN_INVESTMENT_SIZE
                    ++ "m minimum - portfolio management concerns about too many small deals")) /\
          (feq amount (of_int 0) = true ->
           v = create_evaluation_result NOT_MET "Investment size not specified")) /\
    option_map status (evaluate_investment_size repr_float "Ticket size: $5.0m")
      = Some MET /\
    option_map status (evaluate_investment_size repr_float "Ticket size: $4.99m")
      = Some NOT_MET.
Proof.
  intros repr_float. split; [| split; vm_compute; reflexivity].
  intros analysis_text.
  destruct (extract_investment_amount_total analysis_text) as [amount [Ha Hn]].
  exists amount. eexists. split; [exact Ha |]. split.
  { intros _. unfold extract_investment_amount in Ha.
    destruct (findall amount_pattern (lower analysis_text)); congruence. }
  unfold evaluate_investment_size. rewrite Ha. split; [reflexivity |].
  split.
  { rewrite MIN_INVESTMENT_SIZE_value.
    destruct (nonneg_ge_or_lt amount 5629499534213120 (-50) Hn) as [H | H];
      [now left | right].
    destruct (nonneg_zero_or_positive amount Hn); [now right | now left]. }
  destruct (fge amount PREFERRED_INVESTMENT_SIZE) eqn:E1;
    [assert (E2 : fge amount MIN_INVESTMENT_SIZE = true)
       by (apply (ge_trans _ _ _ E1); vm_compute; reflexivity); rewrite E2
    | destruct (fge amount MIN_INVESTMENT_SIZE) eqn:E2];
    destruct (fgt amount (of_int 0)) eqn:E3;
    destruct (flt amount MIN_INVESTMENT_SIZE) eqn:E4;
    cbn [andb status create_evaluation_result];
    repeat match goal with |- _ /\ _ => split | |- _ <-> _ => split end;
    intros; try reflexivity; try discriminate;
    repeat match goal with
           | H : flt _ _ = true |- _ => apply lt_not_ge in H
           | H : feq _ (of_int 0) = true |- _ =>
               pose proof (eq_not_gt _ _ H); apply eq_le in H
           | H : feq _ MIN_INVESTMENT_SIZE = true |- _ =>
               pose proof (eq_ge _ _ H); apply eq_le in H
           end;
    try congruence; try float_absurd.
Qed.

(** The theorem at a ticket of 6.5 million: the amount is the float of
    the first match, and the size is MET. *)
Lemma evaluate_investment_size_thresholds_witness :
  ascii_text "Ticket size: $6.5M of $20m" = true /\
  findall amount_pattern (lower "Ticket size: $6.5M of $20m") = ["6.5"; "20"] /\
  exists amount v,
    extract_investment_amount "Ticket size: $6.5M of $20m" = Some amount /\
    float_of_str "6.5" = Some amount /\
    evaluate_investment_size repr_opaque "Ticket size: $6.5M of $20m" = Some v /\
    (status v = MET <-> fge amount MIN_INVESTMENT_SIZE = true).
Proof.
  split; [reflexivity |]. split; [vm_compute; reflexivity |].
  destruct (proj1 (evaluate_investment_size_thresholds repr_opaque)
                  "Ticket size: $6.5M of $20m")
    as [amount [v [Ha [Hm [Hv [_ [Hs _]]]]]]].
  exists amount, v. split; [exact Ha |]. split; [| split; [exact Hv | exact Hs]].
  exact (Hm eq_refl).
Defined.

(** The amount is the float: a numeral closer to [5.0] than to any other
    binary64 value is [5.0], and meets the minimum. *)
Example investment_size_rounds_to_minimum :
  extract_investment_amount "Ticket: $4.99999999999999999999m"
    = Some MIN_INVESTMENT_SIZE /\
  option_map status
    (evaluate_investment_size repr_opaque "Ticket: $4.99999999999999999999m")
    = Some MET.
Proof. split; vm_compute; reflexivity. Qed.

(** C4: the return threshold never raises; it is MET exactly when the
    extracted IRR is at least [15.0], or is strictly between [0] and
    [15.0] while a low-risk phrase is present (on an ASCII text:
    ["low risk"] or ["low-risk"] in the lower-cased text); strictly between [0] and [15.0] without such a phrase it is
    NOT MET as unjustified, and at [0] NOT MET as not provided. So
    [15.0%] is MET, [14.99%] is MET with ["low risk"] and NOT MET
    without. *)
Theorem evaluate_return_threshold_cases :
  forall repr_float : float -> string,
    (forall analysis_text : string,
        exists irr v,
          extract_irr_percentage analysis_text = Some irr /\
          evaluate_return_threshold repr_float analysis_text = Some v /\
          (ascii_text analysis_text = true ->
           _check_low_risk analysis_text
           = (contains "low risk" (lower analysis_text)
              || contains "low-risk" (lower analysis_text))%bool) /\
          (fge irr MIN_IRR_THRESHOLD = true \/
           (fgt irr (of_int 0) = true /\ flt irr MIN_IRR_THRESHOLD = true) \/
           feq irr (of_int 0) = true) /\
          (status v = MET <->
           fge irr MIN_IRR_THRESHOLD = true \/
           (fgt irr (of_int 0) = true /\ flt irr MIN_IRR_THRESHOLD = true /\
            _check_low_risk analysis_text = true)) /\
          (feq irr MIN_IRR_THRESHOLD = true -> status v = MET) /\
          (fgt irr (of_int 0) = true -> flt irr MIN_IRR_THRESHOLD = true ->
           _check_low_risk analysis_text = false ->
           v = create_evaluation_result NOT_MET
                 ("IRR of " ++ format_percentage repr_float irr
                    ++ " below " ++ repr_float MIN_IRR_THRESHOLD
                    ++ "% without low-risk justification")) /\
          (feq irr (of_int 0) = true ->
           v = create_evaluation_result NOT_MET "Return projections not provided")) /\
    option_map status
      (evaluate_return_threshold repr_float "Projected IRR: 15.0%") = Some MET /\
    option_map status
      (evaluate_return_threshold repr_float "Projected IRR: 14.99%, low risk")
      = Some MET /\
    option_map status
      (evaluate_return_threshold repr_float "Projected IRR: 14.99%") = Some NOT_MET.
Proof.
  intros repr_float. split; [| repeat split; vm_compute; reflexivity].
  intros analysis_text.
  destruct (extract_irr_percentage_total analysis_text) as [irr [Hi Hn]].
  exists irr. eexists. split; [exact Hi |].
  unfold evaluate_return_threshold. rewrite Hi. split; [reflexivity |].
  split.
  { intros _. unfold _check_low_risk, check_keywords_present. cbn [existsb].
    now rewrite orb_false_r. }
  split.
  { rewrite MIN_IRR_THRESHOLD_value.
    destruct (nonneg_ge_or_lt irr 8444249301319680 (-49) Hn) as [H | H];
      [now left | right].
    destruct (nonneg_zero_or_positive irr Hn); [now right | now left]. }
  destruct (fge irr MIN_IRR_THRESHOLD) eqn:E1;
    destruct (fgt irr (of_int 0)) eqn:E3;
    destruct (flt irr MIN_IRR_THRESHOLD) eqn:E4;
    destruct (_check_low_risk analysis_text) eqn:E5;
    cbn [andb status create_evaluation_result];
    repeat match goal with |- _ /\ _ => split | |- _ <-> _ => split end;
    intros; try reflexivity; try discriminate; try tauto;
    repeat match goal with
           | H : _ \/ _ |- _ => destruct H
           | H : _ /\ _ |- _ => destruct H
           | H : flt _ _ = true |- _ => apply lt_not_ge in H
           | H : feq _ (of_int 0) = true |- _ =>
               pose proof (eq_not_gt _ _ H); apply eq_le in H
           | H : feq _ MIN_IRR_THRESHOLD = true |- _ =>
               pose proof (eq_ge _ _ H); apply eq_le in H
           end;
    try congruence; try float_absurd.
Qed.

(** The theorem at an IRR of 12% with the low-risk phrase: MET. *)
Lemma evaluate_return_threshold_cases_witness :
  ascii_text "IRR of 12%, a Low-Risk asset" = true /\
  contains "low-risk" (lower "IRR of 12%, a Low-Risk asset") = true /\
  exists irr v,
    extract_irr_percentage "IRR of 12%, a Low-Risk asset" = Some irr /\
    evaluate_return_threshold repr_opaque "IRR of 12%, a Low-Risk asset" = Some v /\
    _check_low_risk "IRR of 12%, a Low-Risk asset" = true /\
    (status v = MET <->
     fge irr MIN_IRR_THRESHOLD = true \/
     (fgt irr (of_int 0) = true /\ flt irr MIN_IRR_THRESHOLD = true /\
      _check_low_risk "IRR of 12%, a Low-Risk asset" = true)).
Proof.
  split; [reflexivity |]. split; [vm_compute; reflexivity |].
  destruct (proj1 (evaluate_return_threshold_cases repr_opaque)
                  "IRR of 12%, a Low-Risk asset")
    as [irr [v [Hi [Hv [Hl [_ [Hs _]]]]]]].
  exists irr, v. split; [exact Hi |]. split; [exact Hv |].
  split; [| exact Hs].
  rewrite (Hl eq_refl). vm_compute. reflexivity.
Defined.



(** A week count of 4301 digits: [int] raises, and the criterion with
    it; with 4300 digits it does not. *)
Example process_timeline_digit_limit :
  evaluate_process_timeline (repeat_char "9" 4301 ++ " weeks") = None /\
  option_map status (evaluate_process_timeline (repeat_char "9" 4300 ++ " weeks"))
  = Some MET.
Proof. split; vm_compute; reflexivity. Qed.

(** C8: a fund-type phrase is looked for first: when one of
    ["venture fund"], ["pe fund"], ["hedge fund"], ["fund investment"],
    ["pooled investment"] is present the result is NOT MET with the
    fund-exclusion explanation, whatever else the text holds; without
    any, a direct-investment keyword gives MET, and neither gives
    NOT MET as unclear. A text with both ["venture fund"] and
    ["company"] is NOT MET for the fund. *)
Theorem evaluate_asset_class_exclusion_fund_first :
  (forall analysis_text : string,
      let v := evaluate_asset_class_exclusion analysis_text in
      let fund :=
        exists phrase,
          In phrase ["venture fund"; "pe fund"; "hedge fund"; "fund investment";
                     "pooled investment"] /\
          contains phrase (lower analysis_text) = true in
      let direct :=
        exists keyword,
          In keyword ["company"; "business"; "startup"; "direct investment"] /\
          contains keyword (lower analysis_text) = true in
      (fund ->
       v = create_evaluation_result NOT_MET
             "Fund investment identified - excluded due to team bandwidth and 2025 objectives") /\
      (~ fund -> direct ->
       v = create_evaluation_result MET "Direct company investment identified") /\
      (~ fund -> ~ direct ->
       v = create_evaluation_result NOT_MET "Asset class information unclear or absent") /\
      (status v = MET <-> ~ fund /\ direct)) /\
  evaluate_asset_class_exclusion "A venture fund backing the company"
    = create_evaluation_result NOT_MET
        "Fund investment identified - excluded due to team bandwidth and 2025 objectives".
Proof.
  split; [| vm_compute; reflexivity].
  intros analysis_text v fund direct.
  assert (Hf : _check_fund_investment analysis_text = true <-> fund).
  { unfold _check_fund_investment. rewrite check_keywords_present_iff.
    unfold fund, FUND_TYPES. split; intros [k [Hin Hk]]; exists k; split; auto;
      simpl in Hin; decompose [or] Hin; subst; try contradiction; exact Hk. }
  assert (Hd : _check_direct_investment analysis_text = true <-> direct).
  { unfold _check_direct_investment. rewrite check_keywords_present_iff.
    unfold direct. split; intros [k [Hin Hk]]; exists k; split; auto;
      simpl in Hin; decompose [or] Hin; subst; try contradiction; exact Hk. }
  unfold v, evaluate_asset_class_exclusion.
  destruct (_check_fund_investment analysis_text);
    destruct (_check_direct_investment analysis_text);
    cbn [status create_evaluation_result];
    repeat match goal with |- _ /\ _ => split | |- _ <-> _ => split end;
    intros; try reflexivity; try discriminate;
    try (exfalso; intuition congruence); intuition congruence.
Qed.

(** C9: the fee terms are MET exactly when a no-fee phrase
    (["no management fee"] or ["no direct management fee"]) is a
    substring of the lower-cased text; otherwise they are NOT MET, as
    fees present when ["management fee"] occurs and as not mentioned
    when it does not. The function is total: it returns a verdict on
    every text. *)
Theorem evaluate_fee_terms_cases :
  forall analysis_text : string,
    let v := evaluate_fee_terms analysis_text in
    let no_fee :=
      (contains "no management fee" (lower analysis_text)
       || contains "no direct management fee" (lower analysis_text))%bool in
    (status v = MET <-> no_fee = true) /\
    (no_fee = true ->
     v = create_evaluation_result MET
           "No direct management fees that would impact KV P&L") /\
    (no_fee = false -> contains "management fee" (lower analysis_text) = true ->
     v = create_evaluation_result NOT_MET
           "Management fees present that would hit KV P&L") /\
    (no_fee = false -> contains "management fee" (lower analysis_text) = false ->
     v = create_evaluation_result NOT_MET
           "Fee information not mentioned - missing information counts as red").
Proof.
  intros analysis_text v no_fee.
  assert (Hn : _check_no_management_fees analysis_text = no_fee).
  { unfold _check_no_management_fees, check_keywords_present. cbn [existsb].
    now rewrite orb_false_r. }
  assert (Hp : _check_management_fees_present analysis_text
               = (contains "management fee" (lower analysis_text) && negb no_fee)%bool).
  { unfold _check_management_fees_present. rewrite Hn.
    unfold check_keywords_present. cbn [existsb]. now rewrite orb_false_r. }
  unfold v, evaluate_fee_terms. rewrite Hp, Hn.
  destruct no_fee; destruct (contains "management fee" (lower analysis_text));
    cbn [andb negb status create_evaluation_result];
    repeat split; intros; try reflexivity; discriminate.
Qed.

Example fee_terms_samples :
  status (evaluate_fee_terms "There is No Management Fee") = MET /\
  evaluate_fee_terms "A 2% management fee applies"
  = create_evaluation_result NOT_MET
      "Management fees present that would hit KV P&L" /\
  evaluate_fee_terms "Terms to be agreed"
  = create_evaluation_result NOT_MET
      "Fee information not mentioned - missing information counts as red".
Proof. repeat split; vm_compute; reflexivity. Qed.

(** The loop of [_find_target_sector] returns the first sector, in
    list order, that the lower-cased text contains. *)
Lemma first_sector_found (sectors : list string) (analysis_text : string) :
  (exists s, In s sectors /\ contains s (lower analysis_text) = true) ->
  exists pre s post,
    sectors = (pre ++ s :: post)%list /\
    contains s (lower analysis_text) = true /\
    Forall (fun s' => contains s' (lower analysis_text) = false) pre /\
    first_sector sectors analysis_text = s.
Proof.
  induction sectors as [|x l IH]; intros [s [Hin Hs]]; [destruct Hin |].
  cbn [first_sector]. destruct (contains x (lower analysis_text)) eqn:Hx.
  - exists [], x, l. repeat split; auto.
  - destruct Hin as [-> | Hin]; [congruence |].
    destruct IH as [pre [t [post [-> [Ht [Hpre Hf]]]]]]; [now exists s |].
    exists (x :: pre), t, post. repeat split; auto.
Qed.

Lemma first_sector_none (sectors : list string) (analysis_text : string) :
  ~ (exists s, In s sectors /\ contains s (lower analysis_text) = true) ->
  first_sector sectors analysis_text = "".
Proof.
  induction sectors as [|x l IH]; intros H; cbn [first_sector]; [reflexivity |].
  destruct (contains x (lower analysis_text)) eqn:Hx.
  - exfalso. apply H. exists x. split; [now left | exact Hx].
  - apply IH. intros [s [Hin Hs]]. apply H. exists s. split; [now right | exact Hs].
Qed.

(** Geography/Structure never raises. *)
Lemma evaluate_geography_structure_total
    (repr_float : float -> string) (analysis_text : string) :
  exists v, evaluate_geography_structure repr_float analysis_text = Some v.
Proof.
  unfold evaluate_geography_structure, _check_dividend_opportunity.
  destruct (extract_yield_percentage_total analysis_text) as [y ->].
  destruct (negb (check_keywords_present analysis_text ["dividend"])); eauto.
Qed.

Lemma evaluate_investment_size_total
    (repr_float : float -> string) (analysis_text : string) :
  exists v, evaluate_investment_size repr_float analysis_text = Some v.
Proof.
  unfold evaluate_investment_size.
  destruct (extract_investment_amount_total analysis_text) as [a [-> _]]. eauto.
Qed.

(** The process timeline raises when the extraction does, and only
    then. *)
Lemma evaluate_process_timeline_returns (analysis_text : string) (weeks : Z) :
  extract_timeline_weeks analysis_text = Some weeks ->
  exists v, evaluate_process_timeline analysis_text = Some v.
Proof.
  intros H. unfold evaluate_process_timeline. rewrite H. eauto.
Qed.

Lemma evaluate_process_timeline_total (analysis_text : string) :
  (String.length analysis_text <= int_max_str_digits)%nat ->
  exists v, evaluate_process_timeline analysis_text = Some v.
Proof.
  intros Hlen.
  destruct (extract_timeline_weeks_total analysis_text Hlen) as [w [Hw _]].
  exact (evaluate_process_timeline_returns _ _ Hw).
Qed.

Lemma evaluate_return_threshold_total
    (repr_float : float -> string) (analysis_text : string) :
  exists v, evaluate_return_threshold repr_float analysis_text = Some v.
Proof.
  unfold evaluate_return_threshold.
  destruct (extract_irr_percentage_total analysis_text) as [i [-> _]]. eauto.
Qed.

(** C5: on a text that contains ["dividend"] (in any case) and for
    which neither the GCC joint-venture branch nor the KGI
    co-investment branch holds, Geography/Structure returns a verdict,
    which is MET exactly when the extracted yield is strictly greater
    than [4.0]; a yield equal to [4.0] gives NOT MET and a yield of
    [4.01] gives MET. *)
Theorem evaluate_geography_structure_dividend_strict :
  forall (repr_float : float -> string) (analysis_text : string),
    contains "dividend" (lower analysis_text) = true ->
    _check_gcc_jv_opportunity analysis_text = false ->
    _check_kgi_opportunity analysis_text = false ->
    exists y v,
      extract_yield_percentage analysis_text = Some y /\
      evaluate_geography_structure repr_float analysis_text = Some v /\
      (status v = MET <-> fgt y MIN_DIVIDEND_YIELD = true) /\
      (feq y (literal "4.0") = true -> status v = NOT_MET) /\
      (y = literal "4.01" -> status v = MET).
Proof.
  intros repr_float analysis_text Hd Hg Hk.
  destruct (extract_yield_percentage_total analysis_text) as [y Hy].
  exists y. eexists. split; [exact Hy |].
  unfold evaluate_geography_structure, _check_dividend_opportunity.
  assert (Hp : check_keywords_present analysis_text ["dividend"] = true).
  { unfold check_keywords_present. cbn [existsb]. now rewrite orb_false_r. }
  rewrite Hp, Hy, Hg, Hk. cbn [negb]. split; [reflexivity |].
  destruct (fgt y MIN_DIVIDEND_YIELD) eqn:E;
    cbn [status create_evaluation_result];
    repeat match goal with |- _ /\ _ => split | |- _ <-> _ => split end;
    intros; try reflexivity; try discriminate.
  - apply eq_not_gt in H. unfold MIN_DIVIDEND_YIELD in E. congruence.
  - subst y. vm_compute in E. discriminate E.
Qed.

(** The theorem at a text with a dividend of 4.01%. *)
Lemma evaluate_geography_structure_dividend_strict_witness :
  contains "dividend" (lower "Pays a Dividend, yield of 4.01%") = true /\
  _check_gcc_jv_opportunity "Pays a Dividend, yield of 4.01%" = false /\
  _check_kgi_opportunity "Pays a Dividend, yield of 4.01%" = false /\
  exists y v,
    extract_yield_percentage "Pays a Dividend, yield of 4.01%" = Some y /\
    evaluate_geography_structure repr_opaque "Pays a Dividend, yield of 4.01%"
      = Some v /\
    (status v = MET <-> fgt y MIN_DIVIDEND_YIELD = true) /\
    (feq y (literal "4.0") = true -> status v = NOT_MET) /\
    (y = literal "4.01" -> status v = MET).
Proof.
  split; [reflexivity |]. split; [reflexivity |]. split; [reflexivity |].
  apply (evaluate_geography_structure_dividend_strict
           repr_opaque "Pays a Dividend, yield of 4.01%"); reflexivity.
Defined.

(** The two boundary texts of the dividend branch. *)
Example dividend_yield_at_threshold :
  option_map status
    (evaluate_geography_structure repr_opaque "Pays a dividend, yield of 4.0%")
  = Some NOT_MET.
Proof. vm_compute. reflexivity. Qed.

Example dividend_yield_above_threshold :
  option_map status
    (evaluate_geography_structure repr_opaque "Pays a dividend, yield of 4.01%")
  = Some MET.
Proof. vm_compute. reflexivity. Qed.



End evaluatorFacts.

(** ** The criteria pass *)

Module workflowFacts.
Import PyStr PyNum Re PyStrFacts PyNumFacts.
Import settings helpers helpersFacts evaluator evaluatorFacts workflow.

(** The tally is the number of entries whose status is MET. *)
Lemma count_met_criteria_filter (criteria_evaluations : dict Verdict) :
  count_met_criteria criteria_evaluations
  = Z.of_nat (List.length
                (filter (fun entry => status_eqb (status (snd entry)) MET)
                        criteria_evaluations)).
Proof.
  unfold count_met_criteria, dict_values.
  induction criteria_evaluations as [|[k v] d IH]; [reflexivity |].
  cbn [map snd fold_right filter]. rewrite IH.
  destruct (status_eqb (status v) MET); cbn [List.length]; lia.
Qed.

(** The dictionary a pass returns, entry by entry: the first eight
    verdicts are stored in the order of the registry and Sector Focus,
    evaluated last, is given the number of them that are MET. *)
Lemma _evaluate_all_criteria_entries
    (repr_float : float -> string) (detailed_analysis : string)
    (criteria_evaluations : dict Verdict) :
  _evaluate_all_criteria repr_float detailed_analysis = Some criteria_evaluations ->
  exists v1 v6 v7 v8,
    evaluate_geography_structure repr_float detailed_analysis = Some v1 /\
    evaluate_investment_size repr_float detailed_analysis = Some v6 /\
    evaluate_process_timeline detailed_analysis = Some v7 /\
    evaluate_return_threshold repr_float detailed_analysis = Some v8 /\
    let eight :=
      [("Geography/Structure", v1);
       ("Financial Milestones", evaluate_financial_milestones detailed_analysis);
       ("Asset Class Exclusion", evaluate_asset_class_exclusion detailed_analysis);
       ("Investor Syndication", evaluate_investor_syndication detailed_analysis);
       ("Fee Terms", evaluate_fee_terms detailed_analysis);
       ("Investment Size", v6);
       ("Process Timeline", v7);
       ("Return Threshold", v8)] in
    _evaluate_all_criteria repr_float detailed_analysis
    = Some (eight ++
              [("Sector Focus",
                evaluate_sector_focus detailed_analysis (count_met_criteria eight))])%list.
Proof.
  unfold _evaluate_all_criteria, evaluate_first_eight.
  destruct (evaluate_geography_structure repr_float detailed_analysis)
    as [v1|]; [| discriminate].
  destruct (evaluate_investment_size repr_float detailed_analysis)
    as [v6|]; [| discriminate].
  destruct (evaluate_process_timeline detailed_analysis) as [v7|]; [| discriminate].
  destruct (evaluate_return_threshold repr_float detailed_analysis)
    as [v8|]; [| discriminate].
  intros _. exists v1, v6, v7, v8. repeat split.
Qed.

(** The pass returns when the process timeline does: no other
    criterion raises. *)
Lemma _evaluate_all_criteria_returns
    (repr_float : float -> string) (detailed_analysis : string) (v7 : Verdict) :
  evaluate_process_timeline detailed_analysis = Some v7 ->
  exists criteria_evaluations,
    _evaluate_all_criteria repr_float detailed_analysis = Some criteria_evaluations.
Proof.
  intros E7. unfold _evaluate_all_criteria, evaluate_first_eight.
  destruct (evaluate_geography_structure_total repr_float detailed_analysis)
    as [v1 ->].
  destruct (evaluate_investment_size_total repr_float detailed_analysis)
    as [v6 ->].
  rewrite E7.
  destruct (evaluate_return_threshold_total repr_float detailed_analysis)
    as [v8 ->].
  eauto.
Qed.

(** [int] can only raise on a text longer than its limit. *)
Lemma _evaluate_all_criteria_total
    (repr_float : float -> string) (detailed_analysis : string) :
  (String.length detailed_analysis <= int_max_str_digits)%nat ->
  exists criteria_evaluations,
    _evaluate_all_criteria repr_float detailed_analysis = Some criteria_evaluations.
Proof.
  intros Hlen.
  destruct (evaluate_process_timeline_total detailed_analysis Hlen) as [v7 E7].
  exact (_evaluate_all_criteria_returns repr_float _ _ E7).
Qed.

(** C2: when the lower-cased text contains a target-sector phrase,
    Sector Focus is MET and its explanation names, in title case, the
    first such phrase in the order healthcare, education, data economy,
    energy transition, industrials; otherwise an excluded-sector phrase
    (consumer, traditional infrastructure) gives NOT MET; otherwise the
    result is MET as opportunistic when [met_criteria_count >= 6] and
    NOT MET as unclear when [met_criteria_count <= 5]. In a criteria
    pass that returns, the other eight criteria are all evaluated
    before it and stored in the order of the registry, and the count it
    receives is the number of entries among these eight whose status is
    MET, which is what [count_met_criteria] computes. *)
Theorem evaluate_sector_focus_cases :
  (forall (analysis_text : string) (met_criteria_count : Z),
    let v := evaluate_sector_focus analysis_text met_criteria_count in
    let target :=
      exists s,
        In s ["healthcare"; "education"; "data economy"; "energy transition";
              "industrials"] /\
        contains s (lower analysis_text) = true in
    let excluded :=
      exists p,
        In p ["consumer"; "traditional infrastructure"] /\
        contains p (lower analysis_text) = true in
    (target ->
     exists pre s post,
       ["healthcare"; "education"; "data economy"; "energy transition";
        "industrials"] = (pre ++ s :: post)%list /\
       contains s (lower analysis_text) = true /\
       Forall (fun s' => contains s' (lower analysis_text) = false) pre /\
       v = create_evaluation_result MET
             ("Company operates in " ++ title s ++ " - target sector")) /\
    (~ target -> excluded ->
     v = create_evaluation_result NOT_MET
           "Company in consumer or traditional infrastructure sectors") /\
    (~ target -> ~ excluded -> 6 <= met_criteria_count ->
     v = create_evaluation_result MET
           "Opportunistic - meets other criteria and not in excluded sectors") /\
    (~ target -> ~ excluded -> met_criteria_count <= 5 ->
     v = create_evaluation_result NOT_MET "Sector information not clear")) /\
  (forall (repr_float : float -> string) (detailed_analysis : string)
          (criteria_evaluations : dict Verdict),
      _evaluate_all_criteria repr_float detailed_analysis
      = Some criteria_evaluations ->
      exists v1 v6 v7 v8,
        evaluate_geography_structure repr_float detailed_analysis = Some v1 /\
        evaluate_investment_size repr_float detailed_analysis = Some v6 /\
        evaluate_process_timeline detailed_analysis = Some v7 /\
        evaluate_return_threshold repr_float detailed_analysis = Some v8 /\
        let eight :=
          [("Geography/Structure", v1);
           ("Financial Milestones", evaluate_financial_milestones detailed_analysis);
           ("Asset Class Exclusion",
            evaluate_asset_class_exclusion detailed_analysis);
           ("Investor Syndication", evaluate_investor_syndication detailed_analysis);
           ("Fee Terms", evaluate_fee_terms detailed_analysis);
           ("Investment Size", v6);
           ("Process Timeline", v7);
           ("Return Threshold", v8)] in
        let met :=
          Z.of_nat
            (List.length
               (filter (fun entry => status_eqb (status (snd entry)) MET) eight)) in
        criteria_evaluations
        = (eight ++
             [("Sector Focus", evaluate_sector_focus detailed_analysis met)])%list /\
        count_met_criteria eight = met).
Proof.
  split.
  2: { intros repr_float detailed_analysis criteria_evaluations Hd.
       destruct (_evaluate_all_criteria_entries _ _ _ Hd)
         as [v1 [v6 [v7 [v8 [E1 [E6 [E7 [E8 E]]]]]]]].
       exists v1, v6, v7, v8. repeat (split; [assumption |]).
       cbv zeta in E |- *. rewrite E in Hd. injection Hd as <-.
       rewrite <- count_met_criteria_filter. split; reflexivity. }
  intros analysis_text met_criteria_count v target excluded.
  assert (He : check_keywords_present analysis_text EXCLUDED_SECTORS = true <-> excluded).
  { rewrite check_keywords_present_iff. unfold excluded, EXCLUDED_SECTORS.
    split; intros [k [Hin Hk]]; exists k; split; auto;
      simpl in Hin; decompose [or] Hin; subst; try contradiction; exact Hk. }
  unfold v, evaluate_sector_focus, _find_target_sector.
  split; [| repeat split].
  - intros Ht.
    destruct (first_sector_found TARGET_SECTORS analysis_text Ht)
      as [pre [s [post [Hsplit [Hs [Hpre ->]]]]]].
    exists pre, s, post. repeat split; auto.
    assert (Hin : In s TARGET_SECTORS) by (rewrite Hsplit; apply in_elt).
    simpl in Hin; decompose [or] Hin; subst; try contradiction; reflexivity.
  - intros Hnt Hex.
    rewrite (first_sector_none TARGET_SECTORS analysis_text Hnt).
    cbn [truthy]. apply He in Hex. now rewrite Hex.
  - intros Hnt Hnex Hn.
    rewrite (first_sector_none TARGET_SECTORS analysis_text Hnt).
    cbn [truthy].
    destruct (check_keywords_present analysis_text EXCLUDED_SECTORS);
      [exfalso; apply Hnex, He; reflexivity |].
    destruct (Z.geb_spec met_criteria_count 6); [reflexivity | lia].
  - intros Hnt Hnex Hn.
    rewrite (first_sector_none TARGET_SECTORS analysis_text Hnt).
    cbn [truthy].
    destruct (check_keywords_present analysis_text EXCLUDED_SECTORS);
      [exfalso; apply Hnex, He; reflexivity |].
    destruct (Z.geb_spec met_criteria_count 6); [lia | reflexivity].
Qed.

(** The pass on a text that meets seven of the eight criteria and
    names no sector: Sector Focus receives seven and is MET as
    opportunistic. *)
Lemma evaluate_sector_focus_cases_witness :
  exists criteria_evaluations,
    _evaluate_all_criteria repr_opaque
      "GCC joint venture with a proven partner. The company charges no management fee. Ticket $8m, closing in 8 weeks, IRR 20%."
    = Some criteria_evaluations /\
    Z.of_nat
      (List.length
         (filter (fun entry => status_eqb (status (snd entry)) MET)
                 (firstn 8 criteria_evaluations))) = 7 /\
    PyDict.dict_get criteria_evaluations "Sector Focus"
    = Some (create_evaluation_result MET
              "Opportunistic - meets other criteria and not in excluded sectors").
Proof.
  eexists. split; [vm_compute; reflexivity |].
  destruct (proj2 evaluate_sector_focus_cases repr_opaque
              "GCC joint venture with a proven partner. The company charges no management fee. Ticket $8m, closing in 8 weeks, IRR 20%."
              _ eq_refl)
    as [v1 [v6 [v7 [v8 [E1 [E6 [E7 [E8 [E _]]]]]]]]].
  split; vm_compute; reflexivity.
Defined.

(** Each branch of Sector Focus on a sample text; the first sector is
    the first of the list, not of the text. *)
Example sector_focus_first_in_list_order :
  evaluate_sector_focus "Education and Healthcare platform" 0
  = create_evaluation_result MET "Company operates in Healthcare - target sector".
Proof. vm_compute. reflexivity. Qed.

Example sector_focus_two_words :
  evaluate_sector_focus "An Energy Transition business" 0
  = create_evaluation_result MET
      "Company operates in Energy Transition - target sector".
Proof. vm_compute. reflexivity. Qed.

Example sector_focus_excluded :
  evaluate_sector_focus "A consumer brand" 8
  = create_evaluation_result NOT_MET
      "Company in consumer or traditional infrastructure sectors".
Proof. vm_compute. reflexivity. Qed.

Example sector_focus_opportunistic :
  evaluate_sector_focus "A logistics platform" 6
  = create_evaluation_result MET
      "Opportunistic - meets other criteria and not in excluded sectors" /\
  evaluate_sector_focus "A logistics platform" 5
  = create_evaluation_result NOT_MET "Sector information not clear".
Proof. split; vm_compute; reflexivity. Qed.

End workflowFacts.

(** ** More on the criteria *)

Module criteriaFacts.
Import PyStr PyNum Re ReSpec PyStrFacts ReFacts PyNumFacts.
Import settings helpers helpersFacts evaluator evaluatorFacts.

(** The three signals of Geography/Structure, as substring tests. *)
Lemma _check_gcc_jv_opportunity_eq (analysis_text : string) :
  _check_gcc_jv_opportunity analysis_text
  = (contains "gcc" (lower analysis_text)
     && (contains "joint venture" (lower analysis_text)
         || contains "jv" (lower analysis_text))
     && (contains "expansion" (lower analysis_text)
         || contains "partner" (lower analysis_text)
         || contains "business model" (lower analysis_text)
         || contains "proven" (lower analysis_text)))%bool.
Proof.
  unfold _check_gcc_jv_opportunity, check_keywords_present. cbn [existsb].
  now rewrite !orb_false_r, !orb_assoc.
Qed.

Lemma _check_kgi_opportunity_eq (analysis_text : string) :
  _check_kgi_opportunity analysis_text
  = (contains "kgi" (lower analysis_text)
     && (contains "co-investment" (lower analysis_text)
         || contains "participation" (lower analysis_text)))%bool.
Proof.
  unfold _check_kgi_opportunity, check_keywords_present. cbn [existsb].
  now rewrite !orb_false_r.
Qed.

(** The verdict of Geography/Structure in terms of the extracted yield. *)
Lemma evaluate_geography_structure_eq
    (repr_float : float -> string) (analysis_text : string) (y : float) :
  extract_yield_percentage analysis_text = Some y ->
  evaluate_geography_structure repr_float analysis_text
  = Some
      (if _check_gcc_jv_opportunity analysis_text then
         create_evaluation_result MET
           "GCC JV opportunity identified with expansion plans and partner structure"
       else if (contains "dividend" (lower analysis_text)
                && fgt y MIN_DIVIDEND_YIELD)%bool then
         create_evaluation_result MET
           ("Dividend-paying investment with yield greater than "
              ++ repr_float MIN_DIVIDEND_YIELD ++ "%")
       else if _check_kgi_opportunity analysis_text then
         create_evaluation_result MET "KGI co-investment opportunity identified"
       else
         create_evaluation_result NOT_MET
           ("Does not meet any of the three required categories: GCC JV, dividend-paying (>"
              ++ repr_float MIN_DIVIDEND_YIELD ++ "%), or KGI co-investment")).
Proof.
  intros Hy. unfold evaluate_geography_structure, _check_dividend_opportunity.
  assert (Hp : check_keywords_present analysis_text ["dividend"]
               = contains "dividend" (lower analysis_text)).
  { unfold check_keywords_present. cbn [existsb]. now rewrite orb_false_r. }
  rewrite Hp. destruct (contains "dividend" (lower analysis_text)); cbn [negb andb].
  - now rewrite Hy.
  - reflexivity.
Qed.

(** X1: Geography/Structure never raises and is MET exactly when one of its
    three signals holds: the GCC joint venture, a dividend with a yield
    above [4.0] (the yield only counts when the text has ["dividend"]),
    or the KGI co-investment. The explanation is the one of the first
    signal that holds, in this order. *)
Theorem evaluate_geography_structure_cases :
  forall (repr_float : float -> string) (analysis_text : string),
  exists y v,
    extract_yield_percentage analysis_text = Some y /\
    evaluate_geography_structure repr_float analysis_text = Some v /\
    let gcc_jv := _check_gcc_jv_opportunity analysis_text in
    let dividend :=
      (contains "dividend" (lower analysis_text) && fgt y MIN_DIVIDEND_YIELD)%bool in
    let kgi := _check_kgi_opportunity analysis_text in
    (status v = MET <-> (gcc_jv || dividend || kgi)%bool = true) /\
    (gcc_jv = true ->
     v = create_evaluation_result MET
           "GCC JV opportunity identified with expansion plans and partner structure") /\
    (gcc_jv = false -> dividend = true ->
     v = create_evaluation_result MET
           ("Dividend-paying investment with yield greater than "
              ++ repr_float MIN_DIVIDEND_YIELD ++ "%")) /\
    (gcc_jv = false -> dividend = false -> kgi = true ->
     v = create_evaluation_result MET "KGI co-investment opportunity identified") /\
    (gcc_jv = false -> dividend = false -> kgi = false ->
     v = create_evaluation_result NOT_MET
           ("Does not meet any of the three required categories: GCC JV, dividend-paying (>"
              ++ repr_float MIN_DIVIDEND_YIELD ++ "%), or KGI co-investment")).
Proof.
  intros repr_float analysis_text.
  destruct (extract_yield_percentage_total analysis_text) as [y Hy].
  exists y. eexists. split; [exact Hy |].
  split; [apply (evaluate_geography_structure_eq _ _ _ Hy) |].
  destruct (contains "dividend" (lower analysis_text));
    destruct (_check_gcc_jv_opportunity analysis_text);
    destruct (fgt y MIN_DIVIDEND_YIELD);
    destruct (_check_kgi_opportunity analysis_text);
    cbn [andb orb status create_evaluation_result];
    repeat match goal with |- _ /\ _ => split | |- _ <-> _ => split end;
    intros; try reflexivity; discriminate.
Qed.

(** X2: Financial Milestones is MET exactly when the text is about a new
    joint venture, or says EBITDA positive, or has a within-one-year
    phrase and no additional-funding phrase; the explanation is the one
    of the first of these that holds. *)
Theorem evaluate_financial_milestones_cases :
  forall analysis_text : string,
    let v := evaluate_financial_milestones analysis_text in
    let t := lower analysis_text in
    let new_jv :=
      (contains "new" t && (contains "joint venture" t || contains "jv" t))%bool in
    let ebitda :=
      (contains "ebitda positive" t || contains "positive ebitda" t)%bool in
    let within_year :=
      (contains "within one year" t || contains "12 months" t
       || contains "less than a year" t)%bool in
    let funding :=
      (contains "additional funding" t || contains "more funding" t
       || contains "next round" t || contains "series" t)%bool in
    (status v = MET <->
     (new_jv || ebitda || (within_year && negb funding))%bool = true) /\
    (new_jv = true -> v = create_evaluation_result MET "Not applicable - New JV") /\
    (new_jv = false -> ebitda = true ->
     v = create_evaluation_result MET "Company is already EBITDA positive") /\
    (new_jv = false -> ebitda = false -> within_year = true -> funding = false ->
     v = create_evaluation_result MET
           "Timeline to positive EBITDA is within one year with current funding") /\
    (new_jv = false -> ebitda = false -> (within_year && negb funding)%bool = false ->
     v = create_evaluation_result NOT_MET
           "Timeline exceeds one year or additional funding rounds needed before profitability").
Proof.
  intros analysis_text v t new_jv ebitda within_year funding.
  assert (H1 : _check_new_jv analysis_text = new_jv).
  { unfold _check_new_jv, check_keywords_present. cbn [existsb].
    now rewrite !orb_false_r. }
  assert (H2 : _check_ebitda_positive analysis_text = ebitda).
  { unfold _check_ebitda_positive, check_keywords_present. cbn [existsb].
    now rewrite !orb_false_r. }
  assert (H3 : _check_timeline_within_year analysis_text = within_year).
  { unfold _check_timeline_within_year, check_keywords_present. cbn [existsb].
    now rewrite !orb_false_r, !orb_assoc. }
  assert (H4 : _check_additional_funding_needed analysis_text = funding).
  { unfold _check_additional_funding_needed, check_keywords_present. cbn [existsb].
    now rewrite !orb_false_r, !orb_assoc. }
  unfold v, evaluate_financial_milestones. rewrite H1, H2, H3, H4.
  destruct new_jv, ebitda, within_year, funding;
    cbn [andb orb negb status create_evaluation_result];
    repeat match goal with |- _ /\ _ => split | |- _ <-> _ => split end;
    intros; try reflexivity; discriminate.
Qed.

(** X3: Investor Syndication cannot fail: it is MET on every text, and the
    text only chooses between its two explanations. *)
Theorem evaluate_investor_syndication_always_met :
  forall analysis_text : string,
    let v := evaluate_investor_syndication analysis_text in
    status v = MET /\
    (contains "lead investor" (lower analysis_text) = true ->
     explanation v = "Lead investor identified in syndicate") /\
    (contains "lead investor" (lower analysis_text) = false ->
     explanation v
     = "No lead investor identified - not a rejection criterion per Kanoo Ventures policy").
Proof.
  intros analysis_text v.
  assert (H : _check_lead_investor analysis_text
              = contains "lead investor" (lower analysis_text)).
  { unfold _check_lead_investor, check_keywords_present. cbn [existsb].
    now rewrite orb_false_r. }
  unfold v, evaluate_investor_syndication. rewrite H.
  destruct (contains "lead investor" (lower analysis_text));
    repeat split; intros; try reflexivity; discriminate.
Qed.

(** The two KGI tests are the same test. *)
Lemma _check_kgi_coinvestment_opportunity (analysis_text : string) :
  _check_kgi_coinvestment analysis_text = _check_kgi_opportunity analysis_text.
Proof. reflexivity. Qed.

(** X4: A timeline under eight weeks can only be MET through the KGI
    co-investment signal, and that signal makes Geography/Structure MET:
    when Process Timeline is MET with fewer than 8 weeks,
    Geography/Structure is MET on the same text. *)
Theorem short_timeline_met_gives_geography_met :
  forall (repr_float : float -> string) (analysis_text : string) (w : Z) (v7 : Verdict),
    extract_timeline_weeks analysis_text = Some w ->
    evaluate_process_timeline analysis_text = Some v7 ->
    status v7 = MET ->
    w < 8 ->
    exists v1,
      evaluate_geography_structure repr_float analysis_text = Some v1 /\
      status v1 = MET.
Proof.
  intros repr_float analysis_text w v7 Hw H7 Hmet Hlt.
  unfold evaluate_process_timeline in H7. rewrite Hw in H7.
  rewrite _check_kgi_coinvestment_opportunity in H7.
  destruct (extract_yield_percentage_total analysis_text) as [y Hy].
  eexists. split; [exact (evaluate_geography_structure_eq _ _ _ Hy) |].
  destruct (_check_kgi_opportunity analysis_text).
  - destruct (_check_gcc_jv_opportunity analysis_text); [reflexivity |].
    destruct (contains "dividend" (lower analysis_text) && fgt y MIN_DIVIDEND_YIELD)%bool;
      reflexivity.
  - exfalso. injection H7 as <-. cbn [andb] in Hmet.
    unfold MIN_TIMELINE_WEEKS in Hmet.
    destruct (Z.geb_spec w 8); [lia |].
    destruct (w >? 0); discriminate Hmet.
Qed.

(** The theorem at a KGI co-investment closing in three weeks. *)
Lemma short_timeline_met_gives_geography_met_witness :
  exists v7,
    extract_timeline_weeks "KGI co-investment, closing in 3 weeks" = Some 3 /\
    evaluate_process_timeline "KGI co-investment, closing in 3 weeks" = Some v7 /\
    status v7 = MET /\
    3 < 8 /\
    exists v1,
      evaluate_geography_structure repr_opaque "KGI co-investment, closing in 3 weeks"
        = Some v1 /\
      status v1 = MET.
Proof.
  eexists. split; [reflexivity |]. split; [reflexivity |].
  split; [reflexivity |]. split; [lia |].
  eapply (short_timeline_met_gives_geography_met
            repr_opaque "KGI co-investment, closing in 3 weeks" 3);
    [reflexivity | reflexivity | reflexivity | lia].
Defined.

(** A float at or above a positive finite threshold is above zero. *)
Lemma ge_positive (a : float) (m : positive) (e : Z) :
  fge a (S754_finite false m e) = true -> fgt a (of_int 0) = true.
Proof. destruct a as [[|] | [|] | | [|] ma ea]; try discriminate; reflexivity. Qed.

(** X5: Investment Size always prints the amount it found: in millions from
    1.0 up (so in every MET verdict), in thousands below 1.0; the
    "Not specified" text of [format_currency] never shows in a verdict,
    which says "not specified" itself when the amount is zero. *)
Theorem evaluate_investment_size_amount_text :
  forall (repr_float : float -> string) (analysis_text : string),
  exists amount v,
    extract_investment_amount analysis_text = Some amount /\
    evaluate_investment_size repr_float analysis_text = Some v /\
    (fge amount PREFERRED_INVESTMENT_SIZE = true ->
     explanation v
     = "Investment size " ++ ("$" ++ repr_float amount ++ "m")
         ++ " meets preferred threshold with strong preference noted") /\
    (fge amount PREFERRED_INVESTMENT_SIZE = false ->
     fge amount MIN_INVESTMENT_SIZE = true ->
     explanation v
     = "Investment size " ++ ("$" ++ repr_float amount ++ "m")
         ++ " meets minimum threshold with note about preference for larger tickets") /\
    (fge amount (of_int 1) = true -> fge amount MIN_INVESTMENT_SIZE = false ->
     explanation v
     = "Investment size " ++ ("$" ++ repr_float amount ++ "m")
         ++ " below $" ++ repr_float MIN_INVESTMENT_SIZE
         ++ "m minimum - portfolio management concerns about too many small deals") /\
    (fgt amount (of_int 0) = true -> fge amount (of_int 1) = false ->
     explanation v
     = "Investment size "
         ++ ("$" ++ repr_float (mul amount (of_int 1000)) ++ "k")
         ++ " below $" ++ repr_float MIN_INVESTMENT_SIZE
         ++ "m minimum - portfolio management concerns about too many small deals") /\
    (fgt amount (of_int 0) = false ->
     explanation v = "Investment size not specified").
Proof.
  intros repr_float analysis_text.
  destruct (extract_investment_amount_total analysis_text) as [amount [Ha Hn]].
  exists amount. eexists. split; [exact Ha |].
  unfold evaluate_investment_size. rewrite Ha. split; [reflexivity |].
  assert (H51 : fge MIN_INVESTMENT_SIZE (of_int 1) = true) by (vm_compute; reflexivity).
  assert (H75 : fge PREFERRED_INVESTMENT_SIZE MIN_INVESTMENT_SIZE = true)
    by (vm_compute; reflexivity).
  assert (Hside : fge amount MIN_INVESTMENT_SIZE = true
                  \/ flt amount MIN_INVESTMENT_SIZE = true).
  { rewrite MIN_INVESTMENT_SIZE_value. now apply nonneg_ge_or_lt. }
  assert (Hzero : feq amount (of_int 0) = true \/ fgt amount (of_int 0) = true)
    by now apply nonneg_zero_or_positive.
  unfold format_currency.
  destruct (fge amount PREFERRED_INVESTMENT_SIZE) eqn:E1;
    destruct (fge amount MIN_INVESTMENT_SIZE) eqn:E2;
    destruct (fge amount (of_int 1)) eqn:E3;
    destruct (fgt amount (of_int 0)) eqn:E4;
    destruct (flt amount MIN_INVESTMENT_SIZE) eqn:E5;
    cbn [andb explanation create_evaluation_result];
    repeat match goal with |- _ /\ _ => split end;
    intros; try reflexivity; try discriminate; exfalso;
    repeat match goal with
           | H : _ \/ _ |- _ => destruct H
           | H : feq _ _ = true |- _ => apply eq_le in H
           end;
    try discriminate;
    try (pose proof (ge_trans _ _ _ E1 H75); congruence);
    try (pose proof (ge_trans _ _ _ E2 H51); congruence);
    try (pose proof (ge_trans _ _ _ E1 (ge_trans _ _ _ H75 H51)); congruence);
    try (rewrite MIN_INVESTMENT_SIZE_value in E2; apply ge_positive in E2; congruence);
    try (match goal with
         | H : fge (of_int 0) amount = true |- _ =>
             pose proof (ge_trans _ _ _ H E3) as K; vm_compute in K; discriminate K
         end).
Qed.

(** X6: Return Threshold prints the IRR it found in each of its three
    verdicts about a value; the "Not specified" text of
    [format_percentage] never shows, the verdict saying "not provided"
    itself when the IRR is zero. *)
Theorem evaluate_return_threshold_irr_text :
  forall (repr_float : float -> string) (analysis_text : string),
  exists irr v,
    extract_irr_percentage analysis_text = Some irr /\
    evaluate_return_threshold repr_float analysis_text = Some v /\
    (fgt irr (of_int 0) = true ->
     exists tail, explanation v = "IRR of " ++ (repr_float irr ++ "%") ++ tail) /\
    (fgt irr (of_int 0) = false ->
     explanation v = "Return projections not provided").
Proof.
  intros repr_float analysis_text.
  destruct (extract_irr_percentage_total analysis_text) as [irr [Hi Hn]].
  exists irr. eexists. split; [exact Hi |].
  unfold evaluate_return_threshold. rewrite Hi. split; [reflexivity |].
  assert (Hside : fge irr MIN_IRR_THRESHOLD = true \/ flt irr MIN_IRR_THRESHOLD = true).
  { rewrite MIN_IRR_THRESHOLD_value. now apply nonneg_ge_or_lt. }
  unfold format_percentage.
  destruct (fge irr MIN_IRR_THRESHOLD) eqn:E1.
  - rewrite MIN_IRR_THRESHOLD_value in E1. apply ge_positive in E1.
    rewrite E1. cbn [explanation create_evaluation_result].
    split; [intros _; eexists; reflexivity | discriminate].
  - destruct Hside as [H | H]; [discriminate H |]. rewrite H.
    destruct (fgt irr (of_int 0)) eqn:E4;
      destruct (_check_low_risk analysis_text);
      cbn [andb explanation create_evaluation_result];
      split; intros; try discriminate; try reflexivity;
      eexists; reflexivity.
Qed.

End criteriaFacts.

(** ** More on the extraction helpers *)

Module extractionFacts.
Import PyStr PyNum Re ReSpec ReFirst PyStrFacts ReFacts PyNumFacts.
Import settings helpers helpersFacts evaluator evaluatorFacts.

(** A match consumes a word of the pattern. *)
Lemma match_at_lang (r : regex) (s rest w : string) :
  match_at r s = Some (rest, w) -> exists u, s = u ++ rest /\ lang r u.
Proof.
  unfold match_at.
  destruct (run r s None) as [|[t g] l] eqn:E; [discriminate |].
  intros [= <- _].
  assert (Hin : In (t, g) (run r s None)) by (rewrite E; now left).
  exact (proj1 (run_sound (fun _ => True) r _ _ _ _ Hin)).
Qed.

(** Without a match at any position, [findall] finds nothing. *)
Lemma findall_from_no_match (r : regex) :
  forall s skip,
    (forall p t, s = p ++ t -> match_at r t = None) ->
    findall_from r s skip = [].
Proof.
  induction s as [|c s IH]; intros skip H; cbn [findall_from].
  - rewrite (H "" "" eq_refl). now destruct skip.
  - assert (Hs : forall p t, s = p ++ t -> match_at r t = None).
    { intros p t ->. apply (H (String c p)). reflexivity. }
    destruct skip; [| now apply IH].
    rewrite (H "" (String c s) eq_refl). now apply IH.
Qed.

(** Every word of the pattern holds the text [lit]: then a text
    without [lit] has no match. *)
Lemma findall_needs (r : regex) (lit s : string) :
  (forall u, lang r u -> exists a b, u = a ++ lit ++ b) ->
  contains lit s = false ->
  findall r s = [].
Proof.
  intros Hlit Hs. apply findall_from_no_match. intros p t ->.
  destruct (match_at r t) as [[rest w]|] eqn:E; [exfalso | reflexivity].
  destruct (match_at_lang _ _ _ _ E) as [u [-> Hu]].
  destruct (Hlit u Hu) as [a [b ->]].
  assert (Hc : contains lit (p ++ (a ++ lit ++ b) ++ rest) = true).
  { apply contains_spec. exists (p ++ a), (b ++ rest).
    now rewrite !app_assoc. }
  congruence.
Qed.

Lemma amount_pattern_needs_dollar (u : string) :
  lang amount_pattern u -> exists a b, u = a ++ "$" ++ b.
Proof. intros [w1 [w2 [-> [-> _]]]]. now exists "", w2. Qed.

Lemma week_pattern_needs_week (u : string) :
  lang week_pattern u -> exists a b, u = a ++ "week" ++ b.
Proof.
  intros [w1 [w2 [-> [_ [w3 [w4 [-> [_ ->]]]]]]]].
  exists (w1 ++ w3), "". now rewrite app_assoc.
Qed.

Lemma irr_pattern_needs_irr (u : string) :
  lang irr_pattern u -> exists a b, u = a ++ "irr" ++ b.
Proof. intros [w1 [w2 [-> [-> _]]]]. now exists "", w2. Qed.

Lemma irr_pattern_needs_percent (u : string) :
  lang irr_pattern u -> exists a b, u = a ++ "%" ++ b.
Proof.
  intros [w1 [w2 [-> [_ [w3 [w4 [-> [_ [w5 [w6 [-> [_ [w7 [w8 [-> [_ ->]]]]]]]]]]]]]]]].
  exists (w1 ++ w3 ++ w5 ++ w7), "". now rewrite !app_assoc.
Qed.

Lemma yield_pattern_needs_percent (u : string) :
  lang yield_pattern u -> exists a b, u = a ++ "%" ++ b.
Proof.
  intros [w1 [w2 [-> [_ [w3 [w4 [-> [_ ->]]]]]]]].
  exists (w1 ++ w3), "". now rewrite app_assoc.
Qed.

(** *** Finding the first match *)

(** The first choice of [c*] is the longest run. *)
Lemma greedy_first (p : ascii -> bool) (w rest : string) :
  all_chars p w = true -> stops p rest ->
  exists l, greedy p (w ++ rest) = rest :: l.
Proof.
  intros Hw Hr. induction w as [|x w IH]; simpl.
  - destruct rest as [|c r]; [now exists [] |].
    simpl in Hr. simpl. rewrite Hr. now exists [].
  - simpl in Hw. apply andb_true_iff in Hw as [Hx Hw]. rewrite Hx.
    destruct (IH Hw) as [l ->]. now exists (l ++ [String x (w ++ rest)])%list.
Qed.

Lemma plus_first (p : ascii -> bool) (w rest : string) (g : option string) :
  w <> "" -> all_chars p w = true -> stops p rest ->
  exists l, run (Plus p) (w ++ rest) g = (rest, g) :: l.
Proof.
  intros Hne Hw Hr. destruct w as [|x w]; [contradiction |].
  simpl in Hw. apply andb_true_iff in Hw as [Hx Hw].
  simpl. rewrite Hx. destruct (greedy_first p w rest Hw Hr) as [l ->].
  simpl. eauto.
Qed.

Lemma star_first (p : ascii -> bool) (w rest : string) (g : option string) :
  all_chars p w = true -> stops p rest ->
  exists l, run (Star p) (w ++ rest) g = (rest, g) :: l.
Proof.
  intros Hw Hr. simpl. destruct (greedy_first p w rest Hw Hr) as [l ->].
  simpl. eauto.
Qed.

Lemma drop_lit_app (l s : string) : drop_lit l (l ++ s) = Some s.
Proof.
  induction l as [|a l IH]; simpl; [reflexivity |].
  now rewrite Ascii.eqb_refl.
Qed.

(** The first success of a sequence is the first success of its second
    part after the first success of its first part, when there is one. *)
Lemma seq_first (r1 r2 : regex) (s s1 s2 : string) (g g1 g2 : option string)
    (l1 l2 : list state) :
  run r1 s g = (s1, g1) :: l1 ->
  run r2 s1 g1 = (s2, g2) :: l2 ->
  exists l, run (Seq r1 r2) s g = (s2, g2) :: l.
Proof. intros H1 H2. simpl. rewrite H1. simpl. rewrite H2. simpl. eauto. Qed.

(** [\d+(?:\.\d+)?] takes a numeral whole when the text goes on with
    neither a digit nor a dot. *)
Lemma number_first (n rest : string) (g : option string) :
  numeral n -> stops is_digit rest -> stops (Ascii.eqb ".") rest ->
  exists l, run number (n ++ rest) g = (rest, g) :: l.
Proof.
  intros [ip [fp [Hne [Hip [Hfp [-> | [Hfne ->]]]]]]] Hd Hdot; unfold number.
  - destruct (plus_first is_digit ip rest g Hne Hip Hd) as [l1 H1].
    eapply seq_first; [exact H1 |].
    cbn [run]. destruct rest as [|c r]; [simpl; eauto |].
    unfold stops in Hdot. cbn [drop_lit run flat_map]. rewrite Hdot. simpl. eauto.
  - rewrite !app_assoc.
    destruct (plus_first is_digit ip ("." ++ fp ++ rest) g Hne Hip eq_refl)
      as [l1 H1].
    destruct (plus_first is_digit fp rest g Hfne Hfp Hd) as [l2 H2].
    eapply seq_first; [exact H1 |].
    cbn [run]. change (drop_lit "." ("." ++ fp ++ rest)) with (Some (fp ++ rest)).
    cbn [flat_map fst snd]. cbn [run] in H2. rewrite H2. simpl. reflexivity.
Qed.

(** [findall] passes the positions where no match starts. *)
Lemma findall_from_skip_prefix (r : regex) (s : string) :
  forall pre,
    (forall p c t, pre = p ++ String c t -> match_at r (String c t ++ s) = None) ->
    findall_from r (pre ++ s) 0 = findall_from r s 0.
Proof.
  induction pre as [|c pre IH]; intros H; [reflexivity |].
  change (String c pre ++ s) with (String c (pre ++ s)). cbn [findall_from].
  change (String c (pre ++ s)) with (String c pre ++ s).
  rewrite (H "" c pre eq_refl). apply IH.
  intros p c' t ->. apply (H (String c p)). reflexivity.
Qed.

Lemma findall_from_first (r : regex) (s rest w : string) :
  match_at r s = Some (rest, w) -> exists l, findall_from r s 0 = w :: l.
Proof.
  intros H. destruct s as [|c s]; cbn [findall_from]; rewrite H; eauto.
Qed.

Lemma contains_char_false (c : ascii) (s : string) :
  contains (String c "") s = false ->
  forall p d t, s = p ++ String d t -> Ascii.eqb c d = false.
Proof.
  intros H p d t ->.
  destruct (Ascii.eqb c d) eqn:E; [| reflexivity].
  apply Ascii.eqb_eq in E as <-.
  assert (K : contains (String c "") (p ++ String c t) = true)
    by (apply contains_spec; now exists p, t).
  congruence.
Qed.

(** X7: A dollar amount is found: when the lower-cased text reads
    [pre $ n sp m ...] with no dollar sign in [pre], [n] a numeral and
    [sp] white space (possibly none), the extractor returns [float(n)];
    what follows the [m] and what other numbers the text holds do not
    matter. *)
Theorem extract_investment_amount_finds :
  forall analysis_text pre n sp post : string,
    lower analysis_text = pre ++ "$" ++ n ++ sp ++ "m" ++ post ->
    contains "$" pre = false ->
    numeral n ->
    all_chars is_space sp = true ->
    exists amount,
      float_of_str n = Some amount /\
      extract_investment_amount analysis_text = Some amount.
Proof.
  intros analysis_text pre n sp post Hl Hpre Hn Hsp.
  destruct (float_of_str_numeral n Hn) as [amount Ha].
  exists amount. split; [exact Ha |].
  unfold extract_investment_amount, findall. rewrite Hl.
  rewrite findall_from_skip_prefix.
  - assert (Hm : match_at amount_pattern ("$" ++ n ++ sp ++ "m" ++ post)
                 = Some (post, n)).
    { unfold match_at, amount_pattern.
      assert (Hstop : stops is_digit (sp ++ "m" ++ post)
                      /\ stops (Ascii.eqb ".") (sp ++ "m" ++ post)).
      { destruct sp as [|c sp]; [split; reflexivity |].
        simpl in Hsp. apply andb_true_iff in Hsp as [Hc _]. simpl.
        destruct c as [[|] [|] [|] [|] [|] [|] [|] [|]]; try discriminate Hc;
          split; reflexivity. }
      destruct Hstop as [Hd Hdot].
      destruct (number_first n (sp ++ "m" ++ post) None Hn Hd Hdot) as [l1 H1].
      destruct (star_first is_space sp ("m" ++ post) (Some n) Hsp eq_refl)
        as [l2 H2].
      cbn [run]. change (drop_lit "$" ("$" ++ n ++ sp ++ "m" ++ post))
        with (Some (n ++ sp ++ "m" ++ post)).
      cbn [flat_map fst snd]. rewrite H1. cbn [map flat_map fst snd].
      rewrite consumed_app.
      cbn [run] in H2. cbn [run]. 
      destruct (greedy_first is_space sp ("m" ++ post) Hsp eq_refl) as [l3 H3].
      rewrite H3. cbn [map flat_map fst snd].
      change (drop_lit "m" ("m" ++ post)) with (Some post). reflexivity. }
    destruct (findall_from_first _ _ _ _ Hm) as [l ->]. exact Ha.
  - intros p c t Hp.
    pose proof (contains_char_false _ _ Hpre p c t Hp) as Hc.
    unfold match_at, amount_pattern. cbn [run]. 
    change (String c t ++ "$" ++ n ++ sp ++ "m" ++ post)
      with (String c (t ++ "$" ++ n ++ sp ++ "m" ++ post)).
    cbn [drop_lit]. rewrite Hc. reflexivity.
Qed.

Lemma extract_investment_amount_finds_witness :
  lower "Ticket size: $7.5 M, fee 2%" = "ticket size: " ++ "$" ++ "7.5" ++ " " ++ "m" ++ ", fee 2%" /\
  contains "$" "ticket size: " = false /\
  numeral "7.5" /\
  all_chars is_space " " = true /\
  exists amount,
    float_of_str "7.5" = Some amount /\
    extract_investment_amount "Ticket size: $7.5 M, fee 2%" = Some amount.
Proof.
  assert (Hn : numeral "7.5").
  { exists "7", "5". repeat split; try discriminate. right. split; [discriminate | reflexivity]. }
  split; [reflexivity |]. split; [reflexivity |]. split; [exact Hn |].
  split; [reflexivity |].
  apply (extract_investment_amount_finds
           "Ticket size: $7.5 M, fee 2%" "ticket size: " "7.5" " " ", fee 2%");
    [reflexivity | reflexivity | exact Hn | reflexivity].
Defined.

(** X8: A number of weeks is found: when an ASCII text, lower-cased,
    reads [pre ip sp week ...] with no digit in [pre], [ip] a run of at
    most 4300 digits and [sp] white space (possibly none), the
    extractor returns the value of [ip]. *)
Theorem extract_timeline_weeks_finds :
  forall analysis_text pre ip sp post : string,
    ascii_text analysis_text = true ->
    lower analysis_text = pre ++ ip ++ sp ++ "week" ++ post ->
    all_chars (fun c => negb (is_digit c)) pre = true ->
    digits ip ->
    (String.length ip <= int_max_str_digits)%nat ->
    all_chars is_space sp = true ->
    extract_timeline_weeks analysis_text = Some (Z.of_N (digits_value ip)).
Proof.
  intros analysis_text pre ip sp post _ Hl Hpre [Hne Hip] Hlen Hsp.
  unfold extract_timeline_weeks, findall. rewrite Hl.
  rewrite findall_from_skip_prefix.
  - assert (Hm : match_at week_pattern (ip ++ sp ++ "week" ++ post)
                 = Some (post, ip)).
    { unfold match_at, week_pattern.
      assert (Hd : stops is_digit (sp ++ "week" ++ post)).
      { destruct sp as [|c sp]; [reflexivity |].
        simpl in Hsp. apply andb_true_iff in Hsp as [Hc _]. simpl.
        destruct c as [[|] [|] [|] [|] [|] [|] [|] [|]]; try discriminate Hc;
          reflexivity. }
      destruct (plus_first is_digit ip (sp ++ "week" ++ post) None Hne Hip Hd)
        as [l1 H1].
      destruct (greedy_first is_space sp ("week" ++ post) Hsp eq_refl) as [l3 H3].
      cbn [run]. cbn [run] in H1. rewrite H1. cbn [map flat_map fst snd].
      rewrite consumed_app. rewrite H3. cbn [map flat_map fst snd].
      change (drop_lit "week" ("week" ++ post)) with (Some post). reflexivity. }
    destruct (findall_from_first _ _ _ _ Hm) as [l ->].
    apply int_of_str_digits; [split; assumption | exact Hlen].
  - intros p c t Hp.
    assert (Hc : is_digit c = false).
    { rewrite Hp, all_chars_app in Hpre. apply andb_true_iff in Hpre as [_ Hpre].
      simpl in Hpre. apply andb_true_iff in Hpre as [Hpre _].
      now apply negb_true_iff in Hpre. }
    unfold match_at, week_pattern.
    change (String c t ++ ip ++ sp ++ "week" ++ post)
      with (String c (t ++ ip ++ sp ++ "week" ++ post)).
    cbn [run]. rewrite Hc. reflexivity.
Qed.

Lemma extract_timeline_weeks_finds_witness :
  ascii_text "Closing in 12 Weeks, IRR 20%" = true /\
  lower "Closing in 12 Weeks, IRR 20%" = "closing in " ++ "12" ++ " " ++ "week" ++ "s, irr 20%" /\
  all_chars (fun c => negb (is_digit c)) "closing in " = true /\
  digits "12" /\
  (String.length "12" <= int_max_str_digits)%nat /\
  all_chars is_space " " = true /\
  extract_timeline_weeks "Closing in 12 Weeks, IRR 20%" = Some (Z.of_N (digits_value "12")).
Proof.
  assert (Hd : digits "12") by (split; [discriminate | reflexivity]).
  assert (Hl : (String.length "12" <= int_max_str_digits)%nat)
    by (vm_compute; lia).
  split; [reflexivity |]. split; [reflexivity |]. split; [reflexivity |].
  split; [exact Hd |]. split; [exact Hl |]. split; [reflexivity |].
  apply (extract_timeline_weeks_finds
           "Closing in 12 Weeks, IRR 20%" "closing in " "12" " " "s, irr 20%");
    [reflexivity | reflexivity | reflexivity | exact Hd | exact Hl | reflexivity].
Defined.

(** Lower-casing neither adds nor removes a dollar sign. *)
Lemma lower_char_dollar (x : ascii) :
  Ascii.eqb "$" (lower_char x) = Ascii.eqb "$" x.
Proof. destruct x as [[|] [|] [|] [|] [|] [|] [|] [|]]; reflexivity. Qed.

Lemma contains_dollar_lower (s : string) :
  contains "$" (lower s) = contains "$" s.
Proof.
  induction s as [|c s IH]; [reflexivity |].
  cbn [lower contains startswith]. now rewrite lower_char_dollar, IH.
Qed.

(** X9: A text without a dollar sign has no amount: the extractor returns
    [0.0] and Investment Size is NOT MET as not specified, whatever
    figures the text holds. *)
Theorem no_dollar_no_amount :
  forall (repr_float : float -> string) (analysis_text : string),
    contains "$" analysis_text = false ->
    extract_investment_amount analysis_text = Some (literal "0.0") /\
    evaluate_investment_size repr_float analysis_text
    = Some (create_evaluation_result NOT_MET "Investment size not specified").
Proof.
  intros repr_float analysis_text H.
  rewrite <- contains_dollar_lower in H.
  assert (E : extract_investment_amount analysis_text = Some (literal "0.0")).
  { unfold extract_investment_amount.
    now rewrite (findall_needs _ _ _ amount_pattern_needs_dollar H). }
  split; [exact E |].
  unfold evaluate_investment_size. rewrite E. reflexivity.
Qed.

Lemma no_dollar_no_amount_witness :
  contains "$" "Ticket of 8m USD, 12 weeks" = false /\
  extract_investment_amount "Ticket of 8m USD, 12 weeks" = Some (literal "0.0") /\
  evaluate_investment_size repr_opaque "Ticket of 8m USD, 12 weeks"
  = Some (create_evaluation_result NOT_MET "Investment size not specified").
Proof.
  split; [reflexivity |].
  apply (no_dollar_no_amount repr_opaque "Ticket of 8m USD, 12 weeks"). reflexivity.
Defined.

(** X12: The yield is [0.0] or above 1: a percentage of 1 or less is never
    returned. Without a percent sign in the text it is [0.0]. *)
Theorem extract_yield_percentage_range :
  forall analysis_text : string,
  exists y,
    extract_yield_percentage analysis_text = Some y /\
    (y = literal "0.0" \/ fgt y (of_int 1) = true) /\
    (contains "%" analysis_text = false -> y = literal "0.0").
Proof.
  intros analysis_text.
  destruct yield_pattern_groups as [G S].
  destruct (numerals_convert _ (findall_group numeral yield_pattern analysis_text G S))
    as [vals Hv].
  pose proof (first_yield_find _ _ Hv) as Hf.
  eexists. split; [exact Hf |]. split.
  - destruct (find (fun v => fgt v (of_int 1)) vals) as [v|] eqn:E; [right | now left].
    now apply find_some in E.
  - intros H. rewrite (findall_needs _ _ _ yield_pattern_needs_percent H) in Hv.
    inversion Hv. reflexivity.
Qed.

(** X10: An ASCII text that never says "week", in any case, has no
    timeline: the extractor returns [0] and Process Timeline is NOT MET
    as absent, whatever numbers the text holds. *)
Theorem no_week_no_timeline :
  forall analysis_text : string,
    ascii_text analysis_text = true ->
    contains "week" (lower analysis_text) = false ->
    extract_timeline_weeks analysis_text = Some 0 /\
    evaluate_process_timeline analysis_text
    = Some (create_evaluation_result NOT_MET "Timeline information absent").
Proof.
  intros analysis_text _ H.
  assert (E : extract_timeline_weeks analysis_text = Some 0).
  { unfold extract_timeline_weeks.
    now rewrite (findall_needs _ _ _ week_pattern_needs_week H). }
  split; [exact E |].
  unfold evaluate_process_timeline. rewrite E. cbn [andb].
  now rewrite andb_false_r.
Qed.

Lemma no_week_no_timeline_witness :
  ascii_text "Closing expected within 60 days" = true /\
  contains "week" (lower "Closing expected within 60 days") = false /\
  extract_timeline_weeks "Closing expected within 60 days" = Some 0 /\
  evaluate_process_timeline "Closing expected within 60 days"
  = Some (create_evaluation_result NOT_MET "Timeline information absent").
Proof.
  split; [reflexivity |]. split; [reflexivity |].
  apply (no_week_no_timeline "Closing expected within 60 days"); reflexivity.
Defined.

(** X11: A text without "irr" (in any case), or without a percent sign, has
    no return projection: the extractor returns [0.0] and Return
    Threshold is NOT MET as not provided, low risk or not. *)
Theorem no_irr_no_return_projection :
  forall (repr_float : float -> string) (analysis_text : string),
    contains "irr" (lower analysis_text) = false \/
    contains "%" (lower analysis_text) = false ->
    extract_irr_percentage analysis_text = Some (literal "0.0") /\
    evaluate_return_threshold repr_float analysis_text
    = Some (create_evaluation_result NOT_MET "Return projections not provided").
Proof.
  intros repr_float analysis_text H.
  assert (E : extract_irr_percentage analysis_text = Some (literal "0.0")).
  { unfold extract_irr_percentage. destruct H as [H | H].
    - now rewrite (findall_needs _ _ _ irr_pattern_needs_irr H).
    - now rewrite (findall_needs _ _ _ irr_pattern_needs_percent H). }
  split; [exact E |].
  unfold evaluate_return_threshold. rewrite E. reflexivity.
Qed.

Lemma no_irr_no_return_projection_witness :
  (contains "irr" (lower "Expected return of 22% per year, low risk") = false \/
   contains "%" (lower "Expected return of 22% per year, low risk") = false) /\
  extract_irr_percentage "Expected return of 22% per year, low risk"
  = Some (literal "0.0") /\
  evaluate_return_threshold repr_opaque "Expected return of 22% per year, low risk"
  = Some (create_evaluation_result NOT_MET "Return projections not provided").
Proof.
  split; [left; reflexivity |].
  apply (no_irr_no_return_projection
           repr_opaque "Expected return of 22% per year, low risk").
  left; reflexivity.
Defined.

End extractionFacts.

(** ** The keyword predicates *)

Module keywordFacts.
Import PyStr PyStrFacts settings helpers.

Lemma lower_app (a b : string) : lower (a ++ b) = lower a ++ lower b.
Proof. induction a as [|c a IH]; simpl; [reflexivity | now rewrite IH]. Qed.

Lemma lower_char_idem (c : ascii) : lower_char (lower_char c) = lower_char c.
Proof. destruct c as [[|] [|] [|] [|] [|] [|] [|] [|]]; reflexivity. Qed.

Lemma lower_idem (s : string) : lower (lower s) = lower s.
Proof.
  induction s as [|c s IH]; simpl; [reflexivity |].
  now rewrite lower_char_idem, IH.
Qed.

(** X13: Keywords are found as substrings, with no word boundary: a keyword
    found in a text is found in any text that holds it, whatever is
    written before and after. *)
Theorem check_keywords_present_in_larger_text :
  forall (before analysis_text after : string) (keywords : list string),
    check_keywords_present analysis_text keywords = true ->
    check_keywords_present (before ++ analysis_text ++ after) keywords = true.
Proof.
  intros before analysis_text after keywords.
  unfold check_keywords_present. rewrite !existsb_exists.
  intros [k [Hin Hk]]. exists k. split; [exact Hin |].
  rewrite !lower_app. apply contains_spec in Hk as [a [b ->]].
  apply contains_spec. exists (lower before ++ a), (b ++ lower after).
  now rewrite !app_assoc.
Qed.

Lemma check_keywords_present_in_larger_text_witness :
  check_keywords_present "jv" ["joint venture"; "jv"] = true /\
  check_keywords_present ("Ra" ++ "jv" ++ "ir Holdings") ["joint venture"; "jv"] = true.
Proof.
  split; [reflexivity |].
  apply (check_keywords_present_in_larger_text "Ra" "jv" "ir Holdings"). reflexivity.
Defined.

(** X14: The case of the text and of the keywords plays no part, and the two
    predicates differ as "some" and "every" do: on no keyword at all
    "some" is false and "every" is true, and on at least one keyword
    "every" gives "some". *)
Theorem keyword_predicates_case_and_quantifier :
  forall (analysis_text : string) (keywords : list string),
    check_keywords_present (lower analysis_text) (map lower keywords)
    = check_keywords_present analysis_text keywords /\
    check_all_keywords_present (lower analysis_text) (map lower keywords)
    = check_all_keywords_present analysis_text keywords /\
    check_keywords_present analysis_text [] = false /\
    check_all_keywords_present analysis_text [] = true /\
    (keywords <> [] ->
     check_all_keywords_present analysis_text keywords = true ->
     check_keywords_present analysis_text keywords = true).
Proof.
  intros analysis_text keywords.
  unfold check_keywords_present, check_all_keywords_present.
  rewrite lower_idem. repeat split.
  - induction keywords as [|k l IH]; simpl; [reflexivity |].
    now rewrite lower_idem, IH.
  - induction keywords as [|k l IH]; simpl; [reflexivity |].
    now rewrite lower_idem, IH.
  - intros Hne H. destruct keywords as [|k l]; [contradiction |].
    simpl in *. apply andb_true_iff in H as [-> _]. reflexivity.
Qed.

End keywordFacts.

(** ** More on the criteria pass *)

Module passFacts.
Import PyStr PyNum PyStrFacts PyNumFacts PyDict VerdictSpec.
Import settings helpers helpersFacts evaluator evaluatorFacts.
Import workflow workflowFacts.

Lemma evaluate_investor_syndication_status (analysis_text : string) :
  status (evaluate_investor_syndication analysis_text) = MET.
Proof.
  unfold evaluate_investor_syndication.
  now destruct (_check_lead_investor analysis_text).
Qed.

(** One more entry adds one to the count when it is MET. *)
Lemma count_met_criteria_app (d1 d2 : dict Verdict) :
  count_met_criteria (d1 ++ d2)%list = count_met_criteria d1 + count_met_criteria d2.
Proof.
  unfold count_met_criteria, dict_values. rewrite map_app, fold_right_app.
  induction (map snd d1) as [|v l IH]; cbn [fold_right]; [reflexivity |].
  rewrite IH. destruct (status_eqb (status v) MET); lia.
Qed.

Lemma count_met_criteria_bounds (d : dict Verdict) :
  0 <= count_met_criteria d <= Z.of_nat (List.length d).
Proof.
  unfold count_met_criteria, dict_values.
  induction d as [|[k v] d IH]; [simpl; lia |].
  cbn [map snd fold_right List.length].
  destruct (status_eqb (status v) MET); lia.
Qed.

(** X15: The tally does not depend on the order of the entries nor on their
    keys; it lies between zero and the number of entries, and reaches
    that number exactly when every entry is MET. *)
Theorem count_met_criteria_tally :
  forall d1 d2 : dict Verdict,
    Permutation (map snd d1) (map snd d2) ->
    count_met_criteria d1 = count_met_criteria d2 /\
    0 <= count_met_criteria d1 <= Z.of_nat (List.length d1) /\
    (count_met_criteria d1 = Z.of_nat (List.length d1) <->
     Forall (fun entry => status (snd entry) = MET) d1).
Proof.
  intros d1 d2 HP. split; [| split; [apply count_met_criteria_bounds |]].
  - unfold count_met_criteria, dict_values.
    induction HP as [| v l l' _ IH | v v' l | l l' l'' _ IH1 _ IH2];
      cbn [fold_right].
    + reflexivity.
    + now rewrite IH.
    + destruct (status_eqb (status v) MET), (status_eqb (status v') MET); lia.
    + now rewrite IH1.
  - clear d2 HP. induction d1 as [|[k v] d IH].
    + split; [constructor | reflexivity].
    + pose proof (count_met_criteria_bounds d) as Hb.
      change (count_met_criteria ((k, v) :: d))
        with (if status_eqb (status v) MET
              then 1 + count_met_criteria d else count_met_criteria d).
      cbn [List.length]. rewrite Nat2Z.inj_succ.
      destruct (status v) eqn:Ev; cbn [status_eqb]; split.
      * intros H. constructor; [exact Ev | apply IH; lia].
      * intros H. inversion H; subst. apply IH in H3. lia.
      * intros H. lia.
      * intros H. inversion H; subst. cbn [snd] in H2. congruence.
Qed.

Lemma count_met_criteria_tally_witness :
  Permutation
    (map snd [("a", create_evaluation_result MET "x");
              ("b", create_evaluation_result NOT_MET "y")])
    (map snd [("c", create_evaluation_result NOT_MET "y");
              ("d", create_evaluation_result MET "x")]) /\
  count_met_criteria [("a", create_evaluation_result MET "x");
                      ("b", create_evaluation_result NOT_MET "y")]
  = count_met_criteria [("c", create_evaluation_result NOT_MET "y");
                        ("d", create_evaluation_result MET "x")].
Proof.
  assert (P : Permutation
    (map snd [("a", create_evaluation_result MET "x");
              ("b", create_evaluation_result NOT_MET "y")])
    (map snd [("c", create_evaluation_result NOT_MET "y");
              ("d", create_evaluation_result MET "x")])) by apply perm_swap.
  split; [exact P |].
  exact (proj1 (count_met_criteria_tally _ _ P)).
Defined.

(** X16: A pass that returns fills the nine keys the report reads, in the
    order of the registry and each once; under each key is the verdict
    of its own evaluator, so no lookup of the report can miss. The pass
    returns on every text of at most 4300 characters. *)
Theorem _evaluate_all_criteria_keys :
  (forall (repr_float : float -> string) (detailed_analysis : string)
          (d : dict Verdict),
    _evaluate_all_criteria repr_float detailed_analysis = Some d ->
    map fst d =
      ["Geography/Structure"; "Financial Milestones"; "Asset Class Exclusion";
       "Investor Syndication"; "Fee Terms"; "Investment Size";
       "Process Timeline"; "Return Threshold"; "Sector Focus"] /\
    NoDup (map fst d) /\
    dict_get d "Geography/Structure"
    = evaluate_geography_structure repr_float detailed_analysis /\
    dict_get d "Financial Milestones"
    = Some (evaluate_financial_milestones detailed_analysis) /\
    dict_get d "Asset Class Exclusion"
    = Some (evaluate_asset_class_exclusion detailed_analysis) /\
    dict_get d "Investor Syndication"
    = Some (evaluate_investor_syndication detailed_analysis) /\
    dict_get d "Fee Terms" = Some (evaluate_fee_terms detailed_analysis) /\
    dict_get d "Investment Size"
    = evaluate_investment_size repr_float detailed_analysis /\
    dict_get d "Process Timeline" = evaluate_process_timeline detailed_analysis /\
    dict_get d "Return Threshold"
    = evaluate_return_threshold repr_float detailed_analysis /\
    dict_get d "Sector Focus"
    = Some (evaluate_sector_focus detailed_analysis
              (count_met_criteria (firstn 8 d)))) /\
  (forall (repr_float : float -> string) (detailed_analysis : string),
    (String.length detailed_analysis <= int_max_str_digits)%nat ->
    exists d, _evaluate_all_criteria repr_float detailed_analysis = Some d).
Proof.
  split; [| exact _evaluate_all_criteria_total].
  intros repr_float detailed_analysis d Hd.
  destruct (_evaluate_all_criteria_entries _ _ _ Hd)
    as [v1 [v6 [v7 [v8 [E1 [E6 [E7 [E8 E]]]]]]]].
  cbv zeta in E. rewrite E in Hd. injection Hd as <-.
  rewrite E1, E6, E7, E8.
  split; [reflexivity |]. split; [| repeat split].
  cbn [map fst app].
  repeat (constructor; [simpl; intuition discriminate |]). constructor.
Qed.

(** The theorem at a short text: the pass returns, with the nine keys. *)
Lemma _evaluate_all_criteria_keys_witness :
  exists d,
    _evaluate_all_criteria repr_opaque "A logistics platform raising $6m" = Some d /\
    map fst d =
      ["Geography/Structure"; "Financial Milestones"; "Asset Class Exclusion";
       "Investor Syndication"; "Fee Terms"; "Investment Size";
       "Process Timeline"; "Return Threshold"; "Sector Focus"].
Proof.
  destruct (proj2 _evaluate_all_criteria_keys repr_opaque
                  "A logistics platform raising $6m")
    as [d Hd]; [vm_compute; lia |].
  exists d. split; [exact Hd |].
  exact (proj1 (proj1 _evaluate_all_criteria_keys _ _ _ Hd)).
Defined.

Ltac well_formed_cases :=
  repeat match goal with
         | |- well_formed (if ?b then _ else _) => destruct b
         end;
  (split; [reflexivity | let K := fresh in intros K; cbn in K; discriminate K]).

Lemma evaluate_geography_structure_well_formed
    (repr_float : float -> string) (analysis_text : string) (v : Verdict) :
  evaluate_geography_structure repr_float analysis_text = Some v -> well_formed v.
Proof.
  unfold evaluate_geography_structure.
  destruct (_check_dividend_opportunity analysis_text) as [b|]; [| discriminate].
  intros [= <-].
  well_formed_cases.
Qed.

Lemma evaluate_investment_size_well_formed
    (repr_float : float -> string) (analysis_text : string) (v : Verdict) :
  evaluate_investment_size repr_float analysis_text = Some v -> well_formed v.
Proof.
  unfold evaluate_investment_size.
  destruct (extract_investment_amount analysis_text) as [a|]; [| discriminate].
  intros [= <-].
  well_formed_cases.
Qed.

Lemma evaluate_process_timeline_well_formed (analysis_text : string) (v : Verdict) :
  evaluate_process_timeline analysis_text = Some v -> well_formed v.
Proof.
  unfold evaluate_process_timeline.
  destruct (extract_timeline_weeks analysis_text) as [w|]; [| discriminate].
  intros [= <-].
  well_formed_cases.
Qed.

Lemma evaluate_return_threshold_well_formed
    (repr_float : float -> string) (analysis_text : string) (v : Verdict) :
  evaluate_return_threshold repr_float analysis_text = Some v -> well_formed v.
Proof.
  unfold evaluate_return_threshold.
  destruct (extract_irr_percentage analysis_text) as [i|]; [| discriminate].
  intros [= <-].
  well_formed_cases.
Qed.

Lemma evaluate_financial_milestones_well_formed (analysis_text : string) :
  well_formed (evaluate_financial_milestones analysis_text).
Proof.
  unfold evaluate_financial_milestones.
  well_formed_cases.
Qed.

Lemma evaluate_asset_class_exclusion_well_formed (analysis_text : string) :
  well_formed (evaluate_asset_class_exclusion analysis_text).
Proof.
  unfold evaluate_asset_class_exclusion.
  well_formed_cases.
Qed.

Lemma evaluate_investor_syndication_well_formed (analysis_text : string) :
  well_formed (evaluate_investor_syndication analysis_text).
Proof.
  unfold evaluate_investor_syndication.
  well_formed_cases.
Qed.

Lemma evaluate_fee_terms_well_formed (analysis_text : string) :
  well_formed (evaluate_fee_terms analysis_text).
Proof.
  unfold evaluate_fee_terms.
  well_formed_cases.
Qed.

Lemma evaluate_sector_focus_well_formed (analysis_text : string) (n : Z) :
  well_formed (evaluate_sector_focus analysis_text n).
Proof.
  unfold evaluate_sector_focus.
  well_formed_cases.
Qed.

(** X17: Every verdict of a pass that returns has the glyph of its status
    and an explanation that is not empty. *)
Theorem _evaluate_all_criteria_verdicts_well_formed :
  forall (repr_float : float -> string) (detailed_analysis : string)
         (d : dict Verdict),
    _evaluate_all_criteria repr_float detailed_analysis = Some d ->
    Forall (fun entry => well_formed (snd entry)) d.
Proof.
  intros repr_float detailed_analysis d Hd.
  destruct (_evaluate_all_criteria_entries _ _ _ Hd)
    as [v1 [v6 [v7 [v8 [E1 [E6 [E7 [E8 E]]]]]]]].
  cbv zeta in E. rewrite E in Hd. injection Hd as <-.
  cbn [app].
  repeat (apply Forall_cons; [cbn [snd] | ]); [ .. | apply Forall_nil];
    eauto using evaluate_geography_structure_well_formed,
      evaluate_investment_size_well_formed,
      evaluate_process_timeline_well_formed,
      evaluate_return_threshold_well_formed,
      evaluate_financial_milestones_well_formed,
      evaluate_asset_class_exclusion_well_formed,
      evaluate_investor_syndication_well_formed,
      evaluate_fee_terms_well_formed,
      evaluate_sector_focus_well_formed.
Qed.

Lemma _evaluate_all_criteria_verdicts_well_formed_witness :
  exists d,
    _evaluate_all_criteria repr_opaque "Healthcare company, closing in 9 weeks"
    = Some d /\
    Forall (fun entry => well_formed (snd entry)) d.
Proof.
  eexists. split; [vm_compute; reflexivity |].
  apply (_evaluate_all_criteria_verdicts_well_formed
           repr_opaque "Healthcare company, closing in 9 weeks").
  vm_compute. reflexivity.
Defined.

(** What the count was when Sector Focus answered as it did. *)
Lemma evaluate_sector_focus_opportunistic_inv (analysis_text : string) (n : Z) :
  evaluate_sector_focus analysis_text n
  = create_evaluation_result MET
      "Opportunistic - meets other criteria and not in excluded sectors" ->
  6 <= n.
Proof.
  unfold evaluate_sector_focus.
  destruct (truthy (_find_target_sector analysis_text)).
  { intros H. apply (f_equal explanation) in H. cbn in H. discriminate H. }
  destruct (check_keywords_present analysis_text EXCLUDED_SECTORS);
    [discriminate |].
  destruct (Z.geb_spec n 6); [intros _; assumption | discriminate].
Qed.

Lemma evaluate_sector_focus_unclear_inv (analysis_text : string) (n : Z) :
  evaluate_sector_focus analysis_text n
  = create_evaluation_result NOT_MET "Sector information not clear" ->
  n <= 5.
Proof.
  unfold evaluate_sector_focus.
  destruct (truthy (_find_target_sector analysis_text)); [discriminate |].
  destruct (check_keywords_present analysis_text EXCLUDED_SECTORS).
  { intros H. apply (f_equal explanation) in H. cbn in H. discriminate H. }
  destruct (Z.geb_spec n 6); [discriminate | intros _; lia].
Qed.

(** X18: The number of criteria met in a pass that returns is never zero,
    since Investor Syndication is always among them: it is between 1
    and 9 out of the 9 entries, and the count Sector Focus receives is
    between 1 and 8. *)
Theorem _evaluate_all_criteria_met_count :
  forall (repr_float : float -> string) (detailed_analysis : string)
         (d : dict Verdict),
    _evaluate_all_criteria repr_float detailed_analysis = Some d ->
    List.length d = 9%nat /\
    1 <= count_met_criteria (firstn 8 d) <= 8 /\
    dict_get d "Sector Focus"
    = Some (evaluate_sector_focus detailed_analysis
              (count_met_criteria (firstn 8 d))) /\
    1 <= count_met_criteria d <= 9.
Proof.
  intros repr_float detailed_analysis d Hd.
  destruct (_evaluate_all_criteria_entries _ _ _ Hd)
    as [v1 [v6 [v7 [v8 [_ [_ [_ [_ E]]]]]]]].
  cbv zeta in E.
  match type of E with
  | _ = Some (?l ++ _)%list => set (eight := l) in *
  end.
  assert (Ed : d = (eight ++
                      [("Sector Focus",
                        evaluate_sector_focus detailed_analysis
                          (count_met_criteria eight))])%list) by congruence.
  clear E Hd. subst d.
  split; [reflexivity |].
  change (firstn 8 (eight ++ _)%list) with eight.
  assert (H8 : 1 <= count_met_criteria eight <= 8).
  { split; [| apply (count_met_criteria_bounds eight)].
    change eight with
      ((firstn 3 eight ++ [("Investor Syndication",
                            evaluate_investor_syndication detailed_analysis)])
         ++ skipn 4 eight)%list.
    rewrite !count_met_criteria_app.
    pose proof (count_met_criteria_bounds (firstn 3 eight)).
    pose proof (count_met_criteria_bounds (skipn 4 eight)).
    unfold count_met_criteria at 2. cbn [dict_values map snd fold_right].
    rewrite evaluate_investor_syndication_status. cbn [status_eqb]. lia. }
  split; [exact H8 |]. split; [reflexivity |].
  rewrite count_met_criteria_app.
  pose proof (count_met_criteria_bounds
                [("Sector Focus",
                  evaluate_sector_focus detailed_analysis (count_met_criteria eight))]).
  cbn [List.length] in H. lia.
Qed.

Lemma _evaluate_all_criteria_met_count_witness :
  exists d,
    _evaluate_all_criteria repr_opaque "A venture fund for consumer brands"
    = Some d /\
    List.length d = 9%nat /\
    1 <= count_met_criteria (firstn 8 d) <= 8 /\
    dict_get d "Sector Focus"
    = Some (evaluate_sector_focus "A venture fund for consumer brands"
              (count_met_criteria (firstn 8 d))) /\
    1 <= count_met_criteria d <= 9.
Proof.
  eexists. split; [vm_compute; reflexivity |].
  apply (_evaluate_all_criteria_met_count
           repr_opaque "A venture fund for consumer brands").
  vm_compute. reflexivity.
Defined.

(** X19: An opportunistic pass of Sector Focus always ends in a
    recommendation: it takes six of the other eight criteria, and makes
    seven with itself. *)
Theorem opportunistic_sector_gives_recommend :
  forall (repr_float : float -> string) (detailed_analysis : string) (d : dict Verdict),
    _evaluate_all_criteria repr_float detailed_analysis = Some d ->
    dict_get d "Sector Focus"
    = Some (create_evaluation_result MET
              "Opportunistic - meets other criteria and not in excluded sectors") ->
    7 <= count_met_criteria d /\
    report_recommendation d = "RECOMMEND for further due diligence".
Proof.
  intros repr_float detailed_analysis d Hd Hs.
  destruct (_evaluate_all_criteria_entries _ _ _ Hd)
    as [v1 [v6 [v7 [v8 [_ [_ [_ [_ E]]]]]]]].
  cbv zeta in E.
  match type of E with
  | _ = Some (?l ++ _)%list => set (eight := l) in *
  end.
  rewrite E in Hd. injection Hd as <-.
  change (dict_get (eight ++ _)%list "Sector Focus")
    with (Some (evaluate_sector_focus detailed_analysis (count_met_criteria eight)))
    in Hs.
  injection Hs as Hs.
  pose proof (evaluate_sector_focus_opportunistic_inv _ _ Hs) as Hn.
  assert (Hc : 7 <= count_met_criteria
                      (eight ++
                         [("Sector Focus",
                           evaluate_sector_focus detailed_analysis
                             (count_met_criteria eight))])%list).
  { rewrite count_met_criteria_app, Hs.
    change (count_met_criteria [("Sector Focus", create_evaluation_result MET _)])
      with 1. lia. }
  assert (G : 7 <= count_met_criteria
                     (eight ++
                        [("Sector Focus",
                          evaluate_sector_focus detailed_analysis
                            (count_met_criteria eight))])%list /\
              report_recommendation
                (eight ++
                   [("Sector Focus",
                     evaluate_sector_focus detailed_analysis
                       (count_met_criteria eight))])%list
              = "RECOMMEND for further due diligence").
  { clearbody eight. split; [exact Hc |].
    unfold report_recommendation, generate_overall_recommendation.
    match goal with
    | |- context [?c >=? 7] => destruct (Z.geb_spec c 7); [reflexivity | lia]
    end. }
  exact G.
Qed.

Lemma opportunistic_sector_gives_recommend_witness :
  exists d,
    _evaluate_all_criteria repr_opaque
      "GCC joint venture with a proven partner. The company charges no management fee. Ticket $8m, closing in 8 weeks, IRR 20%."
    = Some d /\
    dict_get d "Sector Focus"
    = Some (create_evaluation_result MET
              "Opportunistic - meets other criteria and not in excluded sectors") /\
    7 <= count_met_criteria d /\
    report_recommendation d = "RECOMMEND for further due diligence".
Proof.
  eexists. split; [vm_compute; reflexivity |]. split; [reflexivity |].
  eapply (opportunistic_sector_gives_recommend repr_opaque
            "GCC joint venture with a proven partner. The company charges no management fee. Ticket $8m, closing in 8 weeks, IRR 20%.");
    [vm_compute; reflexivity | reflexivity].
Defined.

(** X20: When Sector Focus is NOT MET because the sector is not clear, at
    most five criteria are met in all, and the pass never ends in a
    plain recommendation. *)
Theorem unclear_sector_never_recommend :
  forall (repr_float : float -> string) (detailed_analysis : string) (d : dict Verdict),
    _evaluate_all_criteria repr_float detailed_analysis = Some d ->
    dict_get d "Sector Focus"
    = Some (create_evaluation_result NOT_MET "Sector information not clear") ->
    count_met_criteria d <= 5 /\
    report_recommendation d <> "RECOMMEND for further due diligence".
Proof.
  intros repr_float detailed_analysis d Hd Hs.
  destruct (_evaluate_all_criteria_entries _ _ _ Hd)
    as [v1 [v6 [v7 [v8 [_ [_ [_ [_ E]]]]]]]].
  cbv zeta in E.
  match type of E with
  | _ = Some (?l ++ _)%list => set (eight := l) in *
  end.
  rewrite E in Hd. injection Hd as <-.
  change (dict_get (eight ++ _)%list "Sector Focus")
    with (Some (evaluate_sector_focus detailed_analysis (count_met_criteria eight)))
    in Hs.
  injection Hs as Hs.
  pose proof (evaluate_sector_focus_unclear_inv _ _ Hs) as Hn.
  assert (Hc : count_met_criteria
                 (eight ++
                    [("Sector Focus",
                      evaluate_sector_focus detailed_analysis
                        (count_met_criteria eight))])%list <= 5).
  { rewrite count_met_criteria_app, Hs.
    change (count_met_criteria [("Sector Focus", create_evaluation_result NOT_MET _)])
      with 0. lia. }
  assert (G : count_met_criteria
                (eight ++
                   [("Sector Focus",
                     evaluate_sector_focus detailed_analysis
                       (count_met_criteria eight))])%list <= 5 /\
              report_recommendation
                (eight ++
                   [("Sector Focus",
                     evaluate_sector_focus detailed_analysis
                       (count_met_criteria eight))])%list
              <> "RECOMMEND for further due diligence").
  { clearbody eight. split; [exact Hc |].
    unfold report_recommendation, generate_overall_recommendation.
    match goal with
    | |- context [?c >=? 7] => destruct (Z.geb_spec c 7); [lia |]
    end.
    match goal with
    | |- context [?c >=? 5] => destruct (c >=? 5); discriminate
    end. }
  exact G.
Qed.

Lemma unclear_sector_never_recommend_witness :
  exists d,
    _evaluate_all_criteria repr_opaque "A logistics platform raising $6m" = Some d /\
    dict_get d "Sector Focus"
    = Some (create_evaluation_result NOT_MET "Sector information not clear") /\
    count_met_criteria d <= 5 /\
    report_recommendation d <> "RECOMMEND for further due diligence".
Proof.
  eexists. split; [vm_compute; reflexivity |]. split; [reflexivity |].
  eapply (unclear_sector_never_recommend repr_opaque "A logistics platform raising $6m");
    [vm_compute; reflexivity | reflexivity].
Defined.

End passFacts.

(** ** The company name *)

Module companyFacts.
Import PyStr Re ReSpec ReFirst ReSearch ReSearchSpec PyStrFacts ReFacts keywordFacts.
Import helpers_company helpers_company_spec extractionFacts.

Lemma drop_lit_ic_sound (l s s' : string) :
  drop_lit_ic l s = Some s' -> exists w, s = w ++ s' /\ lower w = lower l.
Proof.
  revert s; induction l as [|a l IH]; intros s; simpl.
  - intros [= ->]. now exists "".
  - destruct s as [|b s]; [discriminate |].
    destruct (Ascii.eqb (lower_char a) (lower_char b)) eqn:E; [| discriminate].
    apply Ascii.eqb_eq in E. intros H. destruct (IH _ H) as [w [-> Hw]].
    exists (String b w). simpl. now rewrite Hw, E.
Qed.

Section InvariantIC.
Variable Q : string -> Prop.

(** [run_sound], with the flag. *)
Lemma run_ic_sound (r : regex) :
  forall s g s' g',
    In (s', g') (run_ic r s g) ->
    (exists w, s = w ++ s' /\ lang_ic r w) /\
    (groups_in_ic Q r -> holds Q g -> holds Q g').
Proof.
  induction r as [l | p | p | p | r1 IH1 | r1 IH1 r2 IH2 | r1 IH1];
    intros s g s' g'; simpl.
  - destruct (drop_lit_ic l s) as [t|] eqn:E; [| intros []].
    intros [[= <- <-] | []]. split; [| auto].
    now apply drop_lit_ic_sound.
  - destruct s as [|c s]; [intros [] |].
    destruct (p c) eqn:Hc; [| intros []].
    rewrite in_map_iff. intros [t [[= <- <-] Ht]]. split; [| auto].
    destruct (greedy_sound _ _ _ Ht) as [w [-> Hw]].
    exists (String c w). simpl. rewrite Hc, Hw. repeat split. discriminate.
  - rewrite in_map_iff. intros [t [[= <- <-] Ht]]. split; [| auto].
    destruct (greedy_sound _ _ _ Ht) as [w [-> Hw]]. now exists w.
  - rewrite in_map_iff. intros [t [[= <- <-] Ht]]. split; [| auto].
    destruct (reluctant_sound _ _ _ Ht) as [w [-> Hw]]. now exists w.
  - rewrite in_app_iff. intros [H | [[= <- <-] | []]].
    + destruct (IH1 _ _ _ _ H) as [[w [-> Hw]] Hg]. split; [| exact Hg].
      exists w. split; [reflexivity | now right].
    + split; [| auto]. exists "". split; [reflexivity | now left].
  - rewrite in_flat_map. intros [[t gt] [H1 H2]]. simpl in H2.
    destruct (IH1 _ _ _ _ H1) as [[w1 [-> Hw1]] Hg1].
    destruct (IH2 _ _ _ _ H2) as [[w2 [-> Hw2]] Hg2]. split.
    + exists (w1 ++ w2). split; [now rewrite app_assoc |].
      now exists w1, w2.
    + intros [G1 G2] Hg. auto.
  - rewrite in_map_iff. intros [[t gt] [[= <- <-] H]]. simpl.
    destruct (IH1 _ _ _ _ H) as [[w [-> Hw]] _]. split.
    + now exists w.
    + intros [G _] _. rewrite consumed_app. now apply G.
Qed.

End InvariantIC.

(** What [search_ic] returns for the company pattern was matched
    somewhere in the text: after a ["company name"] in some case, and
    made of one or more characters of a line without a period. *)
Lemma search_ic_company (s w : string) :
  search_ic company_pattern s = Some w ->
  (w <> "" /\ all_chars name_char w = true) /\
  contains "company name" (lower s) = true.
Proof.
  induction s as [|c s IH]; cbn [search_ic].
  - unfold match_at_ic. simpl. discriminate.
  - destruct (match_at_ic company_pattern (String c s)) as [[rest w']|] eqn:E.
    + intros [= <-]. unfold match_at_ic in E.
      destruct (run_ic company_pattern (String c s) None) as [|[t g] l] eqn:R;
        [discriminate |].
      assert (Hin : In (t, g) (run_ic company_pattern (String c s) None))
        by (rewrite R; now left).
      destruct (run_ic_sound (fun w => w <> "" /\ all_chars name_char w = true)
                  company_pattern _ _ _ _ Hin) as [[u [Hu Hl]] Hg].
      assert (Hq : holds (fun w => w <> "" /\ all_chars name_char w = true) g).
      { apply Hg; [| exact I]. simpl. intuition. }
      split.
      * unfold company_pattern in Hin. cbn [run_ic] in Hin.
        apply in_flat_map in Hin as [[t1 g1] [_ Hin]].
        apply in_flat_map in Hin as [[t2 g2] [_ Hin]].
        apply in_map_iff in Hin as [[t3 g3] [[= <- <-] _]].
        injection E as _ <-. exact Hq.
      * destruct Hl as [w1 [w2 [-> [Hw1 _]]]]. simpl in Hw1.
        rewrite Hu. rewrite !lower_app, Hw1.
        apply contains_spec. exists "". eexists. reflexivity.
    + intros H. destruct (IH H) as [Hw Hc]. split; [exact Hw |].
      cbn [lower]. apply contains_spec in Hc as [a [b Hab]].
      apply contains_spec. exists (String (lower_char c) a), b.
      simpl. now rewrite Hab.
Qed.

Lemma all_chars_lstrip (p : ascii -> bool) (s : string) :
  all_chars p s = true -> all_chars p (lstrip s) = true.
Proof.
  induction s as [|c s IH]; [reflexivity |]. intros H. cbn [lstrip].
  destruct (is_space c); [| exact H].
  simpl in H. apply andb_true_iff in H as [_ H]. now apply IH.
Qed.

Lemma all_chars_rstrip (p : ascii -> bool) (s : string) :
  all_chars p s = true -> all_chars p (rstrip s) = true.
Proof.
  induction s as [|c s IH]; [reflexivity |]. intros H.
  simpl in H. apply andb_true_iff in H as [Hc H]. specialize (IH H).
  cbn [rstrip]. destruct (rstrip s) as [|d t].
  - destruct (is_space c); simpl; [reflexivity | now rewrite Hc].
  - change (all_chars p (String c (String d t)))
      with (p c && all_chars p (String d t))%bool. now rewrite Hc, IH.
Qed.

Lemma rstrip_idem (s : string) : rstrip (rstrip s) = rstrip s.
Proof.
  induction s as [|c s IH]; [reflexivity |]. cbn [rstrip].
  destruct (rstrip s) as [|d t] eqn:E.
  - destruct (is_space c) eqn:Hc; [reflexivity |]. cbn [rstrip]. now rewrite Hc.
  - change (rstrip (String c (String d t)))
      with (match rstrip (String d t) with
            | EmptyString => if is_space c then EmptyString else String c EmptyString
            | String e u => String c (String e u)
            end).
    now rewrite IH.
Qed.

(** After [lstrip] a text is empty or starts with something else than
    white space, and [rstrip] keeps that. *)
Lemma lstrip_rstrip_lstrip (s : string) :
  lstrip (rstrip (lstrip s)) = rstrip (lstrip s).
Proof.
  assert (H : lstrip s = "" \/
              exists c t, lstrip s = String c t /\ is_space c = false).
  { induction s as [|c s IH]; [now left |]. cbn [lstrip].
    destruct (is_space c) eqn:Hc; [exact IH | right; eauto]. }
  destruct H as [-> | [c [t [-> Hc]]]]; [reflexivity |].
  cbn [rstrip]. destruct (rstrip t); rewrite ?Hc; cbn [lstrip]; now rewrite Hc.
Qed.

(** X21: The name returned holds no period, line feed or carriage return,
    and has no white space left at either end: stripping it again
    changes nothing. This holds for the placeholder too. *)
Theorem extract_company_name_clean :
  forall analysis_text : string,
    all_chars name_char (extract_company_name analysis_text) = true /\
    strip (extract_company_name analysis_text) = extract_company_name analysis_text.
Proof.
  intros analysis_text. unfold extract_company_name.
  destruct (search_ic company_pattern analysis_text) as [w|] eqn:E;
    [| split; reflexivity].
  destruct (search_ic_company _ _ E) as [[_ Hw] _]. split.
  - unfold strip. now apply all_chars_rstrip, all_chars_lstrip.
  - unfold strip. now rewrite lstrip_rstrip_lstrip, rstrip_idem.
Qed.

(** X22: Without "company name" in the text, in whatever case, the name is
    the placeholder. *)
Theorem extract_company_name_absent :
  forall analysis_text : string,
    contains "company name" (lower analysis_text) = false ->
    extract_company_name analysis_text = "Unknown Company".
Proof.
  intros analysis_text H. unfold extract_company_name.
  destruct (search_ic company_pattern analysis_text) as [w|] eqn:E;
    [| reflexivity].
  destruct (search_ic_company _ _ E) as [_ Hc]. congruence.
Qed.

Lemma extract_company_name_absent_witness :
  contains "company name" (lower "Company: Acme Corp. Name of fund: none") = false /\
  extract_company_name "Company: Acme Corp. Name of fund: none" = "Unknown Company".
Proof.
  split; [reflexivity |].
  apply (extract_company_name_absent "Company: Acme Corp. Name of fund: none").
  reflexivity.
Defined.

(** *** Finding the name *)

Lemma drop_lit_ic_app (l w s : string) :
  lower w = lower l -> drop_lit_ic l (w ++ s) = Some s.
Proof.
  revert w; induction l as [|a l IH]; intros [|b w]; simpl; try discriminate.
  - reflexivity.
  - intros [= Hb Hw]. rewrite Hb, Ascii.eqb_refl. now apply IH.
Qed.

Lemma drop_lit_ic_startswith (l s s' : string) :
  drop_lit_ic l s = Some s' -> startswith (lower l) (lower s) = true.
Proof.
  revert s; induction l as [|a l IH]; intros s; simpl; [reflexivity |].
  destruct s as [|b s]; [discriminate |].
  destruct (Ascii.eqb (lower_char a) (lower_char b)) eqn:E; [| discriminate].
  intros H. simpl. now rewrite E, (IH _ H).
Qed.

Lemma startswith_app_short (l a b : string) :
  startswith l (a ++ b) = true -> (String.length l <= String.length a)%nat ->
  startswith l a = true.
Proof.
  revert a; induction l as [|x l IH]; intros a; [reflexivity |].
  destruct a as [|y a]; simpl; [lia |].
  intros H Hlen. apply andb_true_iff in H as [-> H]. simpl.
  apply IH; [exact H | lia].
Qed.

(** No match starts in [pre]. *)
Lemma no_label_before_no_match (pre label more : string) :
  no_label_before pre label = true ->
  String.length label = 12%nat ->
  forall p c t, pre = p ++ String c t ->
    match_at_ic company_pattern (String c t ++ label ++ more) = None.
Proof.
  intros Hno Hlen p c t ->.
  induction p as [|x p IH].
  - cbn [append no_label_before] in Hno.
    apply andb_true_iff in Hno as [Hno _]. apply negb_true_iff in Hno.
    unfold match_at_ic, company_pattern. cbn [run_ic].
    destruct (drop_lit_ic "company name" (String c t ++ label ++ more))
      as [s'|] eqn:E; [exfalso | reflexivity].
    apply drop_lit_ic_startswith in E.
    change (String c t ++ label ++ more) with (String c (t ++ label ++ more)) in E.
    replace (String c (t ++ label ++ more))
      with ((String c t ++ label) ++ more) in E
      by (simpl; now rewrite app_assoc).
    rewrite lower_app in E. apply startswith_app_short in E.
    + change (lower "company name") with "company name" in E.
      simpl in Hno. simpl in E. congruence.
    + rewrite !length_lower. cbn [append String.length].
      rewrite length_app, Hlen. lia.
  - apply IH. cbn [append no_label_before] in Hno.
    now apply andb_true_iff in Hno as [_ Hno].
Qed.

Lemma search_ic_skip_prefix (r : regex) (s : string) :
  forall pre,
    (forall p c t, pre = p ++ String c t -> match_at_ic r (String c t ++ s) = None) ->
    search_ic r (pre ++ s) = search_ic r s.
Proof.
  induction pre as [|c pre IH]; intros H; [reflexivity |].
  change (String c pre ++ s) with (String c (pre ++ s)). cbn [search_ic].
  change (String c (pre ++ s)) with (String c pre ++ s).
  rewrite (H "" c pre eq_refl). apply IH.
  intros p c' t ->. apply (H (String c p)). reflexivity.
Qed.

(** X23: A labelled name is found: when an ASCII text reads
    [pre label sep name rest], [label] being the first "company name"
    of the text (in any case), [sep] colons and white space, [name] a run
    of characters other than period, line feed and carriage return that
    starts with neither a colon nor white space, and [rest] empty or
    starting with one of those three characters, the result is [name]
    without its trailing white space. So the name ends at the first
    period. *)
Theorem extract_company_name_finds :
  forall pre label sep name rest : string,
    ascii_text (pre ++ label ++ sep ++ name ++ rest) = true ->
    no_label_before pre label = true ->
    lower label = "company name" ->
    sep <> "" -> all_chars colon_or_space sep = true ->
    name <> "" -> all_chars name_char name = true ->
    stops colon_or_space name ->
    stops name_char rest ->
    extract_company_name (pre ++ label ++ sep ++ name ++ rest) = rstrip name.
Proof.
  intros pre label sep name rest _ Hno Hlabel Hsne Hsep Hnne Hname Hstart Hrest.
  assert (Hlen : String.length label = 12%nat).
  { rewrite <- length_lower, Hlabel. reflexivity. }
  unfold extract_company_name.
  rewrite search_ic_skip_prefix
    by (apply (no_label_before_no_match pre label (sep ++ name ++ rest) Hno Hlen)).
  assert (Hm : match_at_ic company_pattern (label ++ sep ++ name ++ rest)
               = Some (rest, name)).
  { unfold match_at_ic, company_pattern. cbn [run_ic].
    rewrite (drop_lit_ic_app "company name" label _ Hlabel).
    cbn [flat_map fst snd].
    assert (Hs2 : stops colon_or_space (name ++ rest)).
    { destruct name; [contradiction | exact Hstart]. }
    destruct (plus_first colon_or_space sep (name ++ rest) None Hsne Hsep Hs2)
      as [l1 H1].
    destruct (plus_first name_char name rest None Hnne Hname Hrest) as [l2 H2].
    cbn [run] in H1, H2. rewrite H1. cbn [flat_map fst snd app].
    rewrite H2. cbn [map fst snd app]. now rewrite consumed_app. }
  assert (Hs : search_ic company_pattern (label ++ sep ++ name ++ rest) = Some name).
  { destruct (label ++ sep ++ name ++ rest); cbn [search_ic]; now rewrite Hm. }
  rewrite Hs. unfold strip.
  destruct name as [|c name]; [contradiction |].
  unfold stops in Hstart. unfold colon_or_space in Hstart.
  apply orb_false_iff in Hstart as [_ Hc]. cbn [lstrip]. now rewrite Hc.
Qed.

Lemma extract_company_name_finds_witness :
  ascii_text
    ("Re: " ++ "Company Name" ++ ": " ++ "Acme Corp  " ++ ". Sector: logistics")
  = true /\
  no_label_before "Re: " "Company Name" = true /\
  lower "Company Name" = "company name" /\
  ": " <> "" /\ all_chars colon_or_space ": " = true /\
  "Acme Corp  " <> "" /\ all_chars name_char "Acme Corp  " = true /\
  stops colon_or_space "Acme Corp  " /\
  stops name_char ". Sector: logistics" /\
  extract_company_name
    ("Re: " ++ "Company Name" ++ ": " ++ "Acme Corp  " ++ ". Sector: logistics")
  = rstrip "Acme Corp  ".
Proof.
  repeat (split; [first [reflexivity | discriminate] |]).
  apply (extract_company_name_finds
           "Re: " "Company Name" ": " "Acme Corp  " ". Sector: logistics");
    first [reflexivity | discriminate].
Defined.

(** The placeholder is not what a blank name gives: a label followed by
    a period yields the empty name. *)
Example extract_company_name_blank :
  extract_company_name "Company name: . Sector: logistics" = "" /\
  extract_company_name "COMPANY NAME:  St. Mary Holdings" = "St".
Proof. split; vm_compute; reflexivity. Qed.

End companyFacts.

(** ** The analysis in batches *)

Module batchFacts.
Import settings_workflow workflow_analysis.

(** The slices the loop takes, one after the other, make up the list
    from the first start on. *)
Lemma slices_from (A : Type) (l : list A) (step : nat) :
  (0 < step)%nat ->
  forall fuel i,
    (List.length l - i <= fuel)%nat ->
    List.concat (map (fun j => slice l j (j + step))
                (range_from fuel i (List.length l) step))
    = skipn i l.
Proof.
  intros Hstep. induction fuel as [|fuel IH]; intros i Hfuel.
  - simpl. symmetry. apply skipn_all2. lia.
  - cbn [range_from]. destruct (Nat.ltb_spec i (List.length l)) as [Hi | Hi].
    + cbn [map List.concat]. rewrite IH by lia. unfold slice.
      replace (i + step - i)%nat with step by lia.
      replace (i + step)%nat with (step + i)%nat by lia.
      rewrite <- skipn_skipn. apply firstn_skipn.
    + simpl. symmetry. apply skipn_all2. lia.
Qed.

Lemma slices_sizes (A : Type) (l : list A) (step : nat) :
  (0 < step)%nat ->
  forall fuel i,
    Forall (fun b => (1 <= List.length b <= step)%nat)
           (map (fun j => slice l j (j + step))
                (range_from fuel i (List.length l) step)).
Proof.
  intros Hstep. induction fuel as [|fuel IH]; intros i; [constructor |].
  cbn [range_from]. destruct (Nat.ltb_spec i (List.length l)) as [Hi | Hi];
    [| constructor].
  cbn [map]. constructor; [| apply IH].
  unfold slice. rewrite length_firstn, length_skipn. lia.
Qed.

Section Batches.
Variable analysis_query : string.
Variable analyze_documents_with_polling : string -> list string -> option string.

Lemma analyze_batches_all (document_ids : list string) :
  forall starts analysis_results,
    (forall i, In i starts ->
       analyze_documents_with_polling analysis_query
         (slice document_ids i (i + MAX_DOCUMENTS_PER_BATCH)) <> None) ->
    exists results,
      Forall2 (fun i r =>
                 analyze_documents_with_polling analysis_query
                   (slice document_ids i (i + MAX_DOCUMENTS_PER_BATCH)) = Some r)
              starts results /\
      analyze_batches analysis_query analyze_documents_with_polling
        starts document_ids analysis_results
      = Some (analysis_results ++ results)%list.
Proof.
  induction starts as [|i starts IH]; intros acc H.
  - exists []. split; [constructor | simpl; now rewrite app_nil_r].
  - cbn [analyze_batches].
    destruct (analyze_documents_with_polling analysis_query
                (slice document_ids i (i + MAX_DOCUMENTS_PER_BATCH)))
      as [r|] eqn:E; [| exfalso; apply (H i); [now left | exact E]].
    destruct (IH (acc ++ [r])%list) as [results [HF Hr]].
    { intros j Hj. apply H. now right. }
    exists (r :: results). split; [now constructor |].
    rewrite Hr, <- app_assoc. reflexivity.
Qed.

Lemma analyze_batches_fails (document_ids : list string) :
  forall starts analysis_results,
    (exists i, In i starts /\
       analyze_documents_with_polling analysis_query
         (slice document_ids i (i + MAX_DOCUMENTS_PER_BATCH)) = None) ->
    analyze_batches analysis_query analyze_documents_with_polling
      starts document_ids analysis_results = None.
Proof.
  induction starts as [|j starts IH]; intros acc [i [Hin Hi]]; [destruct Hin |].
  cbn [analyze_batches].
  destruct (analyze_documents_with_polling analysis_query
              (slice document_ids j (j + MAX_DOCUMENTS_PER_BATCH)))
    as [r|] eqn:E; [| reflexivity].
  apply IH. destruct Hin as [-> | Hin]; [congruence | eauto].
Qed.

(** X24: The batches of [_analyze_documents] cut the list of documents into
    consecutive pieces of one to five documents: put end to end they are
    the list, so each document is sent once and in order. With more than
    five documents the result is the answers of the batches joined by a
    blank line, and an analysis that raises makes the whole call raise;
    with five or fewer there is one call, on the whole list, the empty
    one included. *)
Theorem _analyze_documents_batches :
  forall document_ids : list string,
    let batches :=
      map (fun i => slice document_ids i (i + MAX_DOCUMENTS_PER_BATCH))
          (range_step (List.length document_ids) MAX_DOCUMENTS_PER_BATCH) in
    List.concat batches = document_ids /\
    Forall (fun b => (1 <= List.length b <= 5)%nat) batches /\
    ((5 < List.length document_ids)%nat ->
     (forall b, In b batches ->
        analyze_documents_with_polling analysis_query b <> None) ->
     exists results,
       Forall2 (fun b r => analyze_documents_with_polling analysis_query b = Some r)
               batches results /\
       _analyze_documents analysis_query analyze_documents_with_polling document_ids
       = Some (join blank_line results)) /\
    ((5 < List.length document_ids)%nat ->
     (exists b, In b batches /\
        analyze_documents_with_polling analysis_query b = None) ->
     _analyze_documents analysis_query analyze_documents_with_polling document_ids
     = None) /\
    ((List.length document_ids <= 5)%nat ->
     _analyze_documents analysis_query analyze_documents_with_polling document_ids
     = analyze_documents_with_polling analysis_query document_ids).
Proof.
  intros document_ids batches.
  assert (Hstep : (0 < MAX_DOCUMENTS_PER_BATCH)%nat) by (unfold MAX_DOCUMENTS_PER_BATCH; lia).
  split; [| split; [| split; [| split]]].
  - unfold batches, range_step.
    rewrite (slices_from string document_ids _ Hstep) by lia. reflexivity.
  - apply (slices_sizes string document_ids _ Hstep).
  - intros Hlen Hall. unfold _analyze_documents.
    destruct (Nat.ltb_spec MAX_DOCUMENTS_PER_BATCH (List.length document_ids))
      as [_ | Hle]; [| unfold MAX_DOCUMENTS_PER_BATCH in Hle; lia].
    destruct (analyze_batches_all document_ids
                (range_step (List.length document_ids) MAX_DOCUMENTS_PER_BATCH) [])
      as [results [HF Hr]].
    { intros i Hi. apply Hall. unfold batches.
      apply in_map_iff. exists i. split; [reflexivity | exact Hi]. }
    exists results. split.
    + unfold batches. clear -HF.
      induction HF; cbn [map]; constructor; assumption.
    + rewrite Hr. reflexivity.
  - intros Hlen [b [Hb Hnone]]. unfold _analyze_documents.
    destruct (Nat.ltb_spec MAX_DOCUMENTS_PER_BATCH (List.length document_ids))
      as [_ | Hle]; [| unfold MAX_DOCUMENTS_PER_BATCH in Hle; lia].
    unfold batches in Hb. apply in_map_iff in Hb as [i [<- Hi]].
    rewrite analyze_batches_fails; [reflexivity | eauto].
  - intros Hlen. unfold _analyze_documents.
    destruct (Nat.ltb_spec MAX_DOCUMENTS_PER_BATCH (List.length document_ids))
      as [Hlt | _]; [unfold MAX_DOCUMENTS_PER_BATCH in Hlt; lia | reflexivity].
Qed.

End Batches.

(** Twelve documents go in batches of five, five and two. *)
Example batches_of_twelve :
  map (fun i => slice ["1";"2";"3";"4";"5";"6";"7";"8";"9";"10";"11";"12"]
                      i (i + MAX_DOCUMENTS_PER_BATCH))
      (range_step 12 MAX_DOCUMENTS_PER_BATCH)
  = [["1";"2";"3";"4";"5"]; ["6";"7";"8";"9";"10"]; ["11";"12"]].
Proof. reflexivity. Qed.

End batchFacts.

(** ** Polling for the analysis *)

Module pollingFacts.
Import PyStr settings_workflow paradigm_client.

(** After [n] pending answers the loop is at its [n]-th round, and goes
    on from there. *)
Lemma poll_loop_pending (get : nat -> answer) :
  forall k fuel n elapsed,
    (forall j, (j < k)%nat -> poll_round (get (n + j)%nat) = None) ->
    elapsed + POLL_INTERVAL * Z.of_nat k <= MAX_WAIT_TIME ->
    poll_loop (k + fuel) get n elapsed
    = poll_loop fuel get (n + k)%nat (elapsed + POLL_INTERVAL * Z.of_nat k).
Proof.
  unfold POLL_INTERVAL, MAX_WAIT_TIME.
  induction k as [|k IH]; intros fuel n elapsed Hp He.
  - simpl. f_equal; [lia |]. now rewrite Z.add_0_r.
  - cbn [Nat.add poll_loop]. unfold MAX_WAIT_TIME.
    destruct (Z.ltb_spec elapsed 300); [| lia].
    pose proof (Hp 0%nat ltac:(lia)) as H0. rewrite Nat.add_0_r in H0. rewrite H0.
    unfold POLL_INTERVAL. rewrite IH.
    + f_equal; lia.
    + intros j Hj. replace (S n + j)%nat with (n + S j)%nat by lia.
      apply Hp. lia.
    + lia.
Qed.

(** X25: The polling stops within sixty polls: it ends with the first answer
    that is not pending, if it is among the first sixty, and with the
    time-out when the first sixty answers are all pending; later answers
    are never asked for, and 61 rounds of fuel are always enough. A
    refused start raises without any poll. *)
Theorem analyze_documents_with_polling_bounded :
  forall (fuel : nat) (start : answer) (get : nat -> answer),
    (61 <= fuel)%nat ->
    (http_status start = 200 ->
     forall k o,
       (k < 60)%nat ->
       (forall j, (j < k)%nat -> poll_round (get j) = None) ->
       poll_round (get k) = Some o ->
       analyze_documents_with_polling fuel start get = Some o) /\
    (http_status start = 200 ->
     (forall j, (j < 60)%nat -> poll_round (get j) = None) ->
     analyze_documents_with_polling fuel start get
     = Some (Raised "Analysis timed out")) /\
    (http_status start <> 200 ->
     analyze_documents_with_polling fuel start get
     = Some (Raised ("Analysis API error " ++ str_of_int (http_status start)
                       ++ ": " ++ text start))).
Proof.
  intros fuel start get Hfuel. repeat split.
  - intros Hs k o Hk Hp Ho. unfold analyze_documents_with_polling.
    rewrite Hs, Z.eqb_refl.
    replace fuel with (k + (fuel - k))%nat by lia.
    rewrite poll_loop_pending;
      [| exact Hp | unfold POLL_INTERVAL, MAX_WAIT_TIME; lia].
    destruct (fuel - k)%nat as [|f] eqn:E; [lia |].
    cbn [poll_loop Nat.add]. unfold POLL_INTERVAL, MAX_WAIT_TIME.
    destruct (Z.ltb_spec (0 + 5 * Z.of_nat k) 300); [| lia].
    now rewrite Ho.
  - intros Hs Hp. unfold analyze_documents_with_polling.
    rewrite Hs, Z.eqb_refl.
    replace fuel with (60 + (fuel - 60))%nat by lia.
    rewrite poll_loop_pending;
      [| exact Hp | unfold POLL_INTERVAL, MAX_WAIT_TIME; lia].
    destruct (fuel - 60)%nat as [|f] eqn:E; [lia |].
    reflexivity.
  - intros Hs. unfold analyze_documents_with_polling.
    apply Z.eqb_neq in Hs. now rewrite Hs.
Qed.

(** The theorem with 61 rounds, on a service that answers 404 twice
    and then 200 with a finished analysis. *)
Lemma analyze_documents_with_polling_bounded_witness :
  (61 <= 61)%nat /\
  analyze_documents_with_polling 61
    (mkAnswer 200 "" None None None)
    (fun n => if (n <? 2)%nat then mkAnswer 404 "" None None None
              else mkAnswer 200 "" (Some "SUCCESS") (Some "Report") None)
  = Some (Returned "Report").
Proof.
  split; [lia |].
  apply (proj1 (analyze_documents_with_polling_bounded 61
                  (mkAnswer 200 "" None None None)
                  (fun n => if (n <? 2)%nat then mkAnswer 404 "" None None None
                            else mkAnswer 200 "" (Some "SUCCESS") (Some "Report") None)
                  ltac:(lia)) eq_refl 2%nat (Returned "Report")).
  - lia.
  - intros j Hj. destruct j as [|[|j]]; [reflexivity | reflexivity | lia].
  - reflexivity.
Defined.

Lemma or_else_truthy (a : option string) (b : string) :
  truthy b = true -> truthy (or_else a b) = true.
Proof.
  intros Hb. destruct a as [v|]; simpl; [| exact Hb].
  destruct (truthy v) eqn:E; [exact E | exact Hb].
Qed.

(** X26: A finished analysis never returns an empty text: an empty or
    missing ["result"] gives way to ["detailed_analysis"], and an empty
    or missing one to the text "Analysis completed". *)
Theorem poll_round_returns_text :
  forall (r : answer) (value : string),
    poll_round r = Some (Returned value) ->
    value <> "" /\
    value = or_else (field_result r)
              (or_else (field_detailed_analysis r) "Analysis completed") /\
    http_status r = 200.
Proof.
  intros r value. unfold poll_round.
  destruct (Z.eqb_spec (http_status r) 200) as [H200 | _].
  - destruct (str_in (lower (get_default (field_status r) ""))
                     ["completed"; "complete"; "finished"; "success"]).
    + intros [= <-]. repeat split; [| exact H200].
      assert (T : truthy (or_else (field_result r)
                            (or_else (field_detailed_analysis r) "Analysis completed"))
                  = true)
        by (apply or_else_truthy, or_else_truthy; reflexivity).
      intros E. rewrite E in T. discriminate T.
    + destruct (str_in (lower (get_default (field_status r) "")) ["failed"; "error"]);
        discriminate.
  - destruct (http_status r =? 404); discriminate.
Qed.

Lemma poll_round_returns_text_witness :
  poll_round (mkAnswer 200 "" (Some "Completed") (Some "") None)
  = Some (Returned "Analysis completed") /\
  "Analysis completed" <> "" /\
  "Analysis completed"
  = or_else (Some "") (or_else None "Analysis completed") /\
  200 = 200.
Proof.
  split; [reflexivity |].
  apply (poll_round_returns_text
           (mkAnswer 200 "" (Some "Completed") (Some "") None) "Analysis completed").
  reflexivity.
Defined.

End pollingFacts.
